(** * The event-driven backtest engine ([source/backtest_engine.py])

    A shallow embedding of class [Backtest]: its constructor, its four event
    handlers and [run].  The engine is orchestration code: everything it does
    is a method call on a collaborator (data feed, event engine, data board,
    brokerage, portfolio manager, performance manager, strategy).  The
    collaborators live in other modules of the repository, so they enter the
    development as interfaces; the engine's own code is embedded statement by
    statement in a state-and-exception monad that also records every method
    call, which is what the ordering properties are stated on. *)

From Stdlib Require Import ZArith Lia Ascii String.
From stdpp Require Import base option list gmap strings pretty.

Local Open Scope Z_scope.

(** ** Python values that reach the engine through the configuration *)

(** [pandas.Timestamp]: nanoseconds since 1970-01-01T00:00. *)
Definition Timestamp := Z.

(** Days between 1970-01-01 and a date of the proleptic Gregorian calendar. *)
Definition days_from_civil (y m d : Z) : Z :=
  let y' := if decide (m <= 2) then y - 1 else y in
  let era := y' / 400 in
  let yoe := y' - era * 400 in
  let doy := (153 * (if decide (m <= 2) then m + 9 else m - 3) + 2) / 5 + d - 1 in
  let doe := yoe * 365 + yoe / 4 - yoe / 100 + doy in
  era * 146097 + doe - 719468.

(** [Timestamp('YYYY-MM-DD')]. *)
Definition Timestamp_of_date (y m d : Z) : Timestamp :=
  days_from_civil y m d * 86400 * 1000000000.

(** The values a YAML configuration holds at the keys the engine reads. *)
Inductive PyVal :=
| PyNone
| PyStr (s : string)
| PyInt (n : Z).

#[global] Instance PyVal_eq_dec : EqDecision PyVal.
Proof. solve_decision. Defined.

(** [str(v)]. *)
Definition py_str (v : PyVal) : string :=
  match v with
  | PyNone => "None"
  | PyStr s => s
  | PyInt n => pretty n
  end.

(** ** Python strings

    A [str] is a sequence of Unicode code points; it is held as its UTF-8
    encoding, which is what a string literal of this file is.  A byte that
    is not part of a well-formed sequence stands for the code point Python
    gives it under [surrogateescape], U+DC00 plus the byte. *)

(** The number with these bits, lowest first. *)
Definition N_of_bits (l : list bool) : N :=
  fold_right (fun (b : bool) n => ((if b then 1 else 0) + 2 * n)%N) 0%N l.

Definition escaped (a : ascii) : N := (56320 + N_of_ascii a)%N.

Fixpoint utf8_decode (l : list ascii) : list N :=
  match l with
  | [] => []
  | a :: l1 =>
      match a with
      | Ascii _ _ _ _ _ _ _ false => N_of_ascii a :: utf8_decode l1
      | Ascii b0 b1 b2 b3 b4 false true true =>
          match l1 with
          | Ascii c0 c1 c2 c3 c4 c5 false true :: l2 =>
              let cp := N_of_bits [c0; c1; c2; c3; c4; c5; b0; b1; b2; b3; b4] in
              if (128 <=? cp)%N then cp :: utf8_decode l2
              else escaped a :: utf8_decode l1
          | _ => escaped a :: utf8_decode l1
          end
      | Ascii b0 b1 b2 b3 false true true true =>
          match l1 with
          | Ascii c0 c1 c2 c3 c4 c5 false true
              :: Ascii d0 d1 d2 d3 d4 d5 false true :: l3 =>
              let cp := N_of_bits [d0; d1; d2; d3; d4; d5; c0; c1; c2; c3; c4; c5;
                                   b0; b1; b2; b3] in
              if ((2048 <=? cp) && negb ((55296 <=? cp) && (cp <=? 57343)))%N
              then cp :: utf8_decode l3
              else escaped a :: utf8_decode l1
          | _ => escaped a :: utf8_decode l1
          end
      | Ascii b0 b1 b2 false true true true true =>
          match l1 with
          | Ascii c0 c1 c2 c3 c4 c5 false true
              :: Ascii d0 d1 d2 d3 d4 d5 false true
              :: Ascii e0 e1 e2 e3 e4 e5 false true :: l4 =>
              let cp := N_of_bits [e0; e1; e2; e3; e4; e5; d0; d1; d2; d3; d4; d5;
                                   c0; c1; c2; c3; c4; c5; b0; b1; b2] in
              if ((65536 <=? cp) && (cp <=? 1114111))%N
              then cp :: utf8_decode l4
              else escaped a :: utf8_decode l1
          | _ => escaped a :: utf8_decode l1
          end
      | _ => escaped a :: utf8_decode l1
      end
  end.

(** The bytes of one code point. *)
Definition utf8_encode_cp (c : N) : list ascii :=
  let b := N.testbit c in
  if (c <? 128)%N then [ascii_of_N c]
  else if (c <? 2048)%N then
    [Ascii (b 6) (b 7) (b 8) (b 9) (b 10) false true true;
     Ascii (b 0) (b 1) (b 2) (b 3) (b 4) (b 5) false true]%N
  else if ((56448 <=? c) && (c <=? 56575))%N then
    [Ascii (b 0) (b 1) (b 2) (b 3) (b 4) (b 5) (b 6) true]%N
  else if (c <? 65536)%N then
    [Ascii (b 12) (b 13) (b 14) (b 15) false true true true;
     Ascii (b 6) (b 7) (b 8) (b 9) (b 10) (b 11) false true;
     Ascii (b 0) (b 1) (b 2) (b 3) (b 4) (b 5) false true]%N
  else
    [Ascii (b 18) (b 19) (b 20) false true true true true;
     Ascii (b 12) (b 13) (b 14) (b 15) (b 16) (b 17) false true;
     Ascii (b 6) (b 7) (b 8) (b 9) (b 10) (b 11) false true;
     Ascii (b 0) (b 1) (b 2) (b 3) (b 4) (b 5) false true]%N.

Definition code_points (s : string) : list N := utf8_decode (list_ascii_of_string s).

Definition str_of_code_points (l : list N) : string :=
  string_of_list_ascii (flat_map utf8_encode_cp l).

(** The code points [str.upper()] changes, each with what it becomes (Unicode
    14.0, full case mapping); every other code point is kept. *)
Definition upper_table : list (N * list N) :=
  [(97, [65]); (98, [66]); (99, [67]); (100, [68]); (101, [69]); (102, [70]); (103, [71]);
   (104, [72]); (105, [73]); (106, [74]); (107, [75]); (108, [76]); (109, [77]); (110, [78]);
   (111, [79]); (112, [80]); (113, [81]); (114, [82]); (115, [83]); (116, [84]); (117, [85]);
   (118, [86]); (119, [87]); (120, [88]); (121, [89]); (122, [90]); (181, [924]);
   (223, [83; 83]); (224, [192]); (225, [193]); (226, [194]); (227, [195]); (228, [196]);
   (229, [197]); (230, [198]); (231, [199]); (232, [200]); (233, [201]); (234, [202]);
   (235, [203]); (236, [204]); (237, [205]); (238, [206]); (239, [207]); (240, [208]);
   (241, [209]); (242, [210]); (243, [211]); (244, [212]); (245, [213]); (246, [214]);
   (248, [216]); (249, [217]); (250, [218]); (251, [219]); (252, [220]); (253, [221]);
   (254, [222]); (255, [376]); (257, [256]); (259, [258]); (261, [260]); (263, [262]);
   (265, [264]); (267, [266]); (269, [268]); (271, [270]); (273, [272]); (275, [274]);
   (277, [276]); (279, [278]); (281, [280]); (283, [282]); (285, [284]); (287, [286]);
   (289, [288]); (291, [290]); (293, [292]); (295, [294]); (297, [296]); (299, [298]);
   (301, [300]); (303, [302]); (305, [73]); (307, [306]); (309, [308]); (311, [310]);
   (314, [313]); (316, [315]); (318, [317]); (320, [319]); (322, [321]); (324, [323]);
   (326, [325]); (328, [327]); (329, [700; 78]); (331, [330]); (333, [332]); (335, [334]);
   (337, [336]); (339, [338]); (341, [340]); (343, [342]); (345, [344]); (347, [346]);
   (349, [348]); (351, [350]); (353, [352]); (355, [354]); (357, [356]); (359, [358]);
   (361, [360]); (363, [362]); (365, [364]); (367, [366]); (369, [368]); (371, [370]);
   (373, [372]); (375, [374]); (378, [377]); (380, [379]); (382, [381]); (383, [83]);
   (384, [579]); (387, [386]); (389, [388]); (392, [391]); (396, [395]); (402, [401]);
   (405, [502]); (409, [408]); (410, [573]); (414, [544]); (417, [416]); (419, [418]);
   (421, [420]); (424, [423]); (429, [428]); (432, [431]); (436, [435]); (438, [437]);
   (441, [440]); (445, [444]); (447, [503]); (453, [452]); (454, [452]); (456, [455]);
   (457, [455]); (459, [458]); (460, [458]); (462, [461]); (464, [463]); (466, [465]);
   (468, [467]); (470, [469]); (472, [471]); (474, [473]); (476, [475]); (477, [398]);
   (479, [478]); (481, [480]); (483, [482]); (485, [484]); (487, [486]); (489, [488]);
   (491, [490]); (493, [492]); (495, [494]); (496, [74; 780]); (498, [497]); (499, [497]);
   (501, [500]); (505, [504]); (507, [506]); (509, [508]); (511, [510]); (513, [512]);
   (515, [514]); (517, [516]); (519, [518]); (521, [520]); (523, [522]); (525, [524]);
   (527, [526]); (529, [528]); (531, [530]); (533, [532]); (535, [534]); (537, [536]);
   (539, [538]); (541, [540]); (543, [542]); (547, [546]); (549, [548]); (551, [550]);
   (553, [552]); (555, [554]); (557, [556]); (559, [558]); (561, [560]); (563, [562]);
   (572, [571]); (575, [11390]); (576, [11391]); (578, [577]); (583, [582]); (585, [584]);
   (587, [586]); (589, [588]); (591, [590]); (592, [11375]); (593, [11373]); (594, [11376]);
   (595, [385]); (596, [390]); (598, [393]); (599, [394]); (601, [399]); (603, [400]);
   (604, [42923]); (608, [403]); (609, [42924]); (611, [404]); (613, [42893]); (614, [42922]);
   (616, [407]); (617, [406]); (618, [42926]); (619, [11362]); (620, [42925]); (623, [412]);
   (625, [11374]); (626, [413]); (629, [415]); (637, [11364]); (640, [422]); (642, [42949]);
   (643, [425]); (647, [42929]); (648, [430]); (649, [580]); (650, [433]); (651, [434]);
   (652, [581]); (658, [439]); (669, [42930]); (670, [42928]); (837, [921]); (881, [880]);
   (883, [882]); (887, [886]); (891, [1021]); (892, [1022]); (893, [1023]);
   (912, [921; 776; 769]); (940, [902]); (941, [904]); (942, [905]); (943, [906]);
   (944, [933; 776; 769]); (945, [913]); (946, [914]); (947, [915]); (948, [916]);
   (949, [917]); (950, [918]); (951, [919]); (952, [920]); (953, [921]); (954, [922]);
   (955, [923]); (956, [924]); (957, [925]); (958, [926]); (959, [927]); (960, [928]);
   (961, [929]); (962, [931]); (963, [931]); (964, [932]); (965, [933]); (966, [934]);
   (967, [935]); (968, [936]); (969, [937]); (970, [938]); (971, [939]); (972, [908]);
   (973, [910]); (974, [911]); (976, [914]); (977, [920]); (981, [934]); (982, [928]);
   (983, [975]); (985, [984]); (987, [986]); (989, [988]); (991, [990]); (993, [992]);
   (995, [994]); (997, [996]); (999, [998]); (1001, [1000]); (1003, [1002]); (1005, [1004]);
   (1007, [1006]); (1008, [922]); (1009, [929]); (1010, [1017]); (1011, [895]); (1013, [917]);
   (1016, [1015]); (1019, [1018]); (1072, [1040]); (1073, [1041]); (1074, [1042]);
   (1075, [1043]); (1076, [1044]); (1077, [1045]); (1078, [1046]); (1079, [1047]);
   (1080, [1048]); (1081, [1049]); (1082, [1050]); (1083, [1051]); (1084, [1052]);
   (1085, [1053]); (1086, [1054]); (1087, [1055]); (1088, [1056]); (1089, [1057]);
   (1090, [1058]); (1091, [1059]); (1092, [1060]); (1093, [1061]); (1094, [1062]);
   (1095, [1063]); (1096, [1064]); (1097, [1065]); (1098, [1066]); (1099, [1067]);
   (1100, [1068]); (1101, [1069]); (1102, [1070]); (1103, [1071]); (1104, [1024]);
   (1105, [1025]); (1106, [1026]); (1107, [1027]); (1108, [1028]); (1109, [1029]);
   (1110, [1030]); (1111, [1031]); (1112, [1032]); (1113, [1033]); (1114, [1034]);
   (1115, [1035]); (1116, [1036]); (1117, [1037]); (1118, [1038]); (1119, [1039]);
   (1121, [1120]); (1123, [1122]); (1125, [1124]); (1127, [1126]); (1129, [1128]);
   (1131, [1130]); (1133, [1132]); (1135, [1134]); (1137, [1136]); (1139, [1138]);
   (1141, [1140]); (1143, [1142]); (1145, [1144]); (1147, [1146]); (1149, [1148]);
   (1151, [1150]); (1153, [1152]); (1163, [1162]); (1165, [1164]); (1167, [1166]);
   (1169, [1168]); (1171, [1170]); (1173, [1172]); (1175, [1174]); (1177, [1176]);
   (1179, [1178]); (1181, [1180]); (1183, [1182]); (1185, [1184]); (1187, [1186]);
   (1189, [1188]); (1191, [1190]); (1193, [1192]); (1195, [1194]); (1197, [1196]);
   (1199, [1198]); (1201, [1200]); (1203, [1202]); (1205, [1204]); (1207, [1206]);
   (1209, [1208]); (1211, [1210]); (1213, [1212]); (1215, [1214]); (1218, [1217]);
   (1220, [1219]); (1222, [1221]); (1224, [1223]); (1226, [1225]); (1228, [1227]);
   (1230, [1229]); (1231, [1216]); (1233, [1232]); (1235, [1234]); (1237, [1236]);
   (1239, [1238]); (1241, [1240]); (1243, [1242]); (1245, [1244]); (1247, [1246]);
   (1249, [1248]); (1251, [1250]); (1253, [1252]); (1255, [1254]); (1257, [1256]);
   (1259, [1258]); (1261, [1260]); (1263, [1262]); (1265, [1264]); (1267, [1266]);
   (1269, [1268]); (1271, [1270]); (1273, [1272]); (1275, [1274]); (1277, [1276]);
   (1279, [1278]); (1281, [1280]); (1283, [1282]); (1285, [1284]); (1287, [1286]);
   (1289, [1288]); (1291, [1290]); (1293, [1292]); (1295, [1294]); (1297, [1296]);
   (1299, [1298]); (1301, [1300]); (1303, [1302]); (1305, [1304]); (1307, [1306]);
   (1309, [1308]); (1311, [1310]); (1313, [1312]); (1315, [1314]); (1317, [1316]);
   (1319, [1318]); (1321, [1320]); (1323, [1322]); (1325, [1324]); (1327, [1326]);
   (1377, [1329]); (1378, [1330]); (1379, [1331]); (1380, [1332]); (1381, [1333]);
   (1382, [1334]); (1383, [1335]); (1384, [1336]); (1385, [1337]); (1386, [1338]);
   (1387, [1339]); (1388, [1340]); (1389, [1341]); (1390, [1342]); (1391, [1343]);
   (1392, [1344]); (1393, [1345]); (1394, [1346]); (1395, [1347]); (1396, [1348]);
   (1397, [1349]); (1398, [1350]); (1399, [1351]); (1400, [1352]); (1401, [1353]);
   (1402, [1354]); (1403, [1355]); (1404, [1356]); (1405, [1357]); (1406, [1358]);
   (1407, [1359]); (1408, [1360]); (1409, [1361]); (1410, [1362]); (1411, [1363]);
   (1412, [1364]); (1413, [1365]); (1414, [1366]); (1415, [1333; 1362]); (4304, [7312]);
   (4305, [7313]); (4306, [7314]); (4307, [7315]); (4308, [7316]); (4309, [7317]);
   (4310, [7318]); (4311, [7319]); (4312, [7320]); (4313, [7321]); (4314, [7322]);
   (4315, [7323]); (4316, [7324]); (4317, [7325]); (4318, [7326]); (4319, [7327]);
   (4320, [7328]); (4321, [7329]); (4322, [7330]); (4323, [7331]); (4324, [7332]);
   (4325, [7333]); (4326, [7334]); (4327, [7335]); (4328, [7336]); (4329, [7337]);
   (4330, [7338]); (4331, [7339]); (4332, [7340]); (4333, [7341]); (4334, [7342]);
   (4335, [7343]); (4336, [7344]); (4337, [7345]); (4338, [7346]); (4339, [7347]);
   (4340, [7348]); (4341, [7349]); (4342, [7350]); (4343, [7351]); (4344, [7352]);
   (4345, [7353]); (4346, [7354]); (4349, [7357]); (4350, [7358]); (4351, [7359]);
   (5112, [5104]); (5113, [5105]); (5114, [5106]); (5115, [5107]); (5116, [5108]);
   (5117, [5109]); (7296, [1042]); (7297, [1044]); (7298, [1054]); (7299, [1057]);
   (7300, [1058]); (7301, [1058]); (7302, [1066]); (7303, [1122]); (7304, [42570]);
   (7545, [42877]); (7549, [11363]); (7566, [42950]); (7681, [7680]); (7683, [7682]);
   (7685, [7684]); (7687, [7686]); (7689, [7688]); (7691, [7690]); (7693, [7692]);
   (7695, [7694]); (7697, [7696]); (7699, [7698]); (7701, [7700]); (7703, [7702]);
   (7705, [7704]); (7707, [7706]); (7709, [7708]); (7711, [7710]); (7713, [7712]);
   (7715, [7714]); (7717, [7716]); (7719, [7718]); (7721, [7720]); (7723, [7722]);
   (7725, [7724]); (7727, [7726]); (7729, [7728]); (7731, [7730]); (7733, [7732]);
   (7735, [7734]); (7737, [7736]); (7739, [7738]); (7741, [7740]); (7743, [7742]);
   (7745, [7744]); (7747, [7746]); (7749, [7748]); (7751, [7750]); (7753, [7752]);
   (7755, [7754]); (7757, [7756]); (7759, [7758]); (7761, [7760]); (7763, [7762]);
   (7765, [7764]); (7767, [7766]); (7769, [7768]); (7771, [7770]); (7773, [7772]);
   (7775, [7774]); (7777, [7776]); (7779, [7778]); (7781, [7780]); (7783, [7782]);
   (7785, [7784]); (7787, [7786]); (7789, [7788]); (7791, [7790]); (7793, [7792]);
   (7795, [7794]); (7797, [7796]); (7799, [7798]); (7801, [7800]); (7803, [7802]);
   (7805, [7804]); (7807, [7806]); (7809, [7808]); (7811, [7810]); (7813, [7812]);
   (7815, [7814]); (7817, [7816]); (7819, [7818]); (7821, [7820]); (7823, [7822]);
   (7825, [7824]); (7827, [7826]); (7829, [7828]); (7830, [72; 817]); (7831, [84; 776]);
   (7832, [87; 778]); (7833, [89; 778]); (7834, [65; 702]); (7835, [7776]); (7841, [7840]);
   (7843, [7842]); (7845, [7844]); (7847, [7846]); (7849, [7848]); (7851, [7850]);
   (7853, [7852]); (7855, [7854]); (7857, [7856]); (7859, [7858]); (7861, [7860]);
   (7863, [7862]); (7865, [7864]); (7867, [7866]); (7869, [7868]); (7871, [7870]);
   (7873, [7872]); (7875, [7874]); (7877, [7876]); (7879, [7878]); (7881, [7880]);
   (7883, [7882]); (7885, [7884]); (7887, [7886]); (7889, [7888]); (7891, [7890]);
   (7893, [7892]); (7895, [7894]); (7897, [7896]); (7899, [7898]); (7901, [7900]);
   (7903, [7902]); (7905, [7904]); (7907, [7906]); (7909, [7908]); (7911, [7910]);
   (7913, [7912]); (7915, [7914]); (7917, [7916]); (7919, [7918]); (7921, [7920]);
   (7923, [7922]); (7925, [7924]); (7927, [7926]); (7929, [7928]); (7931, [7930]);
   (7933, [7932]); (7935, [7934]); (7936, [7944]); (7937, [7945]); (7938, [7946]);
   (7939, [7947]); (7940, [7948]); (7941, [7949]); (7942, [7950]); (7943, [7951]);
   (7952, [7960]); (7953, [7961]); (7954, [7962]); (7955, [7963]); (7956, [7964]);
   (7957, [7965]); (7968, [7976]); (7969, [7977]); (7970, [7978]); (7971, [7979]);
   (7972, [7980]); (7973, [7981]); (7974, [7982]); (7975, [7983]); (7984, [7992]);
   (7985, [7993]); (7986, [7994]); (7987, [7995]); (7988, [7996]); (7989, [7997]);
   (7990, [7998]); (7991, [7999]); (8000, [8008]); (8001, [8009]); (8002, [8010]);
   (8003, [8011]); (8004, [8012]); (8005, [8013]); (8016, [933; 787]); (8017, [8025]);
   (8018, [933; 787; 768]); (8019, [8027]); (8020, [933; 787; 769]); (8021, [8029]);
   (8022, [933; 787; 834]); (8023, [8031]); (8032, [8040]); (8033, [8041]); (8034, [8042]);
   (8035, [8043]); (8036, [8044]); (8037, [8045]); (8038, [8046]); (8039, [8047]);
   (8048, [8122]); (8049, [8123]); (8050, [8136]); (8051, [8137]); (8052, [8138]);
   (8053, [8139]); (8054, [8154]); (8055, [8155]); (8056, [8184]); (8057, [8185]);
   (8058, [8170]); (8059, [8171]); (8060, [8186]); (8061, [8187]); (8064, [7944; 921]);
   (8065, [7945; 921]); (8066, [7946; 921]); (8067, [7947; 921]); (8068, [7948; 921]);
   (8069, [7949; 921]); (8070, [7950; 921]); (8071, [7951; 921]); (8072, [7944; 921]);
   (8073, [7945; 921]); (8074, [7946; 921]); (8075, [7947; 921]); (8076, [7948; 921]);
   (8077, [7949; 921]); (8078, [7950; 921]); (8079, [7951; 921]); (8080, [7976; 921]);
   (8081, [7977; 921]); (8082, [7978; 921]); (8083, [7979; 921]); (8084, [7980; 921]);
   (8085, [7981; 921]); (8086, [7982; 921]); (8087, [7983; 921]); (8088, [7976; 921]);
   (8089, [7977; 921]); (8090, [7978; 921]); (8091, [7979; 921]); (8092, [7980; 921]);
   (8093, [7981; 921]); (8094, [7982; 921]); (8095, [7983; 921]); (8096, [8040; 921]);
   (8097, [8041; 921]); (8098, [8042; 921]); (8099, [8043; 921]); (8100, [8044; 921]);
   (8101, [8045; 921]); (8102, [8046; 921]); (8103, [8047; 921]); (8104, [8040; 921]);
   (8105, [8041; 921]); (8106, [8042; 921]); (8107, [8043; 921]); (8108, [8044; 921]);
   (8109, [8045; 921]); (8110, [8046; 921]); (8111, [8047; 921]); (8112, [8120]);
   (8113, [8121]); (8114, [8122; 921]); (8115, [913; 921]); (8116, [902; 921]);
   (8118, [913; 834]); (8119, [913; 834; 921]); (8124, [913; 921]); (8126, [921]);
   (8130, [8138; 921]); (8131, [919; 921]); (8132, [905; 921]); (8134, [919; 834]);
   (8135, [919; 834; 921]); (8140, [919; 921]); (8144, [8152]); (8145, [8153]);
   (8146, [921; 776; 768]); (8147, [921; 776; 769]); (8150, [921; 834]);
   (8151, [921; 776; 834]); (8160, [8168]); (8161, [8169]); (8162, [933; 776; 768]);
   (8163, [933; 776; 769]); (8164, [929; 787]); (8165, [8172]); (8166, [933; 834]);
   (8167, [933; 776; 834]); (8178, [8186; 921]); (8179, [937; 921]); (8180, [911; 921]);
   (8182, [937; 834]); (8183, [937; 834; 921]); (8188, [937; 921]); (8526, [8498]);
   (8560, [8544]); (8561, [8545]); (8562, [8546]); (8563, [8547]); (8564, [8548]);
   (8565, [8549]); (8566, [8550]); (8567, [8551]); (8568, [8552]); (8569, [8553]);
   (8570, [8554]); (8571, [8555]); (8572, [8556]); (8573, [8557]); (8574, [8558]);
   (8575, [8559]); (8580, [8579]); (9424, [9398]); (9425, [9399]); (9426, [9400]);
   (9427, [9401]); (9428, [9402]); (9429, [9403]); (9430, [9404]); (9431, [9405]);
   (9432, [9406]); (9433, [9407]); (9434, [9408]); (9435, [9409]); (9436, [9410]);
   (9437, [9411]); (9438, [9412]); (9439, [9413]); (9440, [9414]); (9441, [9415]);
   (9442, [9416]); (9443, [9417]); (9444, [9418]); (9445, [9419]); (9446, [9420]);
   (9447, [9421]); (9448, [9422]); (9449, [9423]); (11312, [11264]); (11313, [11265]);
   (11314, [11266]); (11315, [11267]); (11316, [11268]); (11317, [11269]); (11318, [11270]);
   (11319, [11271]); (11320, [11272]); (11321, [11273]); (11322, [11274]); (11323, [11275]);
   (11324, [11276]); (11325, [11277]); (11326, [11278]); (11327, [11279]); (11328, [11280]);
   (11329, [11281]); (11330, [11282]); (11331, [11283]); (11332, [11284]); (11333, [11285]);
   (11334, [11286]); (11335, [11287]); (11336, [11288]); (11337, [11289]); (11338, [11290]);
   (11339, [11291]); (11340, [11292]); (11341, [11293]); (11342, [11294]); (11343, [11295]);
   (11344, [11296]); (11345, [11297]); (11346, [11298]); (11347, [11299]); (11348, [11300]);
   (11349, [11301]); (11350, [11302]); (11351, [11303]); (11352, [11304]); (11353, [11305]);
   (11354, [11306]); (11355, [11307]); (11356, [11308]); (11357, [11309]); (11358, [11310]);
   (11359, [11311]); (11361, [11360]); (11365, [570]); (11366, [574]); (11368, [11367]);
   (11370, [11369]); (11372, [11371]); (11379, [11378]); (11382, [11381]); (11393, [11392]);
   (11395, [11394]); (11397, [11396]); (11399, [11398]); (11401, [11400]); (11403, [11402]);
   (11405, [11404]); (11407, [11406]); (11409, [11408]); (11411, [11410]); (11413, [11412]);
   (11415, [11414]); (11417, [11416]); (11419, [11418]); (11421, [11420]); (11423, [11422]);
   (11425, [11424]); (11427, [11426]); (11429, [11428]); (11431, [11430]); (11433, [11432]);
   (11435, [11434]); (11437, [11436]); (11439, [11438]); (11441, [11440]); (11443, [11442]);
   (11445, [11444]); (11447, [11446]); (11449, [11448]); (11451, [11450]); (11453, [11452]);
   (11455, [11454]); (11457, [11456]); (11459, [11458]); (11461, [11460]); (11463, [11462]);
   (11465, [11464]); (11467, [11466]); (11469, [11468]); (11471, [11470]); (11473, [11472]);
   (11475, [11474]); (11477, [11476]); (11479, [11478]); (11481, [11480]); (11483, [11482]);
   (11485, [11484]); (11487, [11486]); (11489, [11488]); (11491, [11490]); (11500, [11499]);
   (11502, [11501]); (11507, [11506]); (11520, [4256]); (11521, [4257]); (11522, [4258]);
   (11523, [4259]); (11524, [4260]); (11525, [4261]); (11526, [4262]); (11527, [4263]);
   (11528, [4264]); (11529, [4265]); (11530, [4266]); (11531, [4267]); (11532, [4268]);
   (11533, [4269]); (11534, [4270]); (11535, [4271]); (11536, [4272]); (11537, [4273]);
   (11538, [4274]); (11539, [4275]); (11540, [4276]); (11541, [4277]); (11542, [4278]);
   (11543, [4279]); (11544, [4280]); (11545, [4281]); (11546, [4282]); (11547, [4283]);
   (11548, [4284]); (11549, [4285]); (11550, [4286]); (11551, [4287]); (11552, [4288]);
   (11553, [4289]); (11554, [4290]); (11555, [4291]); (11556, [4292]); (11557, [4293]);
   (11559, [4295]); (11565, [4301]); (42561, [42560]); (42563, [42562]); (42565, [42564]);
   (42567, [42566]); (42569, [42568]); (42571, [42570]); (42573, [42572]); (42575, [42574]);
   (42577, [42576]); (42579, [42578]); (42581, [42580]); (42583, [42582]); (42585, [42584]);
   (42587, [42586]); (42589, [42588]); (42591, [42590]); (42593, [42592]); (42595, [42594]);
   (42597, [42596]); (42599, [42598]); (42601, [42600]); (42603, [42602]); (42605, [42604]);
   (42625, [42624]); (42627, [42626]); (42629, [42628]); (42631, [42630]); (42633, [42632]);
   (42635, [42634]); (42637, [42636]); (42639, [42638]); (42641, [42640]); (42643, [42642]);
   (42645, [42644]); (42647, [42646]); (42649, [42648]); (42651, [42650]); (42787, [42786]);
   (42789, [42788]); (42791, [42790]); (42793, [42792]); (42795, [42794]); (42797, [42796]);
   (42799, [42798]); (42803, [42802]); (42805, [42804]); (42807, [42806]); (42809, [42808]);
   (42811, [42810]); (42813, [42812]); (42815, [42814]); (42817, [42816]); (42819, [42818]);
   (42821, [42820]); (42823, [42822]); (42825, [42824]); (42827, [42826]); (42829, [42828]);
   (42831, [42830]); (42833, [42832]); (42835, [42834]); (42837, [42836]); (42839, [42838]);
   (42841, [42840]); (42843, [42842]); (42845, [42844]); (42847, [42846]); (42849, [42848]);
   (42851, [42850]); (42853, [42852]); (42855, [42854]); (42857, [42856]); (42859, [42858]);
   (42861, [42860]); (42863, [42862]); (42874, [42873]); (42876, [42875]); (42879, [42878]);
   (42881, [42880]); (42883, [42882]); (42885, [42884]); (42887, [42886]); (42892, [42891]);
   (42897, [42896]); (42899, [42898]); (42900, [42948]); (42903, [42902]); (42905, [42904]);
   (42907, [42906]); (42909, [42908]); (42911, [42910]); (42913, [42912]); (42915, [42914]);
   (42917, [42916]); (42919, [42918]); (42921, [42920]); (42933, [42932]); (42935, [42934]);
   (42937, [42936]); (42939, [42938]); (42941, [42940]); (42943, [42942]); (42945, [42944]);
   (42947, [42946]); (42952, [42951]); (42954, [42953]); (42961, [42960]); (42967, [42966]);
   (42969, [42968]); (42998, [42997]); (43859, [42931]); (43888, [5024]); (43889, [5025]);
   (43890, [5026]); (43891, [5027]); (43892, [5028]); (43893, [5029]); (43894, [5030]);
   (43895, [5031]); (43896, [5032]); (43897, [5033]); (43898, [5034]); (43899, [5035]);
   (43900, [5036]); (43901, [5037]); (43902, [5038]); (43903, [5039]); (43904, [5040]);
   (43905, [5041]); (43906, [5042]); (43907, [5043]); (43908, [5044]); (43909, [5045]);
   (43910, [5046]); (43911, [5047]); (43912, [5048]); (43913, [5049]); (43914, [5050]);
   (43915, [5051]); (43916, [5052]); (43917, [5053]); (43918, [5054]); (43919, [5055]);
   (43920, [5056]); (43921, [5057]); (43922, [5058]); (43923, [5059]); (43924, [5060]);
   (43925, [5061]); (43926, [5062]); (43927, [5063]); (43928, [5064]); (43929, [5065]);
   (43930, [5066]); (43931, [5067]); (43932, [5068]); (43933, [5069]); (43934, [5070]);
   (43935, [5071]); (43936, [5072]); (43937, [5073]); (43938, [5074]); (43939, [5075]);
   (43940, [5076]); (43941, [5077]); (43942, [5078]); (43943, [5079]); (43944, [5080]);
   (43945, [5081]); (43946, [5082]); (43947, [5083]); (43948, [5084]); (43949, [5085]);
   (43950, [5086]); (43951, [5087]); (43952, [5088]); (43953, [5089]); (43954, [5090]);
   (43955, [5091]); (43956, [5092]); (43957, [5093]); (43958, [5094]); (43959, [5095]);
   (43960, [5096]); (43961, [5097]); (43962, [5098]); (43963, [5099]); (43964, [5100]);
   (43965, [5101]); (43966, [5102]); (43967, [5103]); (64256, [70; 70]); (64257, [70; 73]);
   (64258, [70; 76]); (64259, [70; 70; 73]); (64260, [70; 70; 76]); (64261, [83; 84]);
   (64262, [83; 84]); (64275, [1348; 1350]); (64276, [1348; 1333]); (64277, [1348; 1339]);
   (64278, [1358; 1350]); (64279, [1348; 1341]); (65345, [65313]); (65346, [65314]);
   (65347, [65315]); (65348, [65316]); (65349, [65317]); (65350, [65318]); (65351, [65319]);
   (65352, [65320]); (65353, [65321]); (65354, [65322]); (65355, [65323]); (65356, [65324]);
   (65357, [65325]); (65358, [65326]); (65359, [65327]); (65360, [65328]); (65361, [65329]);
   (65362, [65330]); (65363, [65331]); (65364, [65332]); (65365, [65333]); (65366, [65334]);
   (65367, [65335]); (65368, [65336]); (65369, [65337]); (65370, [65338]); (66600, [66560]);
   (66601, [66561]); (66602, [66562]); (66603, [66563]); (66604, [66564]); (66605, [66565]);
   (66606, [66566]); (66607, [66567]); (66608, [66568]); (66609, [66569]); (66610, [66570]);
   (66611, [66571]); (66612, [66572]); (66613, [66573]); (66614, [66574]); (66615, [66575]);
   (66616, [66576]); (66617, [66577]); (66618, [66578]); (66619, [66579]); (66620, [66580]);
   (66621, [66581]); (66622, [66582]); (66623, [66583]); (66624, [66584]); (66625, [66585]);
   (66626, [66586]); (66627, [66587]); (66628, [66588]); (66629, [66589]); (66630, [66590]);
   (66631, [66591]); (66632, [66592]); (66633, [66593]); (66634, [66594]); (66635, [66595]);
   (66636, [66596]); (66637, [66597]); (66638, [66598]); (66639, [66599]); (66776, [66736]);
   (66777, [66737]); (66778, [66738]); (66779, [66739]); (66780, [66740]); (66781, [66741]);
   (66782, [66742]); (66783, [66743]); (66784, [66744]); (66785, [66745]); (66786, [66746]);
   (66787, [66747]); (66788, [66748]); (66789, [66749]); (66790, [66750]); (66791, [66751]);
   (66792, [66752]); (66793, [66753]); (66794, [66754]); (66795, [66755]); (66796, [66756]);
   (66797, [66757]); (66798, [66758]); (66799, [66759]); (66800, [66760]); (66801, [66761]);
   (66802, [66762]); (66803, [66763]); (66804, [66764]); (66805, [66765]); (66806, [66766]);
   (66807, [66767]); (66808, [66768]); (66809, [66769]); (66810, [66770]); (66811, [66771]);
   (66967, [66928]); (66968, [66929]); (66969, [66930]); (66970, [66931]); (66971, [66932]);
   (66972, [66933]); (66973, [66934]); (66974, [66935]); (66975, [66936]); (66976, [66937]);
   (66977, [66938]); (66979, [66940]); (66980, [66941]); (66981, [66942]); (66982, [66943]);
   (66983, [66944]); (66984, [66945]); (66985, [66946]); (66986, [66947]); (66987, [66948]);
   (66988, [66949]); (66989, [66950]); (66990, [66951]); (66991, [66952]); (66992, [66953]);
   (66993, [66954]); (66995, [66956]); (66996, [66957]); (66997, [66958]); (66998, [66959]);
   (66999, [66960]); (67000, [66961]); (67001, [66962]); (67003, [66964]); (67004, [66965]);
   (68800, [68736]); (68801, [68737]); (68802, [68738]); (68803, [68739]); (68804, [68740]);
   (68805, [68741]); (68806, [68742]); (68807, [68743]); (68808, [68744]); (68809, [68745]);
   (68810, [68746]); (68811, [68747]); (68812, [68748]); (68813, [68749]); (68814, [68750]);
   (68815, [68751]); (68816, [68752]); (68817, [68753]); (68818, [68754]); (68819, [68755]);
   (68820, [68756]); (68821, [68757]); (68822, [68758]); (68823, [68759]); (68824, [68760]);
   (68825, [68761]); (68826, [68762]); (68827, [68763]); (68828, [68764]); (68829, [68765]);
   (68830, [68766]); (68831, [68767]); (68832, [68768]); (68833, [68769]); (68834, [68770]);
   (68835, [68771]); (68836, [68772]); (68837, [68773]); (68838, [68774]); (68839, [68775]);
   (68840, [68776]); (68841, [68777]); (68842, [68778]); (68843, [68779]); (68844, [68780]);
   (68845, [68781]); (68846, [68782]); (68847, [68783]); (68848, [68784]); (68849, [68785]);
   (68850, [68786]); (71872, [71840]); (71873, [71841]); (71874, [71842]); (71875, [71843]);
   (71876, [71844]); (71877, [71845]); (71878, [71846]); (71879, [71847]); (71880, [71848]);
   (71881, [71849]); (71882, [71850]); (71883, [71851]); (71884, [71852]); (71885, [71853]);
   (71886, [71854]); (71887, [71855]); (71888, [71856]); (71889, [71857]); (71890, [71858]);
   (71891, [71859]); (71892, [71860]); (71893, [71861]); (71894, [71862]); (71895, [71863]);
   (71896, [71864]); (71897, [71865]); (71898, [71866]); (71899, [71867]); (71900, [71868]);
   (71901, [71869]); (71902, [71870]); (71903, [71871]); (93792, [93760]); (93793, [93761]);
   (93794, [93762]); (93795, [93763]); (93796, [93764]); (93797, [93765]); (93798, [93766]);
   (93799, [93767]); (93800, [93768]); (93801, [93769]); (93802, [93770]); (93803, [93771]);
   (93804, [93772]); (93805, [93773]); (93806, [93774]); (93807, [93775]); (93808, [93776]);
   (93809, [93777]); (93810, [93778]); (93811, [93779]); (93812, [93780]); (93813, [93781]);
   (93814, [93782]); (93815, [93783]); (93816, [93784]); (93817, [93785]); (93818, [93786]);
   (93819, [93787]); (93820, [93788]); (93821, [93789]); (93822, [93790]); (93823, [93791]);
   (125218, [125184]); (125219, [125185]); (125220, [125186]); (125221, [125187]);
   (125222, [125188]); (125223, [125189]); (125224, [125190]); (125225, [125191]);
   (125226, [125192]); (125227, [125193]); (125228, [125194]); (125229, [125195]);
   (125230, [125196]); (125231, [125197]); (125232, [125198]); (125233, [125199]);
   (125234, [125200]); (125235, [125201]); (125236, [125202]); (125237, [125203]);
   (125238, [125204]); (125239, [125205]); (125240, [125206]); (125241, [125207]);
   (125242, [125208]); (125243, [125209]); (125244, [125210]); (125245, [125211]);
   (125246, [125212]); (125247, [125213]); (125248, [125214]); (125249, [125215]);
   (125250, [125216]); (125251, [125217])]%N.

(** The code points [str.casefold()] changes, each with what it becomes
    (Unicode 14.0, full case folding); every other code point is kept. *)
Definition casefold_table : list (N * list N) :=
  [(65, [97]); (66, [98]); (67, [99]); (68, [100]); (69, [101]); (70, [102]); (71, [103]);
   (72, [104]); (73, [105]); (74, [106]); (75, [107]); (76, [108]); (77, [109]); (78, [110]);
   (79, [111]); (80, [112]); (81, [113]); (82, [114]); (83, [115]); (84, [116]); (85, [117]);
   (86, [118]); (87, [119]); (88, [120]); (89, [121]); (90, [122]); (181, [956]); (192, [224]);
   (193, [225]); (194, [226]); (195, [227]); (196, [228]); (197, [229]); (198, [230]);
   (199, [231]); (200, [232]); (201, [233]); (202, [234]); (203, [235]); (204, [236]);
   (205, [237]); (206, [238]); (207, [239]); (208, [240]); (209, [241]); (210, [242]);
   (211, [243]); (212, [244]); (213, [245]); (214, [246]); (216, [248]); (217, [249]);
   (218, [250]); (219, [251]); (220, [252]); (221, [253]); (222, [254]); (223, [115; 115]);
   (256, [257]); (258, [259]); (260, [261]); (262, [263]); (264, [265]); (266, [267]);
   (268, [269]); (270, [271]); (272, [273]); (274, [275]); (276, [277]); (278, [279]);
   (280, [281]); (282, [283]); (284, [285]); (286, [287]); (288, [289]); (290, [291]);
   (292, [293]); (294, [295]); (296, [297]); (298, [299]); (300, [301]); (302, [303]);
   (304, [105; 775]); (306, [307]); (308, [309]); (310, [311]); (313, [314]); (315, [316]);
   (317, [318]); (319, [320]); (321, [322]); (323, [324]); (325, [326]); (327, [328]);
   (329, [700; 110]); (330, [331]); (332, [333]); (334, [335]); (336, [337]); (338, [339]);
   (340, [341]); (342, [343]); (344, [345]); (346, [347]); (348, [349]); (350, [351]);
   (352, [353]); (354, [355]); (356, [357]); (358, [359]); (360, [361]); (362, [363]);
   (364, [365]); (366, [367]); (368, [369]); (370, [371]); (372, [373]); (374, [375]);
   (376, [255]); (377, [378]); (379, [380]); (381, [382]); (383, [115]); (385, [595]);
   (386, [387]); (388, [389]); (390, [596]); (391, [392]); (393, [598]); (394, [599]);
   (395, [396]); (398, [477]); (399, [601]); (400, [603]); (401, [402]); (403, [608]);
   (404, [611]); (406, [617]); (407, [616]); (408, [409]); (412, [623]); (413, [626]);
   (415, [629]); (416, [417]); (418, [419]); (420, [421]); (422, [640]); (423, [424]);
   (425, [643]); (428, [429]); (430, [648]); (431, [432]); (433, [650]); (434, [651]);
   (435, [436]); (437, [438]); (439, [658]); (440, [441]); (444, [445]); (452, [454]);
   (453, [454]); (455, [457]); (456, [457]); (458, [460]); (459, [460]); (461, [462]);
   (463, [464]); (465, [466]); (467, [468]); (469, [470]); (471, [472]); (473, [474]);
   (475, [476]); (478, [479]); (480, [481]); (482, [483]); (484, [485]); (486, [487]);
   (488, [489]); (490, [491]); (492, [493]); (494, [495]); (496, [106; 780]); (497, [499]);
   (498, [499]); (500, [501]); (502, [405]); (503, [447]); (504, [505]); (506, [507]);
   (508, [509]); (510, [511]); (512, [513]); (514, [515]); (516, [517]); (518, [519]);
   (520, [521]); (522, [523]); (524, [525]); (526, [527]); (528, [529]); (530, [531]);
   (532, [533]); (534, [535]); (536, [537]); (538, [539]); (540, [541]); (542, [543]);
   (544, [414]); (546, [547]); (548, [549]); (550, [551]); (552, [553]); (554, [555]);
   (556, [557]); (558, [559]); (560, [561]); (562, [563]); (570, [11365]); (571, [572]);
   (573, [410]); (574, [11366]); (577, [578]); (579, [384]); (580, [649]); (581, [652]);
   (582, [583]); (584, [585]); (586, [587]); (588, [589]); (590, [591]); (837, [953]);
   (880, [881]); (882, [883]); (886, [887]); (895, [1011]); (902, [940]); (904, [941]);
   (905, [942]); (906, [943]); (908, [972]); (910, [973]); (911, [974]);
   (912, [953; 776; 769]); (913, [945]); (914, [946]); (915, [947]); (916, [948]);
   (917, [949]); (918, [950]); (919, [951]); (920, [952]); (921, [953]); (922, [954]);
   (923, [955]); (924, [956]); (925, [957]); (926, [958]); (927, [959]); (928, [960]);
   (929, [961]); (931, [963]); (932, [964]); (933, [965]); (934, [966]); (935, [967]);
   (936, [968]); (937, [969]); (938, [970]); (939, [971]); (944, [965; 776; 769]);
   (962, [963]); (975, [983]); (976, [946]); (977, [952]); (981, [966]); (982, [960]);
   (984, [985]); (986, [987]); (988, [989]); (990, [991]); (992, [993]); (994, [995]);
   (996, [997]); (998, [999]); (1000, [1001]); (1002, [1003]); (1004, [1005]); (1006, [1007]);
   (1008, [954]); (1009, [961]); (1012, [952]); (1013, [949]); (1015, [1016]); (1017, [1010]);
   (1018, [1019]); (1021, [891]); (1022, [892]); (1023, [893]); (1024, [1104]); (1025, [1105]);
   (1026, [1106]); (1027, [1107]); (1028, [1108]); (1029, [1109]); (1030, [1110]);
   (1031, [1111]); (1032, [1112]); (1033, [1113]); (1034, [1114]); (1035, [1115]);
   (1036, [1116]); (1037, [1117]); (1038, [1118]); (1039, [1119]); (1040, [1072]);
   (1041, [1073]); (1042, [1074]); (1043, [1075]); (1044, [1076]); (1045, [1077]);
   (1046, [1078]); (1047, [1079]); (1048, [1080]); (1049, [1081]); (1050, [1082]);
   (1051, [1083]); (1052, [1084]); (1053, [1085]); (1054, [1086]); (1055, [1087]);
   (1056, [1088]); (1057, [1089]); (1058, [1090]); (1059, [1091]); (1060, [1092]);
   (1061, [1093]); (1062, [1094]); (1063, [1095]); (1064, [1096]); (1065, [1097]);
   (1066, [1098]); (1067, [1099]); (1068, [1100]); (1069, [1101]); (1070, [1102]);
   (1071, [1103]); (1120, [1121]); (1122, [1123]); (1124, [1125]); (1126, [1127]);
   (1128, [1129]); (1130, [1131]); (1132, [1133]); (1134, [1135]); (1136, [1137]);
   (1138, [1139]); (1140, [1141]); (1142, [1143]); (1144, [1145]); (1146, [1147]);
   (1148, [1149]); (1150, [1151]); (1152, [1153]); (1162, [1163]); (1164, [1165]);
   (1166, [1167]); (1168, [1169]); (1170, [1171]); (1172, [1173]); (1174, [1175]);
   (1176, [1177]); (1178, [1179]); (1180, [1181]); (1182, [1183]); (1184, [1185]);
   (1186, [1187]); (1188, [1189]); (1190, [1191]); (1192, [1193]); (1194, [1195]);
   (1196, [1197]); (1198, [1199]); (1200, [1201]); (1202, [1203]); (1204, [1205]);
   (1206, [1207]); (1208, [1209]); (1210, [1211]); (1212, [1213]); (1214, [1215]);
   (1216, [1231]); (1217, [1218]); (1219, [1220]); (1221, [1222]); (1223, [1224]);
   (1225, [1226]); (1227, [1228]); (1229, [1230]); (1232, [1233]); (1234, [1235]);
   (1236, [1237]); (1238, [1239]); (1240, [1241]); (1242, [1243]); (1244, [1245]);
   (1246, [1247]); (1248, [1249]); (1250, [1251]); (1252, [1253]); (1254, [1255]);
   (1256, [1257]); (1258, [1259]); (1260, [1261]); (1262, [1263]); (1264, [1265]);
   (1266, [1267]); (1268, [1269]); (1270, [1271]); (1272, [1273]); (1274, [1275]);
   (1276, [1277]); (1278, [1279]); (1280, [1281]); (1282, [1283]); (1284, [1285]);
   (1286, [1287]); (1288, [1289]); (1290, [1291]); (1292, [1293]); (1294, [1295]);
   (1296, [1297]); (1298, [1299]); (1300, [1301]); (1302, [1303]); (1304, [1305]);
   (1306, [1307]); (1308, [1309]); (1310, [1311]); (1312, [1313]); (1314, [1315]);
   (1316, [1317]); (1318, [1319]); (1320, [1321]); (1322, [1323]); (1324, [1325]);
   (1326, [1327]); (1329, [1377]); (1330, [1378]); (1331, [1379]); (1332, [1380]);
   (1333, [1381]); (1334, [1382]); (1335, [1383]); (1336, [1384]); (1337, [1385]);
   (1338, [1386]); (1339, [1387]); (1340, [1388]); (1341, [1389]); (1342, [1390]);
   (1343, [1391]); (1344, [1392]); (1345, [1393]); (1346, [1394]); (1347, [1395]);
   (1348, [1396]); (1349, [1397]); (1350, [1398]); (1351, [1399]); (1352, [1400]);
   (1353, [1401]); (1354, [1402]); (1355, [1403]); (1356, [1404]); (1357, [1405]);
   (1358, [1406]); (1359, [1407]); (1360, [1408]); (1361, [1409]); (1362, [1410]);
   (1363, [1411]); (1364, [1412]); (1365, [1413]); (1366, [1414]); (1415, [1381; 1410]);
   (4256, [11520]); (4257, [11521]); (4258, [11522]); (4259, [11523]); (4260, [11524]);
   (4261, [11525]); (4262, [11526]); (4263, [11527]); (4264, [11528]); (4265, [11529]);
   (4266, [11530]); (4267, [11531]); (4268, [11532]); (4269, [11533]); (4270, [11534]);
   (4271, [11535]); (4272, [11536]); (4273, [11537]); (4274, [11538]); (4275, [11539]);
   (4276, [11540]); (4277, [11541]); (4278, [11542]); (4279, [11543]); (4280, [11544]);
   (4281, [11545]); (4282, [11546]); (4283, [11547]); (4284, [11548]); (4285, [11549]);
   (4286, [11550]); (4287, [11551]); (4288, [11552]); (4289, [11553]); (4290, [11554]);
   (4291, [11555]); (4292, [11556]); (4293, [11557]); (4295, [11559]); (4301, [11565]);
   (5112, [5104]); (5113, [5105]); (5114, [5106]); (5115, [5107]); (5116, [5108]);
   (5117, [5109]); (7296, [1074]); (7297, [1076]); (7298, [1086]); (7299, [1089]);
   (7300, [1090]); (7301, [1090]); (7302, [1098]); (7303, [1123]); (7304, [42571]);
   (7312, [4304]); (7313, [4305]); (7314, [4306]); (7315, [4307]); (7316, [4308]);
   (7317, [4309]); (7318, [4310]); (7319, [4311]); (7320, [4312]); (7321, [4313]);
   (7322, [4314]); (7323, [4315]); (7324, [4316]); (7325, [4317]); (7326, [4318]);
   (7327, [4319]); (7328, [4320]); (7329, [4321]); (7330, [4322]); (7331, [4323]);
   (7332, [4324]); (7333, [4325]); (7334, [4326]); (7335, [4327]); (7336, [4328]);
   (7337, [4329]); (7338, [4330]); (7339, [4331]); (7340, [4332]); (7341, [4333]);
   (7342, [4334]); (7343, [4335]); (7344, [4336]); (7345, [4337]); (7346, [4338]);
   (7347, [4339]); (7348, [4340]); (7349, [4341]); (7350, [4342]); (7351, [4343]);
   (7352, [4344]); (7353, [4345]); (7354, [4346]); (7357, [4349]); (7358, [4350]);
   (7359, [4351]); (7680, [7681]); (7682, [7683]); (7684, [7685]); (7686, [7687]);
   (7688, [7689]); (7690, [7691]); (7692, [7693]); (7694, [7695]); (7696, [7697]);
   (7698, [7699]); (7700, [7701]); (7702, [7703]); (7704, [7705]); (7706, [7707]);
   (7708, [7709]); (7710, [7711]); (7712, [7713]); (7714, [7715]); (7716, [7717]);
   (7718, [7719]); (7720, [7721]); (7722, [7723]); (7724, [7725]); (7726, [7727]);
   (7728, [7729]); (7730, [7731]); (7732, [7733]); (7734, [7735]); (7736, [7737]);
   (7738, [7739]); (7740, [7741]); (7742, [7743]); (7744, [7745]); (7746, [7747]);
   (7748, [7749]); (7750, [7751]); (7752, [7753]); (7754, [7755]); (7756, [7757]);
   (7758, [7759]); (7760, [7761]); (7762, [7763]); (7764, [7765]); (7766, [7767]);
   (7768, [7769]); (7770, [7771]); (7772, [7773]); (7774, [7775]); (7776, [7777]);
   (7778, [7779]); (7780, [7781]); (7782, [7783]); (7784, [7785]); (7786, [7787]);
   (7788, [7789]); (7790, [7791]); (7792, [7793]); (7794, [7795]); (7796, [7797]);
   (7798, [7799]); (7800, [7801]); (7802, [7803]); (7804, [7805]); (7806, [7807]);
   (7808, [7809]); (7810, [7811]); (7812, [7813]); (7814, [7815]); (7816, [7817]);
   (7818, [7819]); (7820, [7821]); (7822, [7823]); (7824, [7825]); (7826, [7827]);
   (7828, [7829]); (7830, [104; 817]); (7831, [116; 776]); (7832, [119; 778]);
   (7833, [121; 778]); (7834, [97; 702]); (7835, [7777]); (7838, [115; 115]); (7840, [7841]);
   (7842, [7843]); (7844, [7845]); (7846, [7847]); (7848, [7849]); (7850, [7851]);
   (7852, [7853]); (7854, [7855]); (7856, [7857]); (7858, [7859]); (7860, [7861]);
   (7862, [7863]); (7864, [7865]); (7866, [7867]); (7868, [7869]); (7870, [7871]);
   (7872, [7873]); (7874, [7875]); (7876, [7877]); (7878, [7879]); (7880, [7881]);
   (7882, [7883]); (7884, [7885]); (7886, [7887]); (7888, [7889]); (7890, [7891]);
   (7892, [7893]); (7894, [7895]); (7896, [7897]); (7898, [7899]); (7900, [7901]);
   (7902, [7903]); (7904, [7905]); (7906, [7907]); (7908, [7909]); (7910, [7911]);
   (7912, [7913]); (7914, [7915]); (7916, [7917]); (7918, [7919]); (7920, [7921]);
   (7922, [7923]); (7924, [7925]); (7926, [7927]); (7928, [7929]); (7930, [7931]);
   (7932, [7933]); (7934, [7935]); (7944, [7936]); (7945, [7937]); (7946, [7938]);
   (7947, [7939]); (7948, [7940]); (7949, [7941]); (7950, [7942]); (7951, [7943]);
   (7960, [7952]); (7961, [7953]); (7962, [7954]); (7963, [7955]); (7964, [7956]);
   (7965, [7957]); (7976, [7968]); (7977, [7969]); (7978, [7970]); (7979, [7971]);
   (7980, [7972]); (7981, [7973]); (7982, [7974]); (7983, [7975]); (7992, [7984]);
   (7993, [7985]); (7994, [7986]); (7995, [7987]); (7996, [7988]); (7997, [7989]);
   (7998, [7990]); (7999, [7991]); (8008, [8000]); (8009, [8001]); (8010, [8002]);
   (8011, [8003]); (8012, [8004]); (8013, [8005]); (8016, [965; 787]); (8018, [965; 787; 768]);
   (8020, [965; 787; 769]); (8022, [965; 787; 834]); (8025, [8017]); (8027, [8019]);
   (8029, [8021]); (8031, [8023]); (8040, [8032]); (8041, [8033]); (8042, [8034]);
   (8043, [8035]); (8044, [8036]); (8045, [8037]); (8046, [8038]); (8047, [8039]);
   (8064, [7936; 953]); (8065, [7937; 953]); (8066, [7938; 953]); (8067, [7939; 953]);
   (8068, [7940; 953]); (8069, [7941; 953]); (8070, [7942; 953]); (8071, [7943; 953]);
   (8072, [7936; 953]); (8073, [7937; 953]); (8074, [7938; 953]); (8075, [7939; 953]);
   (8076, [7940; 953]); (8077, [7941; 953]); (8078, [7942; 953]); (8079, [7943; 953]);
   (8080, [7968; 953]); (8081, [7969; 953]); (8082, [7970; 953]); (8083, [7971; 953]);
   (8084, [7972; 953]); (8085, [7973; 953]); (8086, [7974; 953]); (8087, [7975; 953]);
   (8088, [7968; 953]); (8089, [7969; 953]); (8090, [7970; 953]); (8091, [7971; 953]);
   (8092, [7972; 953]); (8093, [7973; 953]); (8094, [7974; 953]); (8095, [7975; 953]);
   (8096, [8032; 953]); (8097, [8033; 953]); (8098, [8034; 953]); (8099, [8035; 953]);
   (8100, [8036; 953]); (8101, [8037; 953]); (8102, [8038; 953]); (8103, [8039; 953]);
   (8104, [8032; 953]); (8105, [8033; 953]); (8106, [8034; 953]); (8107, [8035; 953]);
   (8108, [8036; 953]); (8109, [8037; 953]); (8110, [8038; 953]); (8111, [8039; 953]);
   (8114, [8048; 953]); (8115, [945; 953]); (8116, [940; 953]); (8118, [945; 834]);
   (8119, [945; 834; 953]); (8120, [8112]); (8121, [8113]); (8122, [8048]); (8123, [8049]);
   (8124, [945; 953]); (8126, [953]); (8130, [8052; 953]); (8131, [951; 953]);
   (8132, [942; 953]); (8134, [951; 834]); (8135, [951; 834; 953]); (8136, [8050]);
   (8137, [8051]); (8138, [8052]); (8139, [8053]); (8140, [951; 953]); (8146, [953; 776; 768]);
   (8147, [953; 776; 769]); (8150, [953; 834]); (8151, [953; 776; 834]); (8152, [8144]);
   (8153, [8145]); (8154, [8054]); (8155, [8055]); (8162, [965; 776; 768]);
   (8163, [965; 776; 769]); (8164, [961; 787]); (8166, [965; 834]); (8167, [965; 776; 834]);
   (8168, [8160]); (8169, [8161]); (8170, [8058]); (8171, [8059]); (8172, [8165]);
   (8178, [8060; 953]); (8179, [969; 953]); (8180, [974; 953]); (8182, [969; 834]);
   (8183, [969; 834; 953]); (8184, [8056]); (8185, [8057]); (8186, [8060]); (8187, [8061]);
   (8188, [969; 953]); (8486, [969]); (8490, [107]); (8491, [229]); (8498, [8526]);
   (8544, [8560]); (8545, [8561]); (8546, [8562]); (8547, [8563]); (8548, [8564]);
   (8549, [8565]); (8550, [8566]); (8551, [8567]); (8552, [8568]); (8553, [8569]);
   (8554, [8570]); (8555, [8571]); (8556, [8572]); (8557, [8573]); (8558, [8574]);
   (8559, [8575]); (8579, [8580]); (9398, [9424]); (9399, [9425]); (9400, [9426]);
   (9401, [9427]); (9402, [9428]); (9403, [9429]); (9404, [9430]); (9405, [9431]);
   (9406, [9432]); (9407, [9433]); (9408, [9434]); (9409, [9435]); (9410, [9436]);
   (9411, [9437]); (9412, [9438]); (9413, [9439]); (9414, [9440]); (9415, [9441]);
   (9416, [9442]); (9417, [9443]); (9418, [9444]); (9419, [9445]); (9420, [9446]);
   (9421, [9447]); (9422, [9448]); (9423, [9449]); (11264, [11312]); (11265, [11313]);
   (11266, [11314]); (11267, [11315]); (11268, [11316]); (11269, [11317]); (11270, [11318]);
   (11271, [11319]); (11272, [11320]); (11273, [11321]); (11274, [11322]); (11275, [11323]);
   (11276, [11324]); (11277, [11325]); (11278, [11326]); (11279, [11327]); (11280, [11328]);
   (11281, [11329]); (11282, [11330]); (11283, [11331]); (11284, [11332]); (11285, [11333]);
   (11286, [11334]); (11287, [11335]); (11288, [11336]); (11289, [11337]); (11290, [11338]);
   (11291, [11339]); (11292, [11340]); (11293, [11341]); (11294, [11342]); (11295, [11343]);
   (11296, [11344]); (11297, [11345]); (11298, [11346]); (11299, [11347]); (11300, [11348]);
   (11301, [11349]); (11302, [11350]); (11303, [11351]); (11304, [11352]); (11305, [11353]);
   (11306, [11354]); (11307, [11355]); (11308, [11356]); (11309, [11357]); (11310, [11358]);
   (11311, [11359]); (11360, [11361]); (11362, [619]); (11363, [7549]); (11364, [637]);
   (11367, [11368]); (11369, [11370]); (11371, [11372]); (11373, [593]); (11374, [625]);
   (11375, [592]); (11376, [594]); (11378, [11379]); (11381, [11382]); (11390, [575]);
   (11391, [576]); (11392, [11393]); (11394, [11395]); (11396, [11397]); (11398, [11399]);
   (11400, [11401]); (11402, [11403]); (11404, [11405]); (11406, [11407]); (11408, [11409]);
   (11410, [11411]); (11412, [11413]); (11414, [11415]); (11416, [11417]); (11418, [11419]);
   (11420, [11421]); (11422, [11423]); (11424, [11425]); (11426, [11427]); (11428, [11429]);
   (11430, [11431]); (11432, [11433]); (11434, [11435]); (11436, [11437]); (11438, [11439]);
   (11440, [11441]); (11442, [11443]); (11444, [11445]); (11446, [11447]); (11448, [11449]);
   (11450, [11451]); (11452, [11453]); (11454, [11455]); (11456, [11457]); (11458, [11459]);
   (11460, [11461]); (11462, [11463]); (11464, [11465]); (11466, [11467]); (11468, [11469]);
   (11470, [11471]); (11472, [11473]); (11474, [11475]); (11476, [11477]); (11478, [11479]);
   (11480, [11481]); (11482, [11483]); (11484, [11485]); (11486, [11487]); (11488, [11489]);
   (11490, [11491]); (11499, [11500]); (11501, [11502]); (11506, [11507]); (42560, [42561]);
   (42562, [42563]); (42564, [42565]); (42566, [42567]); (42568, [42569]); (42570, [42571]);
   (42572, [42573]); (42574, [42575]); (42576, [42577]); (42578, [42579]); (42580, [42581]);
   (42582, [42583]); (42584, [42585]); (42586, [42587]); (42588, [42589]); (42590, [42591]);
   (42592, [42593]); (42594, [42595]); (42596, [42597]); (42598, [42599]); (42600, [42601]);
   (42602, [42603]); (42604, [42605]); (42624, [42625]); (42626, [42627]); (42628, [42629]);
   (42630, [42631]); (42632, [42633]); (42634, [42635]); (42636, [42637]); (42638, [42639]);
   (42640, [42641]); (42642, [42643]); (42644, [42645]); (42646, [42647]); (42648, [42649]);
   (42650, [42651]); (42786, [42787]); (42788, [42789]); (42790, [42791]); (42792, [42793]);
   (42794, [42795]); (42796, [42797]); (42798, [42799]); (42802, [42803]); (42804, [42805]);
   (42806, [42807]); (42808, [42809]); (42810, [42811]); (42812, [42813]); (42814, [42815]);
   (42816, [42817]); (42818, [42819]); (42820, [42821]); (42822, [42823]); (42824, [42825]);
   (42826, [42827]); (42828, [42829]); (42830, [42831]); (42832, [42833]); (42834, [42835]);
   (42836, [42837]); (42838, [42839]); (42840, [42841]); (42842, [42843]); (42844, [42845]);
   (42846, [42847]); (42848, [42849]); (42850, [42851]); (42852, [42853]); (42854, [42855]);
   (42856, [42857]); (42858, [42859]); (42860, [42861]); (42862, [42863]); (42873, [42874]);
   (42875, [42876]); (42877, [7545]); (42878, [42879]); (42880, [42881]); (42882, [42883]);
   (42884, [42885]); (42886, [42887]); (42891, [42892]); (42893, [613]); (42896, [42897]);
   (42898, [42899]); (42902, [42903]); (42904, [42905]); (42906, [42907]); (42908, [42909]);
   (42910, [42911]); (42912, [42913]); (42914, [42915]); (42916, [42917]); (42918, [42919]);
   (42920, [42921]); (42922, [614]); (42923, [604]); (42924, [609]); (42925, [620]);
   (42926, [618]); (42928, [670]); (42929, [647]); (42930, [669]); (42931, [43859]);
   (42932, [42933]); (42934, [42935]); (42936, [42937]); (42938, [42939]); (42940, [42941]);
   (42942, [42943]); (42944, [42945]); (42946, [42947]); (42948, [42900]); (42949, [642]);
   (42950, [7566]); (42951, [42952]); (42953, [42954]); (42960, [42961]); (42966, [42967]);
   (42968, [42969]); (42997, [42998]); (43888, [5024]); (43889, [5025]); (43890, [5026]);
   (43891, [5027]); (43892, [5028]); (43893, [5029]); (43894, [5030]); (43895, [5031]);
   (43896, [5032]); (43897, [5033]); (43898, [5034]); (43899, [5035]); (43900, [5036]);
   (43901, [5037]); (43902, [5038]); (43903, [5039]); (43904, [5040]); (43905, [5041]);
   (43906, [5042]); (43907, [5043]); (43908, [5044]); (43909, [5045]); (43910, [5046]);
   (43911, [5047]); (43912, [5048]); (43913, [5049]); (43914, [5050]); (43915, [5051]);
   (43916, [5052]); (43917, [5053]); (43918, [5054]); (43919, [5055]); (43920, [5056]);
   (43921, [5057]); (43922, [5058]); (43923, [5059]); (43924, [5060]); (43925, [5061]);
   (43926, [5062]); (43927, [5063]); (43928, [5064]); (43929, [5065]); (43930, [5066]);
   (43931, [5067]); (43932, [5068]); (43933, [5069]); (43934, [5070]); (43935, [5071]);
   (43936, [5072]); (43937, [5073]); (43938, [5074]); (43939, [5075]); (43940, [5076]);
   (43941, [5077]); (43942, [5078]); (43943, [5079]); (43944, [5080]); (43945, [5081]);
   (43946, [5082]); (43947, [5083]); (43948, [5084]); (43949, [5085]); (43950, [5086]);
   (43951, [5087]); (43952, [5088]); (43953, [5089]); (43954, [5090]); (43955, [5091]);
   (43956, [5092]); (43957, [5093]); (43958, [5094]); (43959, [5095]); (43960, [5096]);
   (43961, [5097]); (43962, [5098]); (43963, [5099]); (43964, [5100]); (43965, [5101]);
   (43966, [5102]); (43967, [5103]); (64256, [102; 102]); (64257, [102; 105]);
   (64258, [102; 108]); (64259, [102; 102; 105]); (64260, [102; 102; 108]);
   (64261, [115; 116]); (64262, [115; 116]); (64275, [1396; 1398]); (64276, [1396; 1381]);
   (64277, [1396; 1387]); (64278, [1406; 1398]); (64279, [1396; 1389]); (65313, [65345]);
   (65314, [65346]); (65315, [65347]); (65316, [65348]); (65317, [65349]); (65318, [65350]);
   (65319, [65351]); (65320, [65352]); (65321, [65353]); (65322, [65354]); (65323, [65355]);
   (65324, [65356]); (65325, [65357]); (65326, [65358]); (65327, [65359]); (65328, [65360]);
   (65329, [65361]); (65330, [65362]); (65331, [65363]); (65332, [65364]); (65333, [65365]);
   (65334, [65366]); (65335, [65367]); (65336, [65368]); (65337, [65369]); (65338, [65370]);
   (66560, [66600]); (66561, [66601]); (66562, [66602]); (66563, [66603]); (66564, [66604]);
   (66565, [66605]); (66566, [66606]); (66567, [66607]); (66568, [66608]); (66569, [66609]);
   (66570, [66610]); (66571, [66611]); (66572, [66612]); (66573, [66613]); (66574, [66614]);
   (66575, [66615]); (66576, [66616]); (66577, [66617]); (66578, [66618]); (66579, [66619]);
   (66580, [66620]); (66581, [66621]); (66582, [66622]); (66583, [66623]); (66584, [66624]);
   (66585, [66625]); (66586, [66626]); (66587, [66627]); (66588, [66628]); (66589, [66629]);
   (66590, [66630]); (66591, [66631]); (66592, [66632]); (66593, [66633]); (66594, [66634]);
   (66595, [66635]); (66596, [66636]); (66597, [66637]); (66598, [66638]); (66599, [66639]);
   (66736, [66776]); (66737, [66777]); (66738, [66778]); (66739, [66779]); (66740, [66780]);
   (66741, [66781]); (66742, [66782]); (66743, [66783]); (66744, [66784]); (66745, [66785]);
   (66746, [66786]); (66747, [66787]); (66748, [66788]); (66749, [66789]); (66750, [66790]);
   (66751, [66791]); (66752, [66792]); (66753, [66793]); (66754, [66794]); (66755, [66795]);
   (66756, [66796]); (66757, [66797]); (66758, [66798]); (66759, [66799]); (66760, [66800]);
   (66761, [66801]); (66762, [66802]); (66763, [66803]); (66764, [66804]); (66765, [66805]);
   (66766, [66806]); (66767, [66807]); (66768, [66808]); (66769, [66809]); (66770, [66810]);
   (66771, [66811]); (66928, [66967]); (66929, [66968]); (66930, [66969]); (66931, [66970]);
   (66932, [66971]); (66933, [66972]); (66934, [66973]); (66935, [66974]); (66936, [66975]);
   (66937, [66976]); (66938, [66977]); (66940, [66979]); (66941, [66980]); (66942, [66981]);
   (66943, [66982]); (66944, [66983]); (66945, [66984]); (66946, [66985]); (66947, [66986]);
   (66948, [66987]); (66949, [66988]); (66950, [66989]); (66951, [66990]); (66952, [66991]);
   (66953, [66992]); (66954, [66993]); (66956, [66995]); (66957, [66996]); (66958, [66997]);
   (66959, [66998]); (66960, [66999]); (66961, [67000]); (66962, [67001]); (66964, [67003]);
   (66965, [67004]); (68736, [68800]); (68737, [68801]); (68738, [68802]); (68739, [68803]);
   (68740, [68804]); (68741, [68805]); (68742, [68806]); (68743, [68807]); (68744, [68808]);
   (68745, [68809]); (68746, [68810]); (68747, [68811]); (68748, [68812]); (68749, [68813]);
   (68750, [68814]); (68751, [68815]); (68752, [68816]); (68753, [68817]); (68754, [68818]);
   (68755, [68819]); (68756, [68820]); (68757, [68821]); (68758, [68822]); (68759, [68823]);
   (68760, [68824]); (68761, [68825]); (68762, [68826]); (68763, [68827]); (68764, [68828]);
   (68765, [68829]); (68766, [68830]); (68767, [68831]); (68768, [68832]); (68769, [68833]);
   (68770, [68834]); (68771, [68835]); (68772, [68836]); (68773, [68837]); (68774, [68838]);
   (68775, [68839]); (68776, [68840]); (68777, [68841]); (68778, [68842]); (68779, [68843]);
   (68780, [68844]); (68781, [68845]); (68782, [68846]); (68783, [68847]); (68784, [68848]);
   (68785, [68849]); (68786, [68850]); (71840, [71872]); (71841, [71873]); (71842, [71874]);
   (71843, [71875]); (71844, [71876]); (71845, [71877]); (71846, [71878]); (71847, [71879]);
   (71848, [71880]); (71849, [71881]); (71850, [71882]); (71851, [71883]); (71852, [71884]);
   (71853, [71885]); (71854, [71886]); (71855, [71887]); (71856, [71888]); (71857, [71889]);
   (71858, [71890]); (71859, [71891]); (71860, [71892]); (71861, [71893]); (71862, [71894]);
   (71863, [71895]); (71864, [71896]); (71865, [71897]); (71866, [71898]); (71867, [71899]);
   (71868, [71900]); (71869, [71901]); (71870, [71902]); (71871, [71903]); (93760, [93792]);
   (93761, [93793]); (93762, [93794]); (93763, [93795]); (93764, [93796]); (93765, [93797]);
   (93766, [93798]); (93767, [93799]); (93768, [93800]); (93769, [93801]); (93770, [93802]);
   (93771, [93803]); (93772, [93804]); (93773, [93805]); (93774, [93806]); (93775, [93807]);
   (93776, [93808]); (93777, [93809]); (93778, [93810]); (93779, [93811]); (93780, [93812]);
   (93781, [93813]); (93782, [93814]); (93783, [93815]); (93784, [93816]); (93785, [93817]);
   (93786, [93818]); (93787, [93819]); (93788, [93820]); (93789, [93821]); (93790, [93822]);
   (93791, [93823]); (125184, [125218]); (125185, [125219]); (125186, [125220]);
   (125187, [125221]); (125188, [125222]); (125189, [125223]); (125190, [125224]);
   (125191, [125225]); (125192, [125226]); (125193, [125227]); (125194, [125228]);
   (125195, [125229]); (125196, [125230]); (125197, [125231]); (125198, [125232]);
   (125199, [125233]); (125200, [125234]); (125201, [125235]); (125202, [125236]);
   (125203, [125237]); (125204, [125238]); (125205, [125239]); (125206, [125240]);
   (125207, [125241]); (125208, [125242]); (125209, [125243]); (125210, [125244]);
   (125211, [125245]); (125212, [125246]); (125213, [125247]); (125214, [125248]);
   (125215, [125249]); (125216, [125250]); (125217, [125251])]%N.

(** The entry of a code point in a table of case changes. *)
Fixpoint assoc (c : N) (t : list (N * list N)) : option (list N) :=
  match t with
  | [] => None
  | (k, u) :: t' => if (c =? k)%N then Some u else assoc c t'
  end.

Definition upper_cp (c : N) : list N := default [c] (assoc c upper_table).
Definition casefold_cp (c : N) : list N := default [c] (assoc c casefold_table).

(** [s.upper()]: each code point is replaced by its upper-case mapping. *)
Definition upper (s : string) : string :=
  str_of_code_points (flat_map upper_cp (code_points s)).

(** [s.casefold()]. *)
Definition casefold (s : string) : string :=
  str_of_code_points (flat_map casefold_cp (code_points s)).

(** Equality of strings without regard to case: Unicode caseless matching,
    the comparison of the case-folded strings. *)
Definition eq_nocase (s t : string) : bool := bool_decide (casefold s = casefold t).

Arguments upper : simpl never.
Arguments casefold : simpl never.

(** The checks behind the comparison of [upper] with caseless equality:
    [f] is the mapping of the table [tf], [g] the other mapping.  A code
    point whose [f]-image begins the word [x :: t] has the image [[x]] and
    the [g]-image [[y]]. *)
Definition is_prefix (u w : list N) : bool := bool_decide (take (length u) w = u).

Definition step_ok (tf : list (N * list N)) (g : N -> list N)
    (x y : N) (t : list N) : bool :=
  forallb (fun e : N * list N =>
             negb (is_prefix e.2 (x :: t))
             || (bool_decide (e.2 = [x]) && bool_decide (g e.1 = [y]))) tf
  && bool_decide (g x = [y]).

Fixpoint word_ok (tf : list (N * list N)) (g : N -> list N)
    (w w' : list N) : bool :=
  match w, w' with
  | [], [] => true
  | x :: t, y :: t' => step_ok tf g x y t && word_ok tf g t t'
  | _, _ => false
  end.

Definition images_nonempty (tf : list (N * list N)) : bool :=
  forallb (fun e : N * list N => negb (bool_decide (e.2 = []))) tf.

Definition is_ascii (a : ascii) : bool := (N_of_ascii a <? 128)%N.

(** Python list objects are shared by reference: a store of lists. *)
Definition loc := positive.
Abbreviation Heap := (gmap loc (list PyVal)).

(** ** Event kinds ([EventType] of [source.event.event]) *)

Inductive EventType := TICK | BAR | ORDER | FILL.

#[global] Instance EventType_eq_dec : EqDecision EventType.
Proof. solve_decision. Defined.

Definition EventType_to_nat (k : EventType) : nat :=
  match k with TICK => 0 | BAR => 1 | ORDER => 2 | FILL => 3 end%nat.

Definition EventType_of_nat (n : nat) : option EventType :=
  match n with
  | 0 => Some TICK | 1 => Some BAR | 2 => Some ORDER | 3 => Some FILL
  | _ => None
  end%nat.

#[global] Instance EventType_countable : Countable EventType.
Proof.
  apply (inj_countable EventType_to_nat EventType_of_nat).
  intros []; reflexivity.
Defined.

(** The engine's bound methods, as the values stored in the handler table. *)
Inductive Handler :=
| tick_event_handler
| bar_event_handler
| order_event_handler
| fill_event_handler.

#[global] Instance Handler_eq_dec : EqDecision Handler.
Proof. solve_decision. Defined.

(** The three data feed classes the constructor chooses from. *)
Inductive DataFeedClass :=
| BacktestDataFeedLocal
| BacktestDataFeedTushare
| BacktestDataFeedQuandl.

#[global] Instance DataFeedClass_eq_dec : EqDecision DataFeedClass.
Proof. solve_decision. Defined.

(** [PassThroughRiskManager()]: the engine only ever constructs and stores
    it. *)
Inductive RiskManager := PassThroughRiskManager.

(** Exceptions the engine's own statements can raise. *)
Inductive Exn :=
| AttributeError (attr : string)
| TypeError (msg : string).

(** A call returns a value or raises. *)
Inductive Outcome (A : Type) :=
| Return (a : A)
| Raise (x : Exn).
Arguments Return {A} a.
Arguments Raise {A} x.

(** ** The collaborators' interfaces *)

(** The event records of [source.event]: the engine reads a tick's
    [timestamp], [full_symbol] and [price], a bar's [bar_end_time()],
    [full_symbol] and [adj_close_price], and passes orders and fills on
    untouched. *)
Class EventModel := {
  Price : Type;
  TickEvent : Type;
  BarEvent : Type;
  OrderEvent : Type;
  FillEvent : Type;
  timestamp : TickEvent -> Timestamp;
  tick_full_symbol : TickEvent -> string;
  price : TickEvent -> Price;
  bar_end_time : BarEvent -> Timestamp;
  bar_full_symbol : BarEvent -> string;
  adj_close_price : BarEvent -> Price;
}.

(** The components the engine owns.  A method acts on its receiver and reads
    the objects passed to it; a strategy and the brokerage hold the event
    engine and answer with the events they put on its queue.  Every method
    is a function that returns: an exception raised inside a collaborator is
    not modelled, so what is proved of a run is proved of the runs in which
    the collaborators return. *)
Class Components `{EventModel} := {
  Cash : Type;
  (* source.position.portfolio_manager *)
  PortfolioManager : Type;
  PortfolioManager_new : Cash -> PortfolioManager;
  mark_to_market : Timestamp -> string -> Price -> PortfolioManager -> PortfolioManager;
  portfolio_on_fill : FillEvent -> PortfolioManager -> PortfolioManager;
  (* source.data.data_board *)
  DataBoard : Type;
  DataBoard_new : DataBoard;
  board_on_tick : TickEvent -> DataBoard -> DataBoard;
  board_on_bar : BarEvent -> DataBoard -> DataBoard;
  (* source.performance.performance_manager *)
  PerformanceManager : Type;
  PerformanceManager_new : list string -> PerformanceManager;
  update_performance :
    Timestamp -> PortfolioManager -> DataBoard -> PerformanceManager -> PerformanceManager;
  performance_on_fill : FillEvent -> PerformanceManager -> PerformanceManager;
  update_final_performance :
    Timestamp -> PortfolioManager -> DataBoard -> PerformanceManager -> PerformanceManager;
  save_results : PyVal -> PerformanceManager -> PerformanceManager;
  create_tearsheet : PerformanceManager -> PerformanceManager;
  (* source.brokerage.backtest_brokerage *)
  BacktestBrokerage : Type;
  BacktestBrokerage_new : BacktestBrokerage;
  place_order : OrderEvent -> DataBoard -> BacktestBrokerage -> BacktestBrokerage * list FillEvent;
  (* a strategy object's own state *)
  StrategyState : Type;
}.

Section Engine.

Context `{Comp : Components}.

(** The events that travel through the event engine. *)
Inductive Event :=
| TickE (e : TickEvent)
| BarE (e : BarEvent)
| OrderE (e : OrderEvent)
| FillE (e : FillEvent).

Definition event_type (e : Event) : EventType :=
  match e with
  | TickE _ => TICK
  | BarE _ => BAR
  | OrderE _ => ORDER
  | FillE _ => FILL
  end.

(** A strategy class of [source.strategy.mystrategy]: its constructor and
    the four callbacks, each returning the orders it put on the queue. *)
Record StrategyClass := {
  strategy_new : StrategyState;
  on_init : StrategyState -> StrategyState * list OrderEvent;
  on_start : StrategyState -> StrategyState * list OrderEvent;
  on_tick : TickEvent -> StrategyState -> StrategyState * list OrderEvent;
  on_bar : BarEvent -> StrategyState -> StrategyState * list OrderEvent;
}.

Record Strategy := {
  strategy_class : StrategyClass;
  strategy_state : StrategyState;
}.

(** A data feed object: the class it was built from, its constructor
    arguments, the symbols subscribed, and the stream still to be read. *)
Record DataFeed := {
  feed_class : DataFeedClass;
  feed_hist_dir : option PyVal;
  feed_start_date : PyVal;
  feed_end_date : PyVal;
  feed_symbols : list string;
  feed_stream : list Event;
}.

(** Modelled from the spec: [BacktestEventEngine] is not under src/.  It has
    a queue of events and one handler per event kind; the feed it reads is
    the object the engine keeps in [_data_feed]. *)
Record BacktestEventEngine := {
  _queue : list Event;
  _handlers : gmap EventType Handler;
}.

(** ** The engine object *)

Record Config := {
  cash : Cash;
  tickers : loc;
  benchmark : PyVal;
  start_date : PyVal;
  end_date : PyVal;
  strategy : string;
  datasource : PyVal;
  hist_dir : PyVal;
  output_dir : PyVal;
}.

(** The attributes of a [Backtest] object.  [_strategy] is the one attribute
    the constructor may leave unset. *)
Record Backtest := {
  _current_time : Timestamp;
  _initial_cash : Cash;
  _symbols : list string;
  _benchmark : PyVal;
  _hist_dir : PyVal;
  _output_dir : PyVal;
  _data_feed : DataFeed;
  _events_engine : BacktestEventEngine;
  _data_board : DataBoard;
  _backtest_brokerage : BacktestBrokerage;
  _portfolio_manager : PortfolioManager;
  _performance_manager : PerformanceManager;
  _risk_manager : RiskManager;
  _strategy : option Strategy;
}.

Definition set_current_time (t : Timestamp) (s : Backtest) : Backtest :=
  {| _current_time := t; _initial_cash := _initial_cash s;
     _symbols := _symbols s; _benchmark := _benchmark s;
     _hist_dir := _hist_dir s; _output_dir := _output_dir s;
     _data_feed := _data_feed s; _events_engine := _events_engine s;
     _data_board := _data_board s;
     _backtest_brokerage := _backtest_brokerage s;
     _portfolio_manager := _portfolio_manager s;
     _performance_manager := _performance_manager s;
     _risk_manager := _risk_manager s; _strategy := _strategy s |}.

Definition set_data_feed (f : DataFeed) (s : Backtest) : Backtest :=
  {| _current_time := _current_time s; _initial_cash := _initial_cash s;
     _symbols := _symbols s; _benchmark := _benchmark s;
     _hist_dir := _hist_dir s; _output_dir := _output_dir s;
     _data_feed := f; _events_engine := _events_engine s;
     _data_board := _data_board s;
     _backtest_brokerage := _backtest_brokerage s;
     _portfolio_manager := _portfolio_manager s;
     _performance_manager := _performance_manager s;
     _risk_manager := _risk_manager s; _strategy := _strategy s |}.

Definition set_events_engine (g : BacktestEventEngine) (s : Backtest) : Backtest :=
  {| _current_time := _current_time s; _initial_cash := _initial_cash s;
     _symbols := _symbols s; _benchmark := _benchmark s;
     _hist_dir := _hist_dir s; _output_dir := _output_dir s;
     _data_feed := _data_feed s; _events_engine := g;
     _data_board := _data_board s;
     _backtest_brokerage := _backtest_brokerage s;
     _portfolio_manager := _portfolio_manager s;
     _performance_manager := _performance_manager s;
     _risk_manager := _risk_manager s; _strategy := _strategy s |}.

Definition set_data_board (b : DataBoard) (s : Backtest) : Backtest :=
  {| _current_time := _current_time s; _initial_cash := _initial_cash s;
     _symbols := _symbols s; _benchmark := _benchmark s;
     _hist_dir := _hist_dir s; _output_dir := _output_dir s;
     _data_feed := _data_feed s; _events_engine := _events_engine s;
     _data_board := b;
     _backtest_brokerage := _backtest_brokerage s;
     _portfolio_manager := _portfolio_manager s;
     _performance_manager := _performance_manager s;
     _risk_manager := _risk_manager s; _strategy := _strategy s |}.

Definition set_backtest_brokerage (b : BacktestBrokerage) (s : Backtest) : Backtest :=
  {| _current_time := _current_time s; _initial_cash := _initial_cash s;
     _symbols := _symbols s; _benchmark := _benchmark s;
     _hist_dir := _hist_dir s; _output_dir := _output_dir s;
     _data_feed := _data_feed s; _events_engine := _events_engine s;
     _data_board := _data_board s;
     _backtest_brokerage := b;
     _portfolio_manager := _portfolio_manager s;
     _performance_manager := _performance_manager s;
     _risk_manager := _risk_manager s; _strategy := _strategy s |}.

Definition set_portfolio_manager (p : PortfolioManager) (s : Backtest) : Backtest :=
  {| _current_time := _current_time s; _initial_cash := _initial_cash s;
     _symbols := _symbols s; _benchmark := _benchmark s;
     _hist_dir := _hist_dir s; _output_dir := _output_dir s;
     _data_feed := _data_feed s; _events_engine := _events_engine s;
     _data_board := _data_board s;
     _backtest_brokerage := _backtest_brokerage s;
     _portfolio_manager := p;
     _performance_manager := _performance_manager s;
     _risk_manager := _risk_manager s; _strategy := _strategy s |}.

Definition set_performance_manager (p : PerformanceManager) (s : Backtest) : Backtest :=
  {| _current_time := _current_time s; _initial_cash := _initial_cash s;
     _symbols := _symbols s; _benchmark := _benchmark s;
     _hist_dir := _hist_dir s; _output_dir := _output_dir s;
     _data_feed := _data_feed s; _events_engine := _events_engine s;
     _data_board := _data_board s;
     _backtest_brokerage := _backtest_brokerage s;
     _portfolio_manager := _portfolio_manager s;
     _performance_manager := p;
     _risk_manager := _risk_manager s; _strategy := _strategy s |}.

Definition set_strategy (o : option Strategy) (s : Backtest) : Backtest :=
  {| _current_time := _current_time s; _initial_cash := _initial_cash s;
     _symbols := _symbols s; _benchmark := _benchmark s;
     _hist_dir := _hist_dir s; _output_dir := _output_dir s;
     _data_feed := _data_feed s; _events_engine := _events_engine s;
     _data_board := _data_board s;
     _backtest_brokerage := _backtest_brokerage s;
     _portfolio_manager := _portfolio_manager s;
     _performance_manager := _performance_manager s;
     _risk_manager := _risk_manager s; _strategy := o |}.

Definition set_queue (q : list Event) (g : BacktestEventEngine) : BacktestEventEngine :=
  {| _queue := q; _handlers := _handlers g |}.

Definition set_feed_stream (l : list Event) (f : DataFeed) : DataFeed :=
  {| feed_class := feed_class f; feed_hist_dir := feed_hist_dir f;
     feed_start_date := feed_start_date f; feed_end_date := feed_end_date f;
     feed_symbols := feed_symbols f; feed_stream := l |}.

(** ** Method calls and the monad of the engine's code *)

(** The methods of the collaborators, with the arguments of a call; an
    object argument is recorded as the state it has when the call is made. *)
Inductive Call :=
| Call_update_performance (t : Timestamp) (pm : PortfolioManager) (db : DataBoard)
| Call_update_final_performance (t : Timestamp) (pm : PortfolioManager) (db : DataBoard)
| Call_performance_on_fill (f : FillEvent)
| Call_save_results (dir : PyVal)
| Call_create_tearsheet
| Call_mark_to_market (t : Timestamp) (sym : string) (p : Price)
| Call_portfolio_on_fill (f : FillEvent)
| Call_board_on_tick (e : TickEvent)
| Call_board_on_bar (e : BarEvent)
| Call_strategy_on_tick (e : TickEvent)
| Call_strategy_on_bar (e : BarEvent)
| Call_place_order (o : OrderEvent)
| Call_risk_check (o : OrderEvent) (pm : PortfolioManager)
| Call_stream_next
| Call_handler (h : Handler) (e : Event).

(** The engine object together with the calls made so far, oldest first;
    each call is stored with the engine as it was when the call was made. *)
Record World := {
  self : Backtest;
  calls : list (Backtest * Call);
}.

(** A computation changes the world and returns or raises; what it changed
    before an exception stays changed.  [None] is the event loop out of
    fuel. *)
Definition M (A : Type) : Type := World -> option (World * Outcome A).

#[local] Instance M_ret : MRet M := fun A a w => Some (w, Return a).

#[local] Instance M_bind : MBind M := fun A B f m w =>
  match m w with
  | None => None
  | Some (w', Raise x) => Some (w', Raise x)
  | Some (w', Return a) => f a w'
  end.

Definition raise {A} (x : Exn) : M A := fun w => Some (w, Raise x).

(** [self.<attribute>] *)
Definition attr {A} (f : Backtest -> A) : M A := fun w => Some (w, Return (f (self w))).

(** [self.<attribute> = v], or a method changing the object an attribute
    holds. *)
Definition modify_self (f : Backtest -> Backtest) : M unit := fun w =>
  Some ({| self := f (self w); calls := calls w |}, Return tt).

Definition call (c : Call) : M unit := fun w =>
  Some ({| self := self w; calls := calls w ++ [(self w, c)] |}, Return tt).

(** [self._events_engine.put(e)] for each event of [l], as a strategy or the
    brokerage does. *)
Definition put (l : list Event) : M unit :=
  modify_self (fun s =>
    set_events_engine (set_queue (_queue (_events_engine s) ++ l) (_events_engine s)) s).

(** *** The collaborators' methods, called on the engine's attributes *)

Definition PerformanceManager_update_performance
    (t : Timestamp) (pm : PortfolioManager) (db : DataBoard) : M unit :=
  call (Call_update_performance t pm db) ;;
  modify_self (fun s =>
    set_performance_manager (update_performance t pm db (_performance_manager s)) s).

Definition PerformanceManager_update_final_performance
    (t : Timestamp) (pm : PortfolioManager) (db : DataBoard) : M unit :=
  call (Call_update_final_performance t pm db) ;;
  modify_self (fun s =>
    set_performance_manager (update_final_performance t pm db (_performance_manager s)) s).

Definition PerformanceManager_on_fill (f : FillEvent) : M unit :=
  call (Call_performance_on_fill f) ;;
  modify_self (fun s =>
    set_performance_manager (performance_on_fill f (_performance_manager s)) s).

Definition PerformanceManager_save_results (dir : PyVal) : M unit :=
  call (Call_save_results dir) ;;
  modify_self (fun s =>
    set_performance_manager (save_results dir (_performance_manager s)) s).

Definition PerformanceManager_create_tearsheet : M unit :=
  call Call_create_tearsheet ;;
  modify_self (fun s =>
    set_performance_manager (create_tearsheet (_performance_manager s)) s).

Definition PortfolioManager_mark_to_market
    (t : Timestamp) (sym : string) (p : Price) : M unit :=
  call (Call_mark_to_market t sym p) ;;
  modify_self (fun s =>
    set_portfolio_manager (mark_to_market t sym p (_portfolio_manager s)) s).

Definition PortfolioManager_on_fill (f : FillEvent) : M unit :=
  call (Call_portfolio_on_fill f) ;;
  modify_self (fun s =>
    set_portfolio_manager (portfolio_on_fill f (_portfolio_manager s)) s).

Definition DataBoard_on_tick (e : TickEvent) : M unit :=
  call (Call_board_on_tick e) ;;
  modify_self (fun s => set_data_board (board_on_tick e (_data_board s)) s).

Definition DataBoard_on_bar (e : BarEvent) : M unit :=
  call (Call_board_on_bar e) ;;
  modify_self (fun s => set_data_board (board_on_bar e (_data_board s)) s).

(** The brokerage reads the data board it was built with, which is the
    engine's, and puts its fills on the queue. *)
Definition BacktestBrokerage_place_order (o : OrderEvent) : M unit :=
  call (Call_place_order o) ;;
  db ← attr _data_board;
  b ← attr _backtest_brokerage;
  modify_self (set_backtest_brokerage (place_order o db b).1) ;;
  put (FillE <$> (place_order o db b).2).

(** [self._strategy.on_tick(e)]; reading [self._strategy] fails on an engine
    whose constructor returned before setting it. *)
Definition Strategy_on_tick (e : TickEvent) : M unit :=
  o ← attr _strategy;
  match o with
  | None => raise (AttributeError "_strategy")
  | Some st =>
      call (Call_strategy_on_tick e) ;;
      let r := on_tick (strategy_class st) e (strategy_state st) in
      modify_self (set_strategy
        (Some {| strategy_class := strategy_class st; strategy_state := r.1 |})) ;;
      put (OrderE <$> r.2)
  end.

Definition Strategy_on_bar (e : BarEvent) : M unit :=
  o ← attr _strategy;
  match o with
  | None => raise (AttributeError "_strategy")
  | Some st =>
      call (Call_strategy_on_bar e) ;;
      let r := on_bar (strategy_class st) e (strategy_state st) in
      modify_self (set_strategy
        (Some {| strategy_class := strategy_class st; strategy_state := r.1 |})) ;;
      put (OrderE <$> r.2)
  end.

(** ** The event handlers ([backtest_engine.py], lines 103-126) *)

Definition _tick_event_handler (tick_event : TickEvent) : M unit :=
  modify_self (set_current_time (timestamp tick_event)) ;;
  (* performance update goes before position updates because it updates
     previous day performance *)
  (t ← attr _current_time; pm ← attr _portfolio_manager; db ← attr _data_board;
   PerformanceManager_update_performance t pm db) ;;
  (t ← attr _current_time;
   PortfolioManager_mark_to_market t (tick_full_symbol tick_event) (price tick_event)) ;;
  DataBoard_on_tick tick_event ;;
  Strategy_on_tick tick_event.

Definition _bar_event_handler (bar_event : BarEvent) : M unit :=
  modify_self (set_current_time (bar_end_time bar_event)) ;;
  (* performance update goes before position updates because it updates
     previous day *)
  (t ← attr _current_time; pm ← attr _portfolio_manager; db ← attr _data_board;
   PerformanceManager_update_performance t pm db) ;;
  (t ← attr _current_time;
   PortfolioManager_mark_to_market t (bar_full_symbol bar_event) (adj_close_price bar_event)) ;;
  DataBoard_on_bar bar_event ;;
  Strategy_on_bar bar_event.

Definition _order_event_handler (order_event : OrderEvent) : M unit :=
  BacktestBrokerage_place_order order_event.

Definition _fill_event_handler (fill_event : FillEvent) : M unit :=
  PortfolioManager_on_fill fill_event ;;
  PerformanceManager_on_fill fill_event.

(** ** The event engine *)

(** Modelled from the spec: [BacktestEventEngine.register_handler] is not
    under src/.  One handler per kind; registering again replaces it. *)
Definition register_handler (k : EventType) (h : Handler)
    (g : BacktestEventEngine) : BacktestEventEngine :=
  {| _queue := _queue g; _handlers := <[k := h]> (_handlers g) |}.

Definition BacktestEventEngine_new : BacktestEventEngine :=
  {| _queue := []; _handlers := ∅ |}.

(** The event engine calling one of the engine's bound methods.  The table
    is keyed by kind, so a handler only ever meets events of its own kind;
    elsewhere the call is a type error. *)
Definition invoke (h : Handler) (e : Event) : M unit :=
  match h, e with
  | tick_event_handler, TickE t => _tick_event_handler t
  | bar_event_handler, BarE b => _bar_event_handler b
  | order_event_handler, OrderE o => _order_event_handler o
  | fill_event_handler, FillE f => _fill_event_handler f
  | _, _ => raise (TypeError "handler called on an event of another kind")
  end.

(** Modelled from the spec: the dispatcher routes an event to the handler
    registered for its kind.  The spec does not say what becomes of an event
    whose kind has no handler: here it is passed over, a reading that plays
    no part on an engine with its four handlers registered. *)
Definition dispatch (e : Event) : M unit :=
  g ← attr _events_engine;
  match _handlers g !! event_type e with
  | Some h => call (Call_handler h e) ;; invoke h e
  | None => mret tt
  end.

(** Modelled from the spec: the next event is the oldest derived event on
    the queue and, when the queue is empty, the next event of the feed. *)
Definition get_event : M (option Event) :=
  g ← attr _events_engine;
  match _queue g with
  | e :: q => modify_self (set_events_engine (set_queue q g)) ;; mret (Some e)
  | [] =>
      f ← attr _data_feed;
      match feed_stream f with
      | e :: l =>
          call Call_stream_next ;;
          modify_self (set_data_feed (set_feed_stream l f)) ;;
          mret (Some e)
      | [] => mret None
      end
  end.

(** Modelled from the spec: [BacktestEventEngine.run] is not under src/.
    It drains the feed; the events a handler enqueues are settled before the
    next event is pulled from the feed; a handler's exception ends the run;
    the exhausted feed is the only other way out. *)
Fixpoint BacktestEventEngine_run (fuel : nat) : M unit :=
  match fuel with
  | O => fun _ => None
  | S n =>
      o ← get_event;
      match o with
      | None => mret tt
      | Some e => dispatch e ;; BacktestEventEngine_run n
      end
  end.

(** ** [Backtest.run] (lines 131-138) *)

Definition run (fuel : nat) : M unit :=
  BacktestEventEngine_run fuel ;;
  (t ← attr _current_time; pm ← attr _portfolio_manager; db ← attr _data_board;
   PerformanceManager_update_final_performance t pm db) ;;
  (dir ← attr _output_dir; PerformanceManager_save_results dir) ;;
  PerformanceManager_create_tearsheet.

(** ** [Backtest.__init__] (lines 23-100) *)

(** Modelled from the spec: the data feed classes are not under src/.  A
    feed is built from its class and the date range (and the history
    directory, for the local one); subscribing fixes the stream it will
    deliver, which is whatever the data source holds for those symbols. *)
Context (market_data :
  DataFeedClass -> option PyVal -> PyVal -> PyVal -> list string -> list Event).

Definition DataFeed_new (c : DataFeedClass) (dir : option PyVal)
    (start_date end_date : PyVal) : DataFeed :=
  {| feed_class := c; feed_hist_dir := dir;
     feed_start_date := start_date; feed_end_date := end_date;
     feed_symbols := []; feed_stream := [] |}.

Definition subscribe_market_data (symbols : list string) (f : DataFeed) : DataFeed :=
  {| feed_class := feed_class f; feed_hist_dir := feed_hist_dir f;
     feed_start_date := feed_start_date f; feed_end_date := feed_end_date f;
     feed_symbols := symbols;
     feed_stream :=
       market_data (feed_class f) (feed_hist_dir f)
                   (feed_start_date f) (feed_end_date f) symbols |}.

(** [strategy_list] of [source.strategy.mystrategy]: classes by name. *)
Context (strategy_list : gmap string StrategyClass).

(** What a constructor call leaves behind: the store of lists, the lines
    printed, and the object (or the exception raised). *)
Record Constructed := {
  heap_after : Heap;
  stdout : list string;
  outcome : Outcome Backtest;
}.

Definition __init__ (config : Config) (heap : Heap) : Constructed :=
  let current_time := Timestamp_of_date 1900 1 1 in
  (* 0. read in configs *)
  let initial_cash := cash config in
  let symbols_ref := tickers config in
  let benchmark_ := benchmark config in
  let start_date_ := start_date config in
  let send_date := end_date config in
  let strategy_name := strategy config in
  let datasource_ := py_str (datasource config) in
  let hist_dir_ := hist_dir config in
  let output_dir_ := output_dir config in
  (* 1. data_feed *)
  match heap !! symbols_ref with
  | None =>
      {| heap_after := heap; stdout := [];
         outcome := Raise (TypeError "object is not subscriptable") |}
  | Some l =>
      let symbols_all_ref := fresh (dom heap) in
      let heap := <[symbols_all_ref := l]> heap in          (* copy *)
      let heap :=
        if decide (benchmark_ = PyNone) then heap
        else alter (fun l => l ++ [benchmark_]) symbols_all_ref heap in
      let symbols := py_str <$> (heap !!! symbols_ref) in
      let symbols_all := py_str <$> (heap !!! symbols_all_ref) in
      let data_feed :=
        if decide (upper datasource_ = "LOCAL") then
          DataFeed_new BacktestDataFeedLocal (Some hist_dir_) start_date_ send_date
        else if decide (upper datasource_ = "TUSHARE") then
          DataFeed_new BacktestDataFeedTushare None start_date_ send_date
        else
          DataFeed_new BacktestDataFeedQuandl None start_date_ send_date in
      let data_feed := subscribe_market_data symbols_all data_feed in
      (* 2. event engine *)
      let events_engine := BacktestEventEngine_new in
      (* 3. brokerage *)
      let data_board := DataBoard_new in
      let backtest_brokerage := BacktestBrokerage_new in
      (* 4. portfolio_manager *)
      let portfolio_manager := PortfolioManager_new initial_cash in
      (* 5. performance_manager *)
      let performance_manager := PerformanceManager_new symbols_all in
      (* 6. risk_manager *)
      let risk_manager := PassThroughRiskManager in
      (* 7. load all strategies *)
      match strategy_list !! strategy_name with
      | None =>
          {| heap_after := heap;
             stdout := ["can not find strategy：" +:+ strategy_name];
             outcome := Return
               {| _current_time := current_time; _initial_cash := initial_cash;
                  _symbols := symbols; _benchmark := benchmark_;
                  _hist_dir := hist_dir_; _output_dir := output_dir_;
                  _data_feed := data_feed; _events_engine := events_engine;
                  _data_board := data_board;
                  _backtest_brokerage := backtest_brokerage;
                  _portfolio_manager := portfolio_manager;
                  _performance_manager := performance_manager;
                  _risk_manager := risk_manager; _strategy := None |} |}
      | Some strategyClass =>
          let started :=
            on_start strategyClass (on_init strategyClass (strategy_new strategyClass)).1 in
          let events_engine :=
            set_queue
              (OrderE <$> ((on_init strategyClass (strategy_new strategyClass)).2
                           ++ started.2))
              events_engine in
          (* 9. wire up event handlers *)
          let events_engine := register_handler TICK tick_event_handler events_engine in
          let events_engine := register_handler BAR bar_event_handler events_engine in
          let events_engine := register_handler ORDER order_event_handler events_engine in
          let events_engine := register_handler FILL fill_event_handler events_engine in
          {| heap_after := heap; stdout := [];
             outcome := Return
               {| _current_time := current_time; _initial_cash := initial_cash;
                  _symbols := symbols; _benchmark := benchmark_;
                  _hist_dir := hist_dir_; _output_dir := output_dir_;
                  _data_feed := data_feed; _events_engine := events_engine;
                  _data_board := data_board;
                  _backtest_brokerage := backtest_brokerage;
                  _portfolio_manager := portfolio_manager;
                  _performance_manager := performance_manager;
                  _risk_manager := risk_manager;
                  _strategy := Some {| strategy_class := strategyClass;
                                       strategy_state := started.1 |} |} |}
      end
  end.

(** A freshly constructed engine, before any call is made on it. *)
Definition world_of (s : Backtest) : World := {| self := s; calls := [] |}.

(** ** Vocabulary of the properties *)

(** The method a call is a call of. *)
Inductive Method :=
| m_update_performance
| m_update_final_performance
| m_performance_on_fill
| m_save_results
| m_create_tearsheet
| m_mark_to_market
| m_portfolio_on_fill
| m_board_on_tick
| m_board_on_bar
| m_strategy_on_tick
| m_strategy_on_bar
| m_place_order
| m_risk_check
| m_stream_next
| m_handler.

#[global] Instance Method_eq_dec : EqDecision Method.
Proof. solve_decision. Defined.

Definition method_of (c : Call) : Method :=
  match c with
  | Call_update_performance _ _ _ => m_update_performance
  | Call_update_final_performance _ _ _ => m_update_final_performance
  | Call_performance_on_fill _ => m_performance_on_fill
  | Call_save_results _ => m_save_results
  | Call_create_tearsheet => m_create_tearsheet
  | Call_mark_to_market _ _ _ => m_mark_to_market
  | Call_portfolio_on_fill _ => m_portfolio_on_fill
  | Call_board_on_tick _ => m_board_on_tick
  | Call_board_on_bar _ => m_board_on_bar
  | Call_strategy_on_tick _ => m_strategy_on_tick
  | Call_strategy_on_bar _ => m_strategy_on_bar
  | Call_place_order _ => m_place_order
  | Call_risk_check _ _ => m_risk_check
  | Call_stream_next => m_stream_next
  | Call_handler _ _ => m_handler
  end.

(** The methods called in a stretch of the log, in order. *)
Definition methods (l : list (Backtest * Call)) : list Method :=
  (fun c => method_of c.2) <$> l.

(** How often a method is called in a stretch of the log. *)
Definition times_called (m : Method) (l : list (Backtest * Call)) : nat :=
  length (filter (fun x => x = m) (methods l)).

(** The handler [__init__] registers for a kind. *)
Definition handler_of (k : EventType) : Handler :=
  match k with
  | TICK => tick_event_handler
  | BAR => bar_event_handler
  | ORDER => order_event_handler
  | FILL => fill_event_handler
  end.

(** The handler table holds nothing but what [__init__] can have put there:
    each kind has its own handler or none, and market events are handled
    only on an engine that has its strategy. *)
Definition wired (s : Backtest) : Prop :=
  forall k h, _handlers (_events_engine s) !! k = Some h ->
    h = handler_of k /\ ((k = TICK \/ k = BAR) -> is_Some (_strategy s)).

(** The time a market event carries: a tick's timestamp, a bar's end. *)
Definition event_time (e : Event) : option Timestamp :=
  match e with
  | TickE t => Some (timestamp t)
  | BarE b => Some (bar_end_time b)
  | OrderE _ | FillE _ => None
  end.

(** The time of the last market event of a sequence, if it has one. *)
Fixpoint last_market_time (l : list Event) : option Timestamp :=
  match l with
  | [] => None
  | e :: l' =>
      match last_market_time l' with
      | Some t => Some t
      | None => event_time e
      end
  end.

(** The events handed to a handler in a stretch of the log, in order. *)
Definition handled (l : list (Backtest * Call)) : list Event :=
  omap (fun c => match c.2 with Call_handler _ e => Some e | _ => None end) l.

(** The call that takes the performance snapshot of a market event comes
    first, on the portfolio as the handler found it; the mark follows, when
    the snapshot is already in the performance manager; neither is repeated. *)
Definition snapshot_then_mark (t : Timestamp) (sym : string) (p : Price)
    (w w' : World) : Prop :=
  let pm := _portfolio_manager (self w) in
  let db := _data_board (self w) in
  let perf := update_performance t pm db (_performance_manager (self w)) in
  exists s1 s2 rest,
    calls w' = calls w ++ (s1, Call_update_performance t pm db)
                       :: (s2, Call_mark_to_market t sym p) :: rest /\
    _portfolio_manager s1 = pm /\
    _portfolio_manager s2 = pm /\
    _performance_manager s2 = perf /\
    (m_update_performance ∉ methods rest) /\
    (m_mark_to_market ∉ methods rest) /\
    _performance_manager (self w') = perf /\
    _portfolio_manager (self w') = mark_to_market t sym p pm.

(** The calls of a market-event handler on an engine with a strategy: the
    snapshot and the mark are made while the board is as it was, the board
    update [board_call] is third, and the strategy callback [strategy_call]
    is last and made when the board is [upd] of the old one. *)
Definition board_updated_between (board_call strategy_call : Call)
    (upd : DataBoard -> DataBoard) (w w' : World) : Prop :=
  let db := _data_board (self w) in
  exists s1 c1 s2 c2 s3 s4,
    calls w' = calls w ++ [(s1, c1); (s2, c2); (s3, board_call); (s4, strategy_call)] /\
    (exists t pm, c1 = Call_update_performance t pm db) /\
    method_of c2 = m_mark_to_market /\
    _data_board s1 = db /\ _data_board s2 = db /\ _data_board s3 = db /\
    _data_board s4 = upd db /\
    _data_board (self w') = upd db.

(** The portfolio is marked once, with these arguments. *)
Definition marked_once_with (t : Timestamp) (sym : string) (p : Price)
    (w w' : World) : Prop :=
  exists before s after,
    calls w' = calls w ++ before ++ (s, Call_mark_to_market t sym p) :: after /\
    (m_mark_to_market ∉ methods before) /\
    (m_mark_to_market ∉ methods after) /\
    _portfolio_manager (self w') = mark_to_market t sym p (_portfolio_manager (self w)).

(** The claim that an order is risk-checked on its way to the brokerage:
    whenever the order handler places an order, a call of the risk
    manager's check comes earlier among the handler's calls. *)
Definition risk_checked_before_placing (o : OrderEvent) (w : World) : Prop :=
  forall w' out, _order_event_handler o w = Some (w', out) ->
  forall i s, drop (length (calls w)) (calls w') !! i = Some (s, Call_place_order o) ->
  exists j s' pm, (j < i)%nat /\
    drop (length (calls w)) (calls w') !! j = Some (s', Call_risk_check o pm).

(** The claim that a constructor call fails. *)
Definition construction_fails (config : Config) (heap : Heap) : Prop :=
  exists x, outcome (__init__ config heap) = Raise x.

(** A stretch of the event loop from [w] to [w']: calls were added, none of
    them the final snapshot, the saving of the results or the tear sheet;
    the engine's clock is the time of the last market event handled in the
    stretch, and is unchanged when there was none. *)
Definition advanced (w w' : World) : Prop :=
  exists during,
    calls w' = calls w ++ during /\
    (m_update_final_performance ∉ methods during) /\
    (m_save_results ∉ methods during) /\
    (m_create_tearsheet ∉ methods during) /\
    _current_time (self w') =
      default (_current_time (self w)) (last_market_time (handled during)) /\
    _output_dir (self w') = _output_dir (self w) /\
    wired (self w').

(** The measure under which the event loop terminates: events still in the
    feed and market events queued, then orders queued, then fills queued. *)
Definition is_market (e : Event) : bool :=
  match e with TickE _ | BarE _ => true | _ => false end.
Definition is_order (e : Event) : bool :=
  match e with OrderE _ => true | _ => false end.
Definition is_fill (e : Event) : bool :=
  match e with FillE _ => true | _ => false end.

Definition count (p : Event -> bool) (l : list Event) : nat :=
  length (List.filter p l).

Definition pending_market (s : Backtest) : nat :=
  (length (feed_stream (_data_feed s)) + count is_market (_queue (_events_engine s)))%nat.
Definition pending_orders (s : Backtest) : nat :=
  count is_order (_queue (_events_engine s)).
Definition pending_fills (s : Backtest) : nat :=
  count is_fill (_queue (_events_engine s)).

(** ** Vocabulary of the further properties *)

(** The calls one pass of the event loop can add, by method: a pull from
    the feed, or the body of one handler after the loop's call of it. *)
Definition tick_block : list Method :=
  [m_handler; m_update_performance; m_mark_to_market; m_board_on_tick;
   m_strategy_on_tick].
Definition bar_block : list Method :=
  [m_handler; m_update_performance; m_mark_to_market; m_board_on_bar;
   m_strategy_on_bar].
Definition order_block : list Method := [m_handler; m_place_order].
Definition fill_block : list Method :=
  [m_handler; m_portfolio_on_fill; m_performance_on_fill].

Definition is_block (b : list Method) : Prop :=
  b = [m_stream_next] \/ b = tick_block \/ b = bar_block \/
  b = order_block \/ b = fill_block.

(** A sequence of methods that is a sequence of whole blocks. *)
Definition in_blocks (l : list Method) : Prop :=
  exists bs, l = concat bs /\ Forall is_block bs.

(** Every kind has its handler, as after a constructor call that found the
    strategy. *)
Definition fully_wired (s : Backtest) : Prop :=
  (forall k, _handlers (_events_engine s) !! k = Some (handler_of k)) /\
  is_Some (_strategy s).

(** The feed class lines 50-62 choose for a datasource string, with the
    comparison made without case. *)
Definition feed_class_for (ds : string) : DataFeedClass :=
  if eq_nocase ds "LOCAL" then BacktestDataFeedLocal
  else if eq_nocase ds "TUSHARE" then BacktestDataFeedTushare
  else BacktestDataFeedQuandl.

End Engine.

(** ** A concrete set of components

    A small instance of the interfaces after sections 3 and 4 of the
    specification, used to run the engine on concrete inputs: integer
    prices, a portfolio of cash, positions and marks, a board of last
    prices, a brokerage filling market orders at the board price, and
    performance rows of equity. *)
Module Demo.

Record Tick := { tick_symbol : string; tick_time : Timestamp; tick_price : Z }.
Record Bar := { bar_symbol : string; bar_start : Timestamp; bar_end : Timestamp;
                bar_close : Z; bar_adj_close : Z }.
Record Order := { order_symbol : string; order_quantity : Z }.
Record Fill := { fill_symbol : string; fill_quantity : Z; fill_price : Z }.

#[local] Instance events : EventModel := {|
  Price := Z;
  TickEvent := Tick;
  BarEvent := Bar;
  OrderEvent := Order;
  FillEvent := Fill;
  timestamp := tick_time;
  tick_full_symbol := tick_symbol;
  price := tick_price;
  bar_end_time := bar_end;
  bar_full_symbol := bar_symbol;
  adj_close_price := bar_adj_close;
|}.

Record Portfolio := {
  pf_cash : Z;
  pf_positions : gmap string Z;
  pf_marks : gmap string Z;
}.

Definition equity (pf : Portfolio) : Z :=
  pf_cash pf +
  map_fold (fun sym q acc => acc + q * default 0 (pf_marks pf !! sym)) 0
           (pf_positions pf).

Definition mark (sym : string) (p : Z) (pf : Portfolio) : Portfolio :=
  {| pf_cash := pf_cash pf; pf_positions := pf_positions pf;
     pf_marks := <[sym := p]> (pf_marks pf) |}.

Definition apply_fill (f : Fill) (pf : Portfolio) : Portfolio :=
  {| pf_cash := pf_cash pf - fill_quantity f * fill_price f;
     pf_positions :=
       <[fill_symbol f :=
           default 0 (pf_positions pf !! fill_symbol f) + fill_quantity f]>
         (pf_positions pf);
     pf_marks := pf_marks pf |}.

Record Performance := {
  perf_symbols : list string;
  perf_rows : list (Timestamp * Z);
  perf_trades : nat;
  perf_saved : option PyVal;
}.

Definition add_row (t : Timestamp) (pf : Portfolio) (pm : Performance) : Performance :=
  {| perf_symbols := perf_symbols pm;
     perf_rows := perf_rows pm ++ [(t, equity pf)];
     perf_trades := perf_trades pm; perf_saved := perf_saved pm |}.

Definition count_trade (pm : Performance) : Performance :=
  {| perf_symbols := perf_symbols pm; perf_rows := perf_rows pm;
     perf_trades := S (perf_trades pm); perf_saved := perf_saved pm |}.

Definition save (dir : PyVal) (pm : Performance) : Performance :=
  {| perf_symbols := perf_symbols pm; perf_rows := perf_rows pm;
     perf_trades := perf_trades pm; perf_saved := Some dir |}.

Definition fill_at_board (o : Order) (db : gmap string Z) : list Fill :=
  match db !! order_symbol o with
  | Some p => [{| fill_symbol := order_symbol o;
                  fill_quantity := order_quantity o; fill_price := p |}]
  | None => []
  end.

#[local] Instance components : Components := {|
  Cash := Z;
  PortfolioManager := Portfolio;
  PortfolioManager_new c := {| pf_cash := c; pf_positions := ∅; pf_marks := ∅ |};
  mark_to_market _ sym p pf := mark sym p pf;
  portfolio_on_fill := apply_fill;
  DataBoard := gmap string Z;
  DataBoard_new := ∅;
  board_on_tick e db := <[tick_symbol e := tick_price e]> db;
  board_on_bar e db := <[bar_symbol e := bar_adj_close e]> db;
  PerformanceManager := Performance;
  PerformanceManager_new syms :=
    {| perf_symbols := syms; perf_rows := []; perf_trades := 0; perf_saved := None |};
  update_performance t pf _ pm := add_row t pf pm;
  performance_on_fill _ pm := count_trade pm;
  update_final_performance t pf _ pm := add_row t pf pm;
  save_results := save;
  create_tearsheet pm := pm;
  BacktestBrokerage := unit;
  BacktestBrokerage_new := tt;
  place_order o db b := (b, fill_at_board o db);
  StrategyState := nat;
|}.

(** Buys 100 of the instrument of the first tick or bar it sees. *)
Definition BuyAndHold : StrategyClass := {|
  strategy_new := 0%nat;
  on_init n := (n, []);
  on_start n := (n, []);
  on_tick e n :=
    (S n, if decide (n = 0%nat)
          then [{| order_symbol := tick_symbol e; order_quantity := 100 |}] else []);
  on_bar e n :=
    (S n, if decide (n = 0%nat)
          then [{| order_symbol := bar_symbol e; order_quantity := 100 |}] else []);
|}.

Definition strategy_list : gmap string StrategyClass :=
  {[ "BuyAndHold" := BuyAndHold ]}.

Definition t0 : Timestamp := Timestamp_of_date 2020 1 2.
Definition t1 : Timestamp := Timestamp_of_date 2020 1 3.

Definition tick0 : Tick := {| tick_symbol := "X"; tick_time := t0; tick_price := 10 |}.
Definition tick1 : Tick := {| tick_symbol := "X"; tick_time := t1; tick_price := 12 |}.
Definition bar1 : Bar :=
  {| bar_symbol := "X"; bar_start := t0; bar_end := t1;
     bar_close := 13; bar_adj_close := 12 |}.
Definition order0 : Order := {| order_symbol := "X"; order_quantity := 100 |}.
Definition fill0 : Fill :=
  {| fill_symbol := "X"; fill_quantity := 100; fill_price := 10 |}.

(** Every source holds the same two ticks of X. *)
Definition market_data (c : DataFeedClass) (dir : option PyVal)
    (start_date end_date : PyVal) (symbols : list string) : list Event :=
  if decide ("X" ∈ symbols) then [TickE tick0; TickE tick1] else [].

(** The caller's store: the list of tickers at location 1. *)
Definition heap : Heap := {[ 1%positive := [PyStr "X"] ]}.

Definition config : Config := {|
  cash := 100000;
  tickers := 1%positive;
  benchmark := PyStr "SPX";
  start_date := PyStr "2020-01-01";
  end_date := PyStr "2020-12-31";
  strategy := "BuyAndHold";
  datasource := PyStr "csv";
  hist_dir := PyStr "hist";
  output_dir := PyStr "out";
|}.

(** The same configuration, naming a strategy that is not registered. *)
Definition config_unknown : Config := {|
  cash := 100000;
  tickers := 1%positive;
  benchmark := PyStr "SPX";
  start_date := PyStr "2020-01-01";
  end_date := PyStr "2020-12-31";
  strategy := "Momentum";
  datasource := PyStr "csv";
  hist_dir := PyStr "hist";
  output_dir := PyStr "out";
|}.

Definition constructed : Constructed := __init__ market_data strategy_list config heap.

(** The engine built from [config]; the dummy of the other branch is never
    taken. *)
Definition engine : Backtest :=
  match outcome constructed with
  | Return s => s
  | Raise _ =>
      {| _current_time := 0; _initial_cash := 0; _symbols := []; _benchmark := PyNone;
         _hist_dir := PyNone; _output_dir := PyNone;
         _data_feed := DataFeed_new BacktestDataFeedQuandl None PyNone PyNone;
         _events_engine := BacktestEventEngine_new; _data_board := DataBoard_new;
         _backtest_brokerage := BacktestBrokerage_new;
         _portfolio_manager := PortfolioManager_new 0;
         _performance_manager := PerformanceManager_new [];
         _risk_manager := PassThroughRiskManager; _strategy := None |}
  end.

Definition world : World := world_of engine.

(** The configuration without a benchmark and with the local data source. *)
Definition config_local : Config := {|
  cash := 100000;
  tickers := 1%positive;
  benchmark := PyNone;
  start_date := PyStr "2020-01-01";
  end_date := PyStr "2020-12-31";
  strategy := "BuyAndHold";
  datasource := PyStr "Local";
  hist_dir := PyStr "hist";
  output_dir := PyStr "out";
|}.

(** A data source spelled with the long s, U+017F. *)
Definition config_long_s : Config := {|
  cash := 100000;
  tickers := 1%positive;
  benchmark := PyNone;
  start_date := PyStr "2020-01-01";
  end_date := PyStr "2020-12-31";
  strategy := "BuyAndHold";
  datasource := PyStr "tuſhare";
  hist_dir := PyStr "hist";
  output_dir := PyStr "out";
|}.

(** The engine the constructor leaves for [config_unknown]: one without a
    strategy; the dummy of the other branch is never taken. *)
Definition engine_unknown : Backtest :=
  match outcome (__init__ market_data strategy_list config_unknown heap) with
  | Return s => s
  | Raise _ => engine
  end.

Definition world_unknown : World := world_of engine_unknown.

End Demo.

(** * Properties of the string functions *)

Section CaseTables.

Lemma assoc_In (c : N) (t : list (N * list N)) (u : list N) :
  assoc c t = Some u -> In (c, u) t.
Proof.
  induction t as [|[k v] t IH]; simpl; [discriminate |].
  destruct (N.eqb_spec c k) as [-> | _]; [intros [= ->]; by left | right; auto].
Qed.

Lemma is_prefix_app (u l w : list N) : u ++ l = w -> is_prefix u w = true.
Proof.
  intros <-. unfold is_prefix. apply bool_decide_eq_true. by rewrite take_app_length.
Qed.

Variable tf : list (N * list N).
Variable g : N -> list N.
Let f (c : N) : list N := default [c] (assoc c tf).

Lemma step_ok_sound (x y : N) (t : list N) :
  step_ok tf g x y t = true ->
  forall c l, f c ++ l = x :: t -> l = t /\ g c = [y].
Proof.
  unfold step_ok. intros [Htab Hx]%andb_true_iff c l Hc.
  apply bool_decide_eq_true in Hx. unfold f in Hc.
  destruct (assoc c tf) as [u|] eqn:Hu; simpl in Hc.
  - rewrite forallb_forall in Htab.
    specialize (Htab (c, u) (assoc_In _ _ _ Hu)). simpl in Htab.
    rewrite (is_prefix_app u l _ Hc) in Htab. simpl in Htab.
    apply andb_true_iff in Htab as [Hux Hgc].
    apply bool_decide_eq_true in Hux. apply bool_decide_eq_true in Hgc.
    subst u. by injection Hc as ->.
  - injection Hc as -> ->. by split.
Qed.

Lemma word_ok_sound :
  images_nonempty tf = true ->
  forall cps w w', word_ok tf g w w' = true ->
    flat_map f cps = w -> flat_map g cps = w'.
Proof.
  intros Hne. induction cps as [|c cps IH]; intros w w' Hok; simpl.
  - intros <-. destruct w'; [reflexivity | discriminate Hok].
  - intros Hw. destruct w as [|x t].
    + exfalso. apply app_eq_nil in Hw as [Hfc _]. unfold f in Hfc.
      destruct (assoc c tf) as [u|] eqn:Hu; simpl in Hfc; [| discriminate Hfc].
      unfold images_nonempty in Hne. rewrite forallb_forall in Hne.
      specialize (Hne (c, u) (assoc_In _ _ _ Hu)). simpl in Hne.
      subst u. by rewrite bool_decide_eq_true_2 in Hne.
    + destruct w' as [|y t']; [discriminate Hok |]. simpl in Hok.
      apply andb_true_iff in Hok as [Hstep Hrest].
      destruct (step_ok_sound x y t Hstep c _ Hw) as [Ht Hgc].
      rewrite Hgc, (IH t t' Hrest Ht). reflexivity.
Qed.

End CaseTables.

(** The first byte of a code point is an ASCII byte only for an ASCII code
    point. *)
Lemma high_byte (b0 b1 b2 b3 b4 b5 b6 : bool) :
  is_ascii (Ascii b0 b1 b2 b3 b4 b5 b6 true) = false.
Proof. by destruct b0, b1, b2, b3, b4, b5, b6. Qed.

Lemma utf8_encode_cp_ascii (c : N) (a : ascii) (r : list ascii) :
  utf8_encode_cp c = a :: r -> is_ascii a = true -> r = [] /\ c = N_of_ascii a.
Proof.
  unfold utf8_encode_cp.
  destruct (N.ltb_spec c 128) as [Hc | _].
  - intros [= <- <-] _. split; [reflexivity |].
    symmetry. apply N_ascii_embedding. lia.
  - destruct (c <? 2048)%N;
      [| destruct ((56448 <=? c) && (c <=? 56575))%N; [| destruct (c <? 65536)%N]].
    all: intros [= <- <-] Ha; by rewrite high_byte in Ha.
Qed.

Lemma utf8_encode_cp_nonempty (c : N) : utf8_encode_cp c <> [].
Proof.
  unfold utf8_encode_cp.
  destruct (c <? 128)%N; [done |].
  destruct (c <? 2048)%N; [done |].
  destruct ((56448 <=? c) && (c <=? 56575))%N; [done |].
  by destruct (c <? 65536)%N.
Qed.

Lemma utf8_encode_ascii_inv (l : list N) (t : list ascii) :
  forallb is_ascii t = true ->
  flat_map utf8_encode_cp l = t -> l = N_of_ascii <$> t.
Proof.
  revert t. induction l as [|c l IH]; intros t Ht; simpl.
  - by intros <-.
  - destruct (utf8_encode_cp c) as [|a r] eqn:Hc;
      [by apply utf8_encode_cp_nonempty in Hc |].
    intros <-. simpl in Ht. apply andb_true_iff in Ht as [Ha Ht].
    destruct (utf8_encode_cp_ascii c a r Hc Ha) as [-> ->]. simpl.
    f_equal. by apply IH.
Qed.

Lemma str_of_code_points_ascii_inv (l : list N) (t : string) :
  forallb is_ascii (list_ascii_of_string t) = true ->
  str_of_code_points l = t -> l = N_of_ascii <$> list_ascii_of_string t.
Proof.
  intros Ht Hl. apply utf8_encode_ascii_inv; [exact Ht |].
  unfold str_of_code_points in Hl. rewrite <- Hl.
  by rewrite list_ascii_of_string_of_list_ascii.
Qed.

(** For an upper-case ASCII word [T] with lower-case form [L], both checked
    against the tables: a string has [T] as its upper-case form exactly when
    it matches [T] without regard to case. *)
Lemma upper_iff_eq_nocase (T L : string) :
  forallb is_ascii (list_ascii_of_string T) = true ->
  forallb is_ascii (list_ascii_of_string L) = true ->
  word_ok upper_table casefold_cp
    (N_of_ascii <$> list_ascii_of_string T) (N_of_ascii <$> list_ascii_of_string L) = true ->
  word_ok casefold_table upper_cp
    (N_of_ascii <$> list_ascii_of_string L) (N_of_ascii <$> list_ascii_of_string T) = true ->
  str_of_code_points (N_of_ascii <$> list_ascii_of_string T) = T ->
  str_of_code_points (N_of_ascii <$> list_ascii_of_string L) = L ->
  casefold T = L ->
  images_nonempty upper_table = true ->
  images_nonempty casefold_table = true ->
  forall s, upper s = T <-> eq_nocase s T = true.
Proof.
  intros HT HL Hup Hdown HTs HLs HTL Hnu Hnc s.
  unfold eq_nocase. rewrite bool_decide_eq_true, HTL. unfold upper, casefold.
  split; intros Hs.
  - apply str_of_code_points_ascii_inv in Hs; [| exact HT].
    rewrite (word_ok_sound upper_table casefold_cp Hnu _ _ _ Hup Hs). exact HLs.
  - apply str_of_code_points_ascii_inv in Hs; [| exact HL].
    rewrite (word_ok_sound casefold_table upper_cp Hnc _ _ _ Hdown Hs). exact HTs.
Qed.

Lemma upper_LOCAL (s : string) : upper s = "LOCAL" <-> eq_nocase s "LOCAL" = true.
Proof. apply (upper_iff_eq_nocase "LOCAL" "local"); by vm_compute. Qed.

Lemma upper_TUSHARE (s : string) : upper s = "TUSHARE" <-> eq_nocase s "TUSHARE" = true.
Proof. apply (upper_iff_eq_nocase "TUSHARE" "tushare"); by vm_compute. Qed.

(** * Properties of the engine *)

Section EngineFacts.

Context `{Comp : Components}.

(** Unfolds a computation of the monad applied to a world. *)
Ltac run_M :=
  unfold dispatch, get_event, invoke,
    _tick_event_handler, _bar_event_handler, _order_event_handler,
    _fill_event_handler,
    PerformanceManager_update_performance,
    PerformanceManager_update_final_performance, PerformanceManager_on_fill,
    PerformanceManager_save_results, PerformanceManager_create_tearsheet,
    PortfolioManager_mark_to_market, PortfolioManager_on_fill,
    DataBoard_on_tick, DataBoard_on_bar, BacktestBrokerage_place_order,
    Strategy_on_tick, Strategy_on_bar,
    mbind, M_bind, mret, M_ret, attr, modify_self, call, raise, put;
  simpl.

(** A method that does not occur in a short explicit list of methods. *)
Ltac not_called :=
  unfold methods; simpl;
  let Hin := fresh "Hin" in
  intros Hin;
  repeat (apply elem_of_cons in Hin as [Hin | Hin]; [discriminate Hin |]);
  by apply elem_of_nil in Hin.

(** ** The market-event handlers *)

(** C1: for every Tick and every Bar event, the handler calls the
    performance manager's [update_performance], with the event's timestamp,
    the portfolio and the data board, before it calls the portfolio
    manager's [mark_to_market] for that event; each is called once; the
    snapshot is computed from the portfolio as it was before this event's
    mark, and the mark is applied to that same portfolio afterwards. *)
Theorem update_performance_before_mark_to_market :
  (forall (e : TickEvent) (w : World), exists w' out,
      _tick_event_handler e w = Some (w', out) /\
      snapshot_then_mark (timestamp e) (tick_full_symbol e) (price e) w w') /\
  (forall (e : BarEvent) (w : World), exists w' out,
      _bar_event_handler e w = Some (w', out) /\
      snapshot_then_mark (bar_end_time e) (bar_full_symbol e) (adj_close_price e) w w').
Proof.
  split; intros e [s cs]; destruct (_strategy s) as [st|] eqn:Hst.
  all: eexists _, _; split; [run_M; rewrite Hst; reflexivity |].
  all: unfold snapshot_then_mark; simpl; eexists _, _, _.
  all: split; [rewrite <- !app_assoc; simpl; reflexivity |].
  all: repeat split; try reflexivity; not_called.
Qed.

(** C2: on an engine that has its strategy, the handler of a Tick or Bar
    event updates the data board with the event after the performance
    snapshot and the mark-to-market, which are made while the board is as
    the previous event left it, and before the strategy's [on_tick] or
    [on_bar], which is called when the board already holds the event. *)
Theorem board_updated_before_strategy_only (w : World) :
  is_Some (_strategy (self w)) ->
  (forall e : TickEvent, exists w',
      _tick_event_handler e w = Some (w', Return tt) /\
      board_updated_between (Call_board_on_tick e) (Call_strategy_on_tick e)
        (board_on_tick e) w w') /\
  (forall e : BarEvent, exists w',
      _bar_event_handler e w = Some (w', Return tt) /\
      board_updated_between (Call_board_on_bar e) (Call_strategy_on_bar e)
        (board_on_bar e) w w').
Proof.
  destruct w as [s cs]; simpl. intros [st Hst].
  split; intros e.
  all: eexists; split; [run_M; rewrite Hst; reflexivity |].
  all: unfold board_updated_between; simpl; eexists _, _, _, _, _, _.
  all: split; [rewrite <- !app_assoc; simpl; reflexivity |].
  all: repeat split; eauto.
Qed.

(** C5: the mark-to-market of a market event is made once and with the
    event's own data: a tick's price at the tick's timestamp, a bar's
    adjusted close at the bar's end time, each for the event's symbol. *)
Theorem mark_to_market_uses_event_price :
  (forall (e : TickEvent) (w : World), exists w' out,
      _tick_event_handler e w = Some (w', out) /\
      marked_once_with (timestamp e) (tick_full_symbol e) (price e) w w') /\
  (forall (e : BarEvent) (w : World), exists w' out,
      _bar_event_handler e w = Some (w', out) /\
      marked_once_with (bar_end_time e) (bar_full_symbol e) (adj_close_price e) w w').
Proof.
  split; intros e [s cs]; destruct (_strategy s) as [st|] eqn:Hst.
  all: eexists _, _; split; [run_M; rewrite Hst; reflexivity |].
  all: unfold marked_once_with; simpl; eexists [_], _, _.
  all: split; [rewrite <- !app_assoc; simpl; reflexivity |].
  all: repeat split; try reflexivity; not_called.
Qed.

(** ** The trading-event handlers *)

(** C7: the fill handler calls the portfolio manager's [on_fill] and the
    performance manager's [on_fill] with the fill, once each and in this
    order: the portfolio has applied the fill when the performance manager
    records it. *)
Theorem fill_updates_portfolio_then_performance (f : FillEvent) (w : World) :
  exists w' s1 s2,
    _fill_event_handler f w = Some (w', Return tt) /\
    calls w' = calls w ++ [(s1, Call_portfolio_on_fill f);
                           (s2, Call_performance_on_fill f)] /\
    times_called m_portfolio_on_fill (drop (length (calls w)) (calls w')) = 1%nat /\
    times_called m_performance_on_fill (drop (length (calls w)) (calls w')) = 1%nat /\
    _portfolio_manager s1 = _portfolio_manager (self w) /\
    _portfolio_manager s2 = portfolio_on_fill f (_portfolio_manager (self w)) /\
    _performance_manager s2 = _performance_manager (self w) /\
    _portfolio_manager (self w') = portfolio_on_fill f (_portfolio_manager (self w)) /\
    _performance_manager (self w') = performance_on_fill f (_performance_manager (self w)).
Proof.
  destruct w as [s cs]. eexists _, _, _.
  split; [run_M; reflexivity |]. simpl.
  split; [rewrite <- !app_assoc; simpl; reflexivity |].
  rewrite <- !app_assoc, !drop_app_length. simpl.
  repeat split; reflexivity.
Qed.

(** C3, as the code has it: the order handler hands every order to the
    brokerage's [place_order], once and as its only call, so the risk
    manager the engine holds is not consulted; the brokerage's fills all go
    on the queue and the risk manager is left as it was. *)
Theorem order_goes_straight_to_brokerage (o : OrderEvent) (w : World) :
  exists w',
    _order_event_handler o w = Some (w', Return tt) /\
    calls w' = calls w ++ [(self w, Call_place_order o)] /\
    (m_risk_check ∉ methods (drop (length (calls w)) (calls w'))) /\
    _risk_manager (self w') = _risk_manager (self w) /\
    _backtest_brokerage (self w') =
      (place_order o (_data_board (self w)) (_backtest_brokerage (self w))).1 /\
    _queue (_events_engine (self w')) =
      _queue (_events_engine (self w)) ++
      (FillE <$> (place_order o (_data_board (self w)) (_backtest_brokerage (self w))).2).
Proof.
  destruct w as [s cs]. eexists.
  split; [run_M; reflexivity |]. simpl.
  rewrite drop_app_length.
  repeat split; try reflexivity. not_called.
Qed.

(** ** The event loop *)

Lemma methods_app (a b : list (Backtest * Call)) :
  methods (a ++ b) = methods a ++ methods b.
Proof. unfold methods. apply fmap_app. Qed.

Lemma handled_app (a b : list (Backtest * Call)) :
  handled (a ++ b) = handled a ++ handled b.
Proof. unfold handled. apply omap_app. Qed.

Lemma last_market_time_app (a b : list Event) :
  last_market_time (a ++ b) =
  match last_market_time b with
  | Some t => Some t
  | None => last_market_time a
  end.
Proof.
  induction a as [|e a IH]; simpl.
  - destruct (last_market_time b); reflexivity.
  - rewrite IH. destruct (last_market_time b); reflexivity.
Qed.

Lemma count_app (p : Event -> bool) (a b : list Event) :
  count p (a ++ b) = (count p a + count p b)%nat.
Proof. unfold count. rewrite List.filter_app, length_app. reflexivity. Qed.

Lemma count_orders (p : Event -> bool) (l : list OrderEvent) :
  (forall o, p (OrderE o) = false) -> count p (OrderE <$> l) = 0%nat.
Proof.
  intros Hp. unfold count. induction l as [|o l IH]; simpl; [reflexivity |].
  rewrite Hp. exact IH.
Qed.

Lemma count_fills (p : Event -> bool) (l : list FillEvent) :
  (forall f, p (FillE f) = false) -> count p (FillE <$> l) = 0%nat.
Proof.
  intros Hp. unfold count. induction l as [|f l IH]; simpl; [reflexivity |].
  rewrite Hp. exact IH.
Qed.

Lemma wired_preserved (s s' : Backtest) :
  _handlers (_events_engine s') = _handlers (_events_engine s) ->
  (is_Some (_strategy s) -> is_Some (_strategy s')) ->
  wired s -> wired s'.
Proof.
  intros Hh Hs Hw k h Hk. rewrite Hh in Hk.
  destruct (Hw k h Hk) as [-> Hm]. split; [reflexivity | auto].
Qed.

Lemma advanced_refl (w : World) : wired (self w) -> advanced w w.
Proof.
  intros Hw. exists []. rewrite app_nil_r.
  split_and!; try done; unfold methods; simpl; apply not_elem_of_nil.
Qed.

Lemma advanced_trans (w1 w2 w3 : World) :
  advanced w1 w2 -> advanced w2 w3 -> advanced w1 w3.
Proof.
  intros (d1 & Hc1 & Hf1 & Hs1 & Ht1 & Hclk1 & Hout1 & _)
         (d2 & Hc2 & Hf2 & Hs2 & Ht2 & Hclk2 & Hout2 & Hw).
  exists (d1 ++ d2). rewrite Hc2, Hc1, <- app_assoc, methods_app.
  split_and!; try (rewrite not_elem_of_app; done); try done.
  - rewrite Hclk2, Hclk1, handled_app, last_market_time_app.
    destruct (last_market_time (handled d2)); reflexivity.
  - congruence.
Qed.

(** One more call that the loop itself makes. *)
Lemma advanced_stream_next (s : Backtest) (cs : list (Backtest * Call)) (s' : Backtest) :
  _current_time s' = _current_time s -> _output_dir s' = _output_dir s ->
  wired s' ->
  advanced {| self := s; calls := cs |}
           {| self := s'; calls := cs ++ [(s, Call_stream_next)] |}.
Proof.
  intros Ht Ho Hw. exists [(s, Call_stream_next)]. simpl.
  split_and!; try done; not_called.
Qed.

(** Dispatching an event on a wired engine returns; it appends calls of the
    loop only, leaves the feed alone, and enqueues nothing but what the chain
    tick/bar, order, fill allows. *)
Lemma dispatch_advances (e : Event) (w : World) :
  wired (self w) ->
  exists w' added,
    dispatch e w = Some (w', Return tt) /\
    advanced w w' /\
    _data_feed (self w') = _data_feed (self w) /\
    _queue (_events_engine (self w')) = _queue (_events_engine (self w)) ++ added /\
    count is_market added = 0%nat /\
    (is_market e = false -> count is_order added = 0%nat) /\
    (is_fill e = true -> added = []).
Proof.
  destruct w as [s cs]; simpl. intros Hw.
  destruct (_handlers (_events_engine s) !! event_type e) as [h|] eqn:Hh.
  - destruct (Hw _ _ Hh) as [-> Hst].
    destruct e as [t|b|o|f]; simpl in Hst, Hh.
    + destruct Hst as [st Hst]; [by left |].
      eexists _, _. split; [run_M; rewrite Hh; simpl; rewrite Hst; reflexivity |].
      simpl. split; [| split; [reflexivity | split; [reflexivity |]]].
      * eexists. split; [rewrite <- !app_assoc; simpl; reflexivity |].
        split_and!; try not_called; try reflexivity.
        apply (wired_preserved s); [reflexivity | by eauto | exact Hw].
      * split; [by apply count_orders |]. split; [discriminate | discriminate].
    + destruct Hst as [st Hst]; [by right |].
      eexists _, _. split; [run_M; rewrite Hh; simpl; rewrite Hst; reflexivity |].
      simpl. split; [| split; [reflexivity | split; [reflexivity |]]].
      * eexists. split; [rewrite <- !app_assoc; simpl; reflexivity |].
        split_and!; try not_called; try reflexivity.
        apply (wired_preserved s); [reflexivity | by eauto | exact Hw].
      * split; [by apply count_orders |]. split; [discriminate | discriminate].
    + eexists _, _. split; [run_M; rewrite Hh; reflexivity |].
      simpl. split; [| split; [reflexivity | split; [reflexivity |]]].
      * eexists. split; [rewrite <- !app_assoc; simpl; reflexivity |].
        split_and!; try not_called; try reflexivity.
        apply (wired_preserved s); [reflexivity | done | exact Hw].
      * split; [by apply count_fills |].
        split; [intros _; by apply count_fills | discriminate].
    + eexists _, []. split; [run_M; rewrite Hh; reflexivity |].
      simpl. split; [| split; [reflexivity | split; [by rewrite app_nil_r |]]].
      * eexists. split; [rewrite <- !app_assoc; simpl; reflexivity |].
        split_and!; try not_called; try reflexivity.
        apply (wired_preserved s); [reflexivity | done | exact Hw].
      * repeat split; reflexivity.
  - exists {| self := s; calls := cs |}, []. split; [run_M; rewrite Hh; reflexivity |].
    split; [by apply advanced_refl |].
    rewrite app_nil_r. repeat split; reflexivity.
Qed.

Lemma run_loop_stop (n : nat) (w w1 : World) :
  get_event w = Some (w1, Return None) ->
  BacktestEventEngine_run (S n) w = Some (w1, Return tt).
Proof. intros Hg. simpl. unfold mbind, M_bind. rewrite Hg. reflexivity. Qed.

Lemma run_loop_step (n : nat) (e : Event) (w w1 w2 : World) :
  get_event w = Some (w1, Return (Some e)) ->
  dispatch e w1 = Some (w2, Return tt) ->
  BacktestEventEngine_run (S n) w = BacktestEventEngine_run n w2.
Proof.
  intros Hg Hd. simpl. unfold mbind, M_bind. rewrite Hg, Hd. reflexivity.
Qed.

(** More fuel does not change a finished loop. *)
Lemma run_loop_fuel_mono (n : nat) :
  forall (w : World) r, BacktestEventEngine_run n w = Some r ->
  forall m, (n <= m)%nat -> BacktestEventEngine_run m w = Some r.
Proof.
  induction n as [|n IH]; intros w r Hr m Hm; [discriminate Hr |].
  destruct m as [|m]; [lia |].
  simpl in *. unfold mbind, M_bind in *.
  destruct (get_event w) as [[w1 [[e|]|x]]|]; try exact Hr.
  destruct (dispatch e w1) as [[w2 [[]|x]]|]; try exact Hr.
  apply IH; [exact Hr | lia].
Qed.

(** The loop on a wired engine finishes: by induction on the events still
    to come, ordered by kind. *)
Lemma event_loop_finishes :
  forall (a b c : nat) (w : World),
    pending_market (self w) = a -> pending_orders (self w) = b ->
    pending_fills (self w) = c -> wired (self w) ->
    exists fuel w',
      BacktestEventEngine_run fuel w = Some (w', Return tt) /\
      advanced w w' /\
      feed_stream (_data_feed (self w')) = [] /\
      _queue (_events_engine (self w')) = [].
Proof.
  induction a as [a IHa] using lt_wf_ind.
  induction b as [b IHb] using lt_wf_ind.
  induction c as [c IHc] using lt_wf_ind.
  intros [s cs] Ha Hb Hc Hw. simpl in *.
  destruct (_queue (_events_engine s)) as [|e q] eqn:Hq.
  - destruct (feed_stream (_data_feed s)) as [|e l] eqn:Hf.
    + exists 1%nat, {| self := s; calls := cs |}.
      split; [apply run_loop_stop; run_M; rewrite Hq; simpl; rewrite Hf; reflexivity |].
      split; [by apply advanced_refl |]. simpl. by rewrite Hq, Hf.
    + set (s1 := set_data_feed (set_feed_stream l (_data_feed s)) s).
      set (w1 := {| self := s1; calls := cs ++ [(s, Call_stream_next)] |}).
      assert (Hw1: wired s1) by (apply (wired_preserved s); done).
      destruct (dispatch_advances e w1 Hw1)
        as (w2 & added & Hd & Hadv & Hfeed & Hqueue & Hm & _ & _).
      destruct (IHa (pending_market (self w2))) with
        (b := pending_orders (self w2)) (c := pending_fills (self w2)) (w := w2)
        as (fuel & w' & Hrun & Hadv' & Hdone); try reflexivity.
      * unfold pending_market. rewrite Hfeed, Hqueue. subst a.
        unfold pending_market. rewrite Hf, Hq. simpl. rewrite Hq. simpl.
        rewrite Hm. unfold count. simpl. lia.
      * destruct Hadv as (_ & _ & _ & _ & _ & _ & _ & Hw2). exact Hw2.
      * exists (S fuel), w'. split; [| split; [| exact Hdone]].
        -- rewrite <- Hrun. apply (run_loop_step _ e _ w1); [| exact Hd].
           run_M. rewrite Hq. simpl. rewrite Hf. reflexivity.
        -- apply (advanced_trans _ w1); [| by apply (advanced_trans _ w2)].
           by apply advanced_stream_next.
  - set (s1 := set_events_engine (set_queue q (_events_engine s)) s).
    set (w1 := {| self := s1; calls := cs |}).
    assert (Hw1: wired s1) by (apply (wired_preserved s); done).
    destruct (dispatch_advances e w1 Hw1)
      as (w2 & added & Hd & Hadv & Hfeed & Hqueue & Hm & Ho & Hfl).
    assert (Hw2: wired (self w2))
      by (destruct Hadv as (_ & _ & _ & _ & _ & _ & _ & Hw2); exact Hw2).
    assert (Hstep: forall fuel, BacktestEventEngine_run (S fuel) {| self := s; calls := cs |}
                                = BacktestEventEngine_run fuel w2).
    { intros fuel. apply (run_loop_step _ e _ w1); [| exact Hd].
      run_M. rewrite Hq. reflexivity. }
    assert (Hadv1: advanced {| self := s; calls := cs |} w1).
    { exists []. simpl. rewrite app_nil_r.
      split_and!; try done; unfold methods; simpl; apply not_elem_of_nil. }
    assert (Hm2: pending_market (self w2) =
                 (length (feed_stream (_data_feed s)) + count is_market q)%nat).
    { unfold pending_market. rewrite Hfeed, Hqueue, count_app, Hm. simpl. lia. }
    assert (Ha': a = (length (feed_stream (_data_feed s)) +
                      count is_market (e :: q))%nat).
    { subst a. unfold pending_market. rewrite Hq. reflexivity. }
    assert (Hb': b = count is_order (e :: q))
      by (subst b; unfold pending_orders; rewrite Hq; reflexivity).
    assert (Hc': c = count is_fill (e :: q))
      by (subst c; unfold pending_fills; rewrite Hq; reflexivity).
    assert (Ho2: pending_orders (self w2) = (count is_order q + count is_order added)%nat).
    { unfold pending_orders. rewrite Hqueue, count_app. reflexivity. }
    assert (Hf2: pending_fills (self w2) = (count is_fill q + count is_fill added)%nat).
    { unfold pending_fills. rewrite Hqueue, count_app. reflexivity. }
    assert (Hfin: exists fuel w',
               BacktestEventEngine_run fuel w2 = Some (w', Return tt) /\
               advanced w2 w' /\
               feed_stream (_data_feed (self w')) = [] /\
               _queue (_events_engine (self w')) = []).
    { destruct (is_market e) eqn:Hme.
      - (* a queued market event: one fewer of the first kind *)
        apply (IHa (pending_market (self w2))) with
          (b := pending_orders (self w2)) (c := pending_fills (self w2));
          try done.
        rewrite Hm2, Ha'. unfold count. simpl. rewrite Hme. simpl. lia.
      - destruct (is_order e) eqn:Hoe.
        + (* an order: as many market events, one order fewer *)
          assert (Hsame: pending_market (self w2) = a).
          { rewrite Hm2, Ha'. unfold count. simpl. rewrite Hme. reflexivity. }
          apply (IHb (pending_orders (self w2))) with
            (c := pending_fills (self w2)); try done.
          rewrite Ho2, Hb', (Ho eq_refl). unfold count. simpl. rewrite Hoe. simpl. lia.
        + (* a fill: nothing is added *)
          assert (Hfe: is_fill e = true) by (destruct e; done).
          specialize (Hfl Hfe). subst added.
          assert (Hsame: pending_market (self w2) = a).
          { rewrite Hm2, Ha'. unfold count. simpl. rewrite Hme. reflexivity. }
          assert (Hsame': pending_orders (self w2) = b).
          { rewrite Ho2, Hb'. unfold count. simpl. rewrite Hoe. simpl. lia. }
          apply (IHc (pending_fills (self w2))); try done.
          rewrite Hf2, Hc'. unfold count. simpl. rewrite Hfe. simpl. lia. }
    destruct Hfin as (fuel & w' & Hrun & Hadv' & Hdone).
    exists (S fuel), w'. split; [by rewrite Hstep |].
    split; [| exact Hdone].
    apply (advanced_trans _ w1); [exact Hadv1 |]. by apply (advanced_trans _ w2).
Qed.

(** ** [run] *)

Lemma times_called_app (m : Method) (a b : list (Backtest * Call)) :
  times_called m (a ++ b) = (times_called m a + times_called m b)%nat.
Proof. unfold times_called. by rewrite methods_app, filter_app, length_app. Qed.

Lemma times_called_absent (m : Method) (l : list (Backtest * Call)) :
  m ∉ methods l -> times_called m l = 0%nat.
Proof.
  unfold times_called. induction (methods l) as [|x ms IH]; [done |].
  intros [Hx Hms]%not_elem_of_cons.
  rewrite filter_cons_False by congruence. auto.
Qed.

(** [run] once the loop has returned: the three closing calls. *)
Lemma run_after_loop (fuel : nat) (w w1 : World) :
  BacktestEventEngine_run fuel w = Some (w1, Return tt) ->
  exists w' s2 s3,
    run fuel w = Some (w', Return tt) /\
    calls w' = calls w1 ++
      [(self w1, Call_update_final_performance (_current_time (self w1))
                   (_portfolio_manager (self w1)) (_data_board (self w1)));
       (s2, Call_save_results (_output_dir (self w1)));
       (s3, Call_create_tearsheet)] /\
    _performance_manager (self w') =
      create_tearsheet
        (save_results (_output_dir (self w1))
           (update_final_performance (_current_time (self w1))
              (_portfolio_manager (self w1)) (_data_board (self w1))
              (_performance_manager (self w1)))).
Proof.
  intros Hloop. destruct w1 as [s1 cs1]. eexists _, _, _.
  split; [unfold run, mbind, M_bind; rewrite Hloop; run_M; reflexivity |].
  simpl. split; [rewrite <- !app_assoc; reflexivity | reflexivity].
Qed.

(** C6: on an engine wired as the constructor wires it, [run] returns: the
    event loop first runs until the feed and the queue are empty, making no
    final snapshot on the way; then [update_final_performance] is called,
    once in the whole run, with the engine's clock, which is the time of the
    last market event handled, and with the portfolio and the board as the
    loop left them; [save_results] and [create_tearsheet] follow. *)
Theorem run_drains_feed_then_final_snapshot (w : World) :
  wired (self w) ->
  exists w1 w' during s2 s3,
    (exists fuel, BacktestEventEngine_run fuel w = Some (w1, Return tt) /\
                  run fuel w = Some (w', Return tt)) /\
    (forall fuel r, run fuel w = Some r -> r = (w', Return tt)) /\
    feed_stream (_data_feed (self w1)) = [] /\
    _queue (_events_engine (self w1)) = [] /\
    calls w1 = calls w ++ during /\
    (m_update_final_performance ∉ methods during) /\
    calls w' = calls w1 ++
      [(self w1, Call_update_final_performance (_current_time (self w1))
                   (_portfolio_manager (self w1)) (_data_board (self w1)));
       (s2, Call_save_results (_output_dir (self w)));
       (s3, Call_create_tearsheet)] /\
    times_called m_update_final_performance (drop (length (calls w)) (calls w')) = 1%nat /\
    _current_time (self w1) =
      default (_current_time (self w)) (last_market_time (handled during)) /\
    _performance_manager (self w') =
      create_tearsheet
        (save_results (_output_dir (self w))
           (update_final_performance (_current_time (self w1))
              (_portfolio_manager (self w1)) (_data_board (self w1))
              (_performance_manager (self w1)))).
Proof.
  intros Hw.
  destruct (event_loop_finishes _ _ _ w eq_refl eq_refl eq_refl Hw)
    as (fuel & w1 & Hloop & Hadv & Hfeed & Hqueue).
  destruct Hadv as (during & Hcalls & Hfinal & _ & _ & Hclock & Hout & _).
  destruct (run_after_loop fuel w w1 Hloop) as (w' & s2 & s3 & Hrun & Hcalls' & Hperf).
  rewrite Hout in Hcalls', Hperf.
  exists w1, w', during, s2, s3. split_and!; try done.
  - by exists fuel.
  - intros fuel' r Hr.
    assert (Hloop': BacktestEventEngine_run (fuel `max` fuel') w = Some (w1, Return tt))
      by (apply (run_loop_fuel_mono fuel); [done | lia]).
    unfold run, mbind, M_bind in Hr, Hrun.
    destruct (BacktestEventEngine_run fuel' w) as [r0|] eqn:Hloop0; [| done].
    assert (Hr0: r0 = (w1, Return tt)).
    { apply (run_loop_fuel_mono fuel' w r0) with (m := (fuel `max` fuel')%nat) in Hloop0;
        [congruence | lia]. }
    subst r0. rewrite Hloop in Hrun. congruence.
  - rewrite Hcalls', Hcalls, <- app_assoc, drop_app_length, times_called_app.
    rewrite (times_called_absent _ during Hfinal). reflexivity.
Qed.

(** ** The constructor *)

Context (market_data :
  DataFeedClass -> option PyVal -> PyVal -> PyVal -> list string -> list Event).
Context (strategy_list : gmap string StrategyClass).

#[local] Abbreviation init := (__init__ market_data strategy_list).

(** The store after the copy and the append: the caller's list is as it
    was, the copy has the benchmark at its end. *)
Lemma copy_leaves_tickers (heap : Heap) (r : loc) (l : list PyVal) (b : PyVal) :
  heap !! r = Some l ->
  let r' := fresh (dom heap) in
  let heap' := <[r' := l]> heap in
  (alter (fun l => l ++ [b]) r' heap') !!! r = l /\
  (alter (fun l => l ++ [b]) r' heap') !!! r' = l ++ [b] /\
  heap' !!! r = l /\ heap' !!! r' = l /\
  (forall q x, heap !! q = Some x ->
     heap' !! q = Some x /\ alter (fun l => l ++ [b]) r' heap' !! q = Some x).
Proof.
  intros Hr r' heap'.
  assert (Hfresh: forall q x, heap !! q = Some x -> r' <> q).
  { intros q x Hq Heq. subst q. unfold r' in Hq.
    pose proof (is_fresh (dom heap)) as Hn.
    apply not_elem_of_dom in Hn. rewrite Hn in Hq. discriminate Hq. }
  assert (Hkeep: forall q x, heap !! q = Some x ->
            heap' !! q = Some x /\ alter (fun l => l ++ [b]) r' heap' !! q = Some x).
  { intros q x Hq. pose proof (Hfresh q x Hq) as Hne. unfold heap'.
    rewrite lookup_alter_ne, lookup_insert_ne; done. }
  split_and!; try done.
  - apply lookup_total_correct, (Hkeep r l Hr).
  - apply lookup_total_correct. unfold heap'.
    by rewrite lookup_alter_eq, lookup_insert_eq.
  - apply lookup_total_correct, (Hkeep r l Hr).
  - apply lookup_total_correct. unfold heap'. by rewrite lookup_insert_eq.
Qed.

(** An engine that the constructor returned is wired. *)
Lemma init_wired (config : Config) (heap : Heap) (s : Backtest) :
  outcome (init config heap) = Return s -> wired s.
Proof.
  unfold __init__.
  destruct (heap !! tickers config) as [l|]; [| discriminate].
  destruct (strategy_list !! strategy config) as [c|]; simpl;
    intros [= <-]; intros k h; simpl.
  - unfold register_handler; simpl. intros Hk.
    destruct k; simplify_map_eq; split; eauto.
  - rewrite lookup_empty. discriminate.
Qed.

Lemma init_clock (config : Config) (heap : Heap) (s : Backtest) :
  outcome (init config heap) = Return s ->
  _current_time s = Timestamp_of_date 1900 1 1.
Proof.
  unfold __init__.
  destruct (heap !! tickers config) as [l|]; [| discriminate].
  destruct (strategy_list !! strategy config) as [c|]; simpl;
    by intros [= <-].
Qed.

(** C4, as the code has it: when the configured strategy name is not in
    [strategy_list], the constructor prints its message and returns; no
    exception reaches the caller.  The engine it leaves has no strategy, no
    handler registered and an empty queue, and the subscribed stream is
    still unread: no event has been processed. *)
Theorem unknown_strategy_is_printed_not_raised
    (config : Config) (heap : Heap) (l : list PyVal) :
  heap !! tickers config = Some l ->
  strategy_list !! strategy config = None ->
  exists s,
    outcome (init config heap) = Return s /\
    stdout (init config heap) = ["can not find strategy：" +:+ strategy config] /\
    _strategy s = None /\
    _handlers (_events_engine s) = ∅ /\
    _queue (_events_engine s) = [] /\
    feed_stream (_data_feed s) =
      market_data (feed_class (_data_feed s)) (feed_hist_dir (_data_feed s))
        (feed_start_date (_data_feed s)) (feed_end_date (_data_feed s))
        (feed_symbols (_data_feed s)).
Proof.
  intros Hl Hs. unfold __init__. rewrite Hl, Hs. simpl.
  eexists. split; [reflexivity |]. simpl. split_and!; reflexivity.
Qed.

(** C8: a datasource that is, case aside, neither LOCAL nor TUSHARE makes
    the constructor build the Quandl feed, from the configured date range;
    the constructor returns as for any other datasource. *)
Theorem other_datasource_selects_quandl
    (config : Config) (heap : Heap) (l : list PyVal) :
  heap !! tickers config = Some l ->
  eq_nocase (py_str (datasource config)) "LOCAL" = false ->
  eq_nocase (py_str (datasource config)) "TUSHARE" = false ->
  exists s,
    outcome (init config heap) = Return s /\
    feed_class (_data_feed s) = BacktestDataFeedQuandl /\
    feed_hist_dir (_data_feed s) = None /\
    feed_start_date (_data_feed s) = start_date config /\
    feed_end_date (_data_feed s) = end_date config.
Proof.
  intros Hl Hlocal Htushare. unfold __init__. rewrite Hl.
  assert (H1: upper (py_str (datasource config)) <> "LOCAL").
  { intros Hu%upper_LOCAL. by rewrite Hu in Hlocal. }
  assert (H2: upper (py_str (datasource config)) <> "TUSHARE").
  { intros Hu%upper_TUSHARE. by rewrite Hu in Htushare. }
  destruct (strategy_list !! strategy config) as [c|]; simpl.
  all: eexists; split; [reflexivity |]; simpl.
  all: rewrite (decide_False (P := upper _ = "LOCAL")) by exact H1.
  all: rewrite (decide_False (P := upper _ = "TUSHARE")) by exact H2.
  all: split_and!; reflexivity.
Qed.

(** C9: with a benchmark configured, the symbols subscribed to the feed and
    those given to the performance manager are the tickers followed by the
    benchmark; the engine's own symbols are the tickers alone; the caller's
    list of tickers, and every other list of the store, is as it was. *)
Theorem benchmark_is_subscribed_but_not_traded
    (config : Config) (heap : Heap) (l : list PyVal) :
  heap !! tickers config = Some l ->
  benchmark config <> PyNone ->
  exists s,
    outcome (init config heap) = Return s /\
    feed_symbols (_data_feed s) = (py_str <$> l) ++ [py_str (benchmark config)] /\
    _performance_manager s =
      PerformanceManager_new ((py_str <$> l) ++ [py_str (benchmark config)]) /\
    _symbols s = py_str <$> l /\
    heap_after (init config heap) !! tickers config = Some l /\
    (forall r x, heap !! r = Some x -> heap_after (init config heap) !! r = Some x).
Proof.
  intros Hl Hb. unfold __init__. rewrite Hl.
  rewrite (decide_False (P := benchmark config = PyNone)) by exact Hb.
  destruct (copy_leaves_tickers heap (tickers config) l (benchmark config) Hl)
    as (Hsame & Hcopy & _ & _ & Hkeep).
  cbv zeta in Hsame, Hcopy, Hkeep. rewrite Hsame, Hcopy.
  destruct (strategy_list !! strategy config) as [c|]; simpl.
  all: eexists; split; [reflexivity |]; simpl.
  all: rewrite fmap_app; split_and!; try reflexivity.
  all: try (apply (Hkeep _ _ Hl)).
  all: intros r x Hr; apply (Hkeep _ _ Hr).
Qed.

(** C10: a constructed engine's clock is 1900-01-01; a Tick or Bar handler
    first sets it to the event's time (a bar's end time), so that each of
    the handler's calls is made with the clock at that time; and the final
    snapshot of a run is taken with the time of the last market event the
    run handled, which is 1900-01-01 when it handled none. *)
Theorem clock_is_time_of_last_market_event
    (config : Config) (heap : Heap) (s : Backtest) :
  outcome (init config heap) = Return s ->
  (_current_time s = Timestamp_of_date 1900 1 1 /\
   Timestamp_of_date 1900 1 1 = -2208988800 * 1000000000) /\
  (forall (e : TickEvent) (w : World), exists w' out made,
      _tick_event_handler e w = Some (w', out) /\
      calls w' = calls w ++ made /\ (3 <= length made)%nat /\
      Forall (fun c => _current_time c.1 = timestamp e) made /\
      _current_time (self w') = timestamp e) /\
  (forall (e : BarEvent) (w : World), exists w' out made,
      _bar_event_handler e w = Some (w', out) /\
      calls w' = calls w ++ made /\ (3 <= length made)%nat /\
      Forall (fun c => _current_time c.1 = bar_end_time e) made /\
      _current_time (self w') = bar_end_time e) /\
  (exists fuel w' during s1 s2 s3,
      run fuel (world_of s) = Some (w', Return tt) /\
      calls w' = during ++
        [(s1, Call_update_final_performance
                (default (Timestamp_of_date 1900 1 1) (last_market_time (handled during)))
                (_portfolio_manager s1) (_data_board s1));
         (s2, Call_save_results (_output_dir s));
         (s3, Call_create_tearsheet)] /\
      (m_update_final_performance ∉ methods during)).
Proof.
  intros Hinit. split; [split; [by apply (init_clock config heap) | reflexivity] |].
  split; [| split].
  - intros e [s0 cs]; destruct (_strategy s0) as [st|] eqn:Hst.
    all: eexists _, _, _; split; [run_M; rewrite Hst; reflexivity |].
    all: simpl; split; [rewrite <- !app_assoc; simpl; reflexivity |].
    all: split; [simpl; lia |]; split; [| reflexivity].
    all: repeat (apply Forall_cons; split; [reflexivity |]); apply Forall_nil_2.
  - intros e [s0 cs]; destruct (_strategy s0) as [st|] eqn:Hst.
    all: eexists _, _, _; split; [run_M; rewrite Hst; reflexivity |].
    all: simpl; split; [rewrite <- !app_assoc; simpl; reflexivity |].
    all: split; [simpl; lia |]; split; [| reflexivity].
    all: repeat (apply Forall_cons; split; [reflexivity |]); apply Forall_nil_2.
  - pose proof (init_wired config heap s Hinit) as Hw.
    destruct (event_loop_finishes _ _ _ (world_of s) eq_refl eq_refl eq_refl Hw)
      as (fuel & w1 & Hloop & Hadv & _).
    destruct Hadv as (during & Hc1 & Hno & _ & _ & Hclk & Hout & _).
    destruct (run_after_loop fuel _ w1 Hloop) as (w' & s2 & s3 & Hrun & Hc' & _).
    simpl in Hc1, Hclk, Hout. rewrite (init_clock config heap s Hinit) in Hclk.
    exists fuel, w', during, (self w1), s2, s3.
    split; [exact Hrun |]. split; [| exact Hno].
    rewrite Hc', Hc1, Hclk, Hout. reflexivity.
Qed.

(** ** Further properties of the handlers *)

(** X1: a fill changes the portfolio and the performance manager and
    nothing else: the clock, the board, the brokerage, the strategy, the
    feed and the event engine, queue included, are as before, so handling a
    fill emits no event. *)
Theorem fill_handler_changes_only_ledgers (f : FillEvent) (w : World) :
  exists w',
    _fill_event_handler f w = Some (w', Return tt) /\
    _current_time (self w') = _current_time (self w) /\
    _data_board (self w') = _data_board (self w) /\
    _backtest_brokerage (self w') = _backtest_brokerage (self w) /\
    _strategy (self w') = _strategy (self w) /\
    _data_feed (self w') = _data_feed (self w) /\
    _events_engine (self w') = _events_engine (self w) /\
    _risk_manager (self w') = _risk_manager (self w).
Proof.
  destruct w as [s cs]. eexists. split; [run_M; reflexivity |].
  simpl. split_and!; reflexivity.
Qed.

(** X2: placing an order changes neither the portfolio nor the performance
    manager, nor the clock, the board or the strategy; all it adds to the
    queue are fills, behind what was queued, and the handler table stays. *)
Theorem order_handler_only_enqueues_fills (o : OrderEvent) (w : World) :
  exists w' added,
    _order_event_handler o w = Some (w', Return tt) /\
    _portfolio_manager (self w') = _portfolio_manager (self w) /\
    _performance_manager (self w') = _performance_manager (self w) /\
    _current_time (self w') = _current_time (self w) /\
    _data_board (self w') = _data_board (self w) /\
    _strategy (self w') = _strategy (self w) /\
    _data_feed (self w') = _data_feed (self w) /\
    _handlers (_events_engine (self w')) = _handlers (_events_engine (self w)) /\
    _queue (_events_engine (self w')) = _queue (_events_engine (self w)) ++ added /\
    Forall (fun e => is_fill e = true) added.
Proof.
  destruct w as [s cs]. eexists _, _. split; [run_M; reflexivity |].
  simpl. split_and!; try reflexivity.
  apply Forall_fmap, Forall_forall. by intros f _.
Qed.

(** X3: a market event applies no fill and places no order: on an engine
    with its strategy, the tick and the bar handler leave the brokerage,
    the feed, the risk manager and the handler table as they were, never
    call [place_order] or an [on_fill], and add to the queue just the
    orders the strategy answered with, behind what was queued. *)
Theorem market_handler_only_enqueues_orders (w : World) (st : Strategy) :
  _strategy (self w) = Some st ->
  (forall e : TickEvent, exists w',
      _tick_event_handler e w = Some (w', Return tt) /\
      _backtest_brokerage (self w') = _backtest_brokerage (self w) /\
      _data_feed (self w') = _data_feed (self w) /\
      _risk_manager (self w') = _risk_manager (self w) /\
      _handlers (_events_engine (self w')) = _handlers (_events_engine (self w)) /\
      methods (drop (length (calls w)) (calls w')) =
        [m_update_performance; m_mark_to_market; m_board_on_tick; m_strategy_on_tick] /\
      _queue (_events_engine (self w')) =
        _queue (_events_engine (self w)) ++
        (OrderE <$> (on_tick (strategy_class st) e (strategy_state st)).2) /\
      _strategy (self w') =
        Some {| strategy_class := strategy_class st;
                strategy_state := (on_tick (strategy_class st) e (strategy_state st)).1 |}) /\
  (forall e : BarEvent, exists w',
      _bar_event_handler e w = Some (w', Return tt) /\
      _backtest_brokerage (self w') = _backtest_brokerage (self w) /\
      _data_feed (self w') = _data_feed (self w) /\
      _risk_manager (self w') = _risk_manager (self w) /\
      _handlers (_events_engine (self w')) = _handlers (_events_engine (self w)) /\
      methods (drop (length (calls w)) (calls w')) =
        [m_update_performance; m_mark_to_market; m_board_on_bar; m_strategy_on_bar] /\
      _queue (_events_engine (self w')) =
        _queue (_events_engine (self w)) ++
        (OrderE <$> (on_bar (strategy_class st) e (strategy_state st)).2) /\
      _strategy (self w') =
        Some {| strategy_class := strategy_class st;
                strategy_state := (on_bar (strategy_class st) e (strategy_state st)).1 |}).
Proof.
  destruct w as [s cs]; simpl. intros Hst.
  split; intros e.
  all: eexists; split; [run_M; rewrite Hst; reflexivity |].
  all: simpl; rewrite <- !app_assoc, drop_app_length.
  all: split_and!; reflexivity.
Qed.

(** X4: on an engine whose constructor returned before setting the
    strategy, a market-event handler raises [AttributeError] at its last
    statement; the clock, the snapshot, the mark and the board update made
    before it stay made, no strategy callback is called and nothing is
    enqueued. *)
Theorem market_handler_without_strategy_raises (w : World) :
  _strategy (self w) = None ->
  (forall e : TickEvent, exists w',
      _tick_event_handler e w = Some (w', Raise (AttributeError "_strategy")) /\
      methods (drop (length (calls w)) (calls w')) =
        [m_update_performance; m_mark_to_market; m_board_on_tick] /\
      _current_time (self w') = timestamp e /\
      _performance_manager (self w') =
        update_performance (timestamp e) (_portfolio_manager (self w))
          (_data_board (self w)) (_performance_manager (self w)) /\
      _portfolio_manager (self w') =
        mark_to_market (timestamp e) (tick_full_symbol e) (price e)
          (_portfolio_manager (self w)) /\
      _data_board (self w') = board_on_tick e (_data_board (self w)) /\
      _events_engine (self w') = _events_engine (self w)) /\
  (forall e : BarEvent, exists w',
      _bar_event_handler e w = Some (w', Raise (AttributeError "_strategy")) /\
      methods (drop (length (calls w)) (calls w')) =
        [m_update_performance; m_mark_to_market; m_board_on_bar] /\
      _current_time (self w') = bar_end_time e /\
      _performance_manager (self w') =
        update_performance (bar_end_time e) (_portfolio_manager (self w))
          (_data_board (self w)) (_performance_manager (self w)) /\
      _portfolio_manager (self w') =
        mark_to_market (bar_end_time e) (bar_full_symbol e) (adj_close_price e)
          (_portfolio_manager (self w)) /\
      _data_board (self w') = board_on_bar e (_data_board (self w)) /\
      _events_engine (self w') = _events_engine (self w)).
Proof.
  destruct w as [s cs]; simpl. intros Hst.
  split; intros e.
  all: eexists; split; [run_M; rewrite Hst; reflexivity |].
  all: simpl; rewrite <- !app_assoc, drop_app_length.
  all: split_and!; reflexivity.
Qed.

(** What one tick does to the ledgers, the board and the log. *)
Lemma tick_handler_effect (e : TickEvent) (w : World) :
  is_Some (_strategy (self w)) ->
  exists w' s rest,
    _tick_event_handler e w = Some (w', Return tt) /\
    calls w' = calls w ++
      (s, Call_update_performance (timestamp e) (_portfolio_manager (self w))
            (_data_board (self w))) :: rest /\
    _performance_manager (self w') =
      update_performance (timestamp e) (_portfolio_manager (self w))
        (_data_board (self w)) (_performance_manager (self w)) /\
    _portfolio_manager (self w') =
      mark_to_market (timestamp e) (tick_full_symbol e) (price e)
        (_portfolio_manager (self w)) /\
    _data_board (self w') = board_on_tick e (_data_board (self w)) /\
    is_Some (_strategy (self w')).
Proof.
  destruct w as [s cs]; simpl. intros [st Hst].
  eexists _, _, _. split; [run_M; rewrite Hst; reflexivity |].
  simpl. split; [rewrite <- !app_assoc; simpl; reflexivity |].
  split_and!; try reflexivity. by eexists.
Qed.

(** X5: valuation lags by exactly one event.  When two ticks are handled
    one after the other, the snapshot of the second is taken on the
    portfolio as the first tick's mark left it and on the board holding the
    first tick, and it is appended to the snapshot of the first. *)
Theorem second_snapshot_sees_first_mark (w : World) (e1 e2 : TickEvent) :
  is_Some (_strategy (self w)) ->
  let pm := _portfolio_manager (self w) in
  let db := _data_board (self w) in
  let pm1 := mark_to_market (timestamp e1) (tick_full_symbol e1) (price e1) pm in
  let db1 := board_on_tick e1 db in
  exists w1 w2 s rest,
    _tick_event_handler e1 w = Some (w1, Return tt) /\
    _tick_event_handler e2 w1 = Some (w2, Return tt) /\
    calls w2 = calls w1 ++ (s, Call_update_performance (timestamp e2) pm1 db1) :: rest /\
    _performance_manager (self w2) =
      update_performance (timestamp e2) pm1 db1
        (update_performance (timestamp e1) pm db (_performance_manager (self w))) /\
    _portfolio_manager (self w2) =
      mark_to_market (timestamp e2) (tick_full_symbol e2) (price e2) pm1 /\
    _data_board (self w2) = board_on_tick e2 db1.
Proof.
  intros Hst pm db pm1 db1.
  destruct (tick_handler_effect e1 w Hst)
    as (w1 & s1 & rest1 & Hrun1 & _ & Hperf1 & Hpm1 & Hdb1 & Hst1).
  destruct (tick_handler_effect e2 w1 Hst1)
    as (w2 & s2 & rest2 & Hrun2 & Hcalls2 & Hperf2 & Hpm2 & Hdb2 & _).
  rewrite Hpm1, Hdb1 in Hcalls2, Hperf2. rewrite Hperf1 in Hperf2.
  rewrite Hpm1 in Hpm2. rewrite Hdb1 in Hdb2.
  exists w1, w2, s2, rest2. split_and!; assumption.
Qed.

(** ** Further properties of the constructor *)

(** X6: the datasource alone decides the feed, compared without case:
    LOCAL gives the local feed, TUSHARE the Tushare feed, anything else the
    Quandl feed; the history directory goes to the local feed only, the
    date range to every feed; and whichever feed it is, it is subscribed
    to the same symbols. *)
Theorem datasource_decides_feed (config : Config) (heap : Heap) (l : list PyVal) :
  heap !! tickers config = Some l ->
  exists s,
    outcome (init config heap) = Return s /\
    feed_class (_data_feed s) = feed_class_for (py_str (datasource config)) /\
    feed_hist_dir (_data_feed s) =
      (if decide (feed_class (_data_feed s) = BacktestDataFeedLocal)
       then Some (hist_dir config) else None) /\
    feed_start_date (_data_feed s) = start_date config /\
    feed_end_date (_data_feed s) = end_date config /\
    feed_symbols (_data_feed s) =
      (py_str <$> l) ++
      (if decide (benchmark config = PyNone) then [] else [py_str (benchmark config)]).
Proof.
  intros Hl. unfold __init__, feed_class_for. rewrite Hl.
  set (ds := py_str (datasource config)).
  pose proof (upper_LOCAL ds) as Hlocal.
  pose proof (upper_TUSHARE ds) as Htushare.
  destruct (copy_leaves_tickers heap (tickers config) l (benchmark config) Hl)
    as (_ & Hcopy & _ & Hplain & _).
  cbv zeta in Hcopy, Hplain.
  assert (Hsyms:
    py_str <$> ((if decide (benchmark config = PyNone)
                 then <[fresh (dom heap) := l]> heap
                 else alter (fun l0 => l0 ++ [benchmark config]) (fresh (dom heap))
                        (<[fresh (dom heap) := l]> heap)) !!! fresh (dom heap)) =
    (py_str <$> l) ++
    (if decide (benchmark config = PyNone) then [] else [py_str (benchmark config)])).
  { destruct (decide (benchmark config = PyNone)).
    - by rewrite Hplain, app_nil_r.
    - by rewrite Hcopy, fmap_app. }
  destruct (strategy_list !! strategy config) as [c|]; simpl.
  all: eexists; split; [reflexivity |]; simpl.
  all: rewrite Hsyms.
  all: destruct (decide (upper ds = "LOCAL")) as [Hu | Hu].
  all: try (rewrite (proj1 Hlocal Hu); simpl; split_and!; reflexivity).
  all: destruct (eq_nocase ds "LOCAL") eqn:El;
         [exfalso; apply Hu, Hlocal; reflexivity |].
  all: destruct (decide (upper ds = "TUSHARE")) as [Hv | Hv].
  all: try (rewrite (proj1 Htushare Hv); simpl; split_and!; reflexivity).
  all: destruct (eq_nocase ds "TUSHARE") eqn:Et;
         [exfalso; apply Hv, Htushare; reflexivity |].
  all: simpl; split_and!; reflexivity.
Qed.

(** X7: without a benchmark the copy of the tickers is left as it is: the
    feed and the performance manager get exactly the tickers the engine
    keeps, and the caller's list is as it was. *)
Theorem no_benchmark_subscribes_tickers_only
    (config : Config) (heap : Heap) (l : list PyVal) :
  heap !! tickers config = Some l ->
  benchmark config = PyNone ->
  exists s,
    outcome (init config heap) = Return s /\
    feed_symbols (_data_feed s) = _symbols s /\
    _performance_manager s = PerformanceManager_new (_symbols s) /\
    _symbols s = py_str <$> l /\
    _benchmark s = PyNone /\
    heap_after (init config heap) !! tickers config = Some l.
Proof.
  intros Hl Hb. unfold __init__. rewrite Hl.
  rewrite (decide_True (P := benchmark config = PyNone)) by exact Hb.
  destruct (copy_leaves_tickers heap (tickers config) l (benchmark config) Hl)
    as (_ & _ & Hsame & Hcopy & Hkeep).
  cbv zeta in Hsame, Hcopy, Hkeep. rewrite Hsame, Hcopy.
  destruct (strategy_list !! strategy config) as [c|]; simpl.
  all: eexists; split; [reflexivity |]; simpl.
  all: split_and!; try done; apply (Hkeep _ _ Hl).
Qed.

(** X8: when the configured strategy is registered, the constructor prints
    nothing, builds the strategy and calls [on_init] before [on_start];
    the orders these two put on the queue wait there in that order; each
    of the four event kinds gets its own handler; the portfolio starts from
    the configured cash and the board is new. *)
Theorem registered_strategy_is_started_and_wired
    (config : Config) (heap : Heap) (l : list PyVal) (c : StrategyClass) :
  heap !! tickers config = Some l ->
  strategy_list !! strategy config = Some c ->
  let inited := on_init c (strategy_new c) in
  let started := on_start c inited.1 in
  exists s,
    outcome (init config heap) = Return s /\
    stdout (init config heap) = [] /\
    _strategy s = Some {| strategy_class := c; strategy_state := started.1 |} /\
    _queue (_events_engine s) = (OrderE <$> inited.2) ++ (OrderE <$> started.2) /\
    fully_wired s /\
    _portfolio_manager s = PortfolioManager_new (cash config) /\
    _data_board s = DataBoard_new /\
    _output_dir s = output_dir config.
Proof.
  intros Hl Hs. unfold __init__. rewrite Hl, Hs. simpl.
  eexists. split; [reflexivity |]. simpl.
  split_and!; try reflexivity.
  - apply fmap_app.
  - split; [| by eexists]. simpl. unfold register_handler; simpl.
    intros []; by simplify_map_eq.
Qed.

(** ** Further properties of a run *)

Lemma in_blocks_nil : in_blocks [].
Proof. exists []. split; [reflexivity | constructor]. Qed.

Lemma in_blocks_block (b : list Method) : is_block b -> in_blocks b.
Proof.
  intros Hb. exists [b]. split; [simpl; by rewrite app_nil_r |].
  apply Forall_cons; split; [exact Hb | apply Forall_nil_2].
Qed.

Lemma in_blocks_app (a b : list Method) :
  in_blocks a -> in_blocks b -> in_blocks (a ++ b).
Proof.
  intros (xs & -> & Hxs) (ys & -> & Hys). exists (xs ++ ys).
  split; [by rewrite concat_app | by apply Forall_app].
Qed.

Lemma filter_none (p : Event -> bool) (l : list Event) :
  count p l = 0%nat -> List.filter p l = [].
Proof. unfold count. intros Hlen. by apply length_zero_iff_nil. Qed.

(** One dispatch on a wired engine, in full: the calls it adds are one
    handler's block, or none when the kind has no handler. *)
Lemma dispatch_block (e : Event) (w : World) :
  wired (self w) ->
  exists w' d added,
    dispatch e w = Some (w', Return tt) /\
    calls w' = calls w ++ d /\
    (d = [] \/ is_block (methods d)) /\
    handled d =
      match _handlers (_events_engine (self w)) !! event_type e with
      | Some _ => [e]
      | None => []
      end /\
    wired (self w') /\
    _handlers (_events_engine (self w')) = _handlers (_events_engine (self w)) /\
    (is_Some (_strategy (self w)) -> is_Some (_strategy (self w'))) /\
    _data_feed (self w') = _data_feed (self w) /\
    _queue (_events_engine (self w')) = _queue (_events_engine (self w)) ++ added /\
    List.filter is_market added = [] /\
    times_called m_stream_next d = 0%nat.
Proof.
  destruct w as [s cs]; simpl. intros Hw.
  assert (Hkeep: forall s', _handlers (_events_engine s') = _handlers (_events_engine s) ->
            (is_Some (_strategy s) -> is_Some (_strategy s')) -> wired s').
  { intros s' Hh' Hs'. by apply (wired_preserved s). }
  destruct (_handlers (_events_engine s) !! event_type e) as [h|] eqn:Hh.
  - destruct (Hw _ _ Hh) as [-> Hst].
    destruct e as [t|b|o|f]; simpl in Hst, Hh.
    + destruct Hst as [st Hst]; [by left |].
      eexists _, _, _. split; [run_M; rewrite Hh; simpl; rewrite Hst; reflexivity |].
      simpl. split; [rewrite <- !app_assoc; simpl; reflexivity |].
      split; [right; right; left; reflexivity |].
      split; [reflexivity |]. split; [apply Hkeep; [reflexivity | by eauto] |].
      split; [reflexivity |]. split; [by eauto |]. split; [reflexivity |].
      split; [reflexivity |]. split; [| reflexivity]. apply filter_none. by apply count_orders.
    + destruct Hst as [st Hst]; [by right |].
      eexists _, _, _. split; [run_M; rewrite Hh; simpl; rewrite Hst; reflexivity |].
      simpl. split; [rewrite <- !app_assoc; simpl; reflexivity |].
      split; [right; right; right; left; reflexivity |].
      split; [reflexivity |]. split; [apply Hkeep; [reflexivity | by eauto] |].
      split; [reflexivity |]. split; [by eauto |]. split; [reflexivity |].
      split; [reflexivity |]. split; [| reflexivity]. apply filter_none. by apply count_orders.
    + eexists _, _, _. split; [run_M; rewrite Hh; reflexivity |].
      simpl. split; [rewrite <- !app_assoc; simpl; reflexivity |].
      split; [right; right; right; right; left; reflexivity |].
      split; [reflexivity |]. split; [apply Hkeep; [reflexivity | done] |].
      split; [reflexivity |]. split; [done |]. split; [reflexivity |].
      split; [reflexivity |]. split; [| reflexivity]. apply filter_none. by apply count_fills.
    + eexists _, _, []. split; [run_M; rewrite Hh; reflexivity |].
      simpl. split; [rewrite <- !app_assoc; simpl; reflexivity |].
      split; [right; right; right; right; right; reflexivity |].
      split; [reflexivity |]. split; [apply Hkeep; [reflexivity | done] |].
      split; [reflexivity |]. split; [done |]. split; [reflexivity |].
      split; [by rewrite app_nil_r |]. split; reflexivity.
  - exists {| self := s; calls := cs |}, [], [].
    split; [run_M; rewrite Hh; reflexivity |].
    simpl. rewrite !app_nil_r. split; [reflexivity |]. split; [by left |].
    split; [reflexivity |]. split; [exact Hw |]. split; [reflexivity |].
    split; [done |]. split; [reflexivity |]. split; [reflexivity |]. split; reflexivity.
Qed.

(** The loop, for whatever fuel it returns with: it does not raise, its
    calls are whole blocks, it pulls each event of the feed, and the market
    events it hands to handlers are those queued and those of the feed, in
    order, as far as their kind has a handler. *)
Lemma event_loop_log (fuel : nat) :
  forall (w w' : World) (out : Outcome unit),
    wired (self w) ->
    BacktestEventEngine_run fuel w = Some (w', out) ->
    out = Return tt /\
    wired (self w') /\
    exists during,
      calls w' = calls w ++ during /\
      in_blocks (methods during) /\
      times_called m_stream_next during = length (feed_stream (_data_feed (self w))) /\
      (fully_wired (self w) ->
       List.filter is_market (handled during) =
       List.filter is_market
         (_queue (_events_engine (self w)) ++ feed_stream (_data_feed (self w)))).
Proof.
  induction fuel as [|fuel IH]; intros [s cs] w' out Hw Hrun; [discriminate Hrun |].
  simpl in Hw.
  destruct (_queue (_events_engine s)) as [|e q] eqn:Hq.
  - destruct (feed_stream (_data_feed s)) as [|e l] eqn:Hf.
    + rewrite (run_loop_stop _ _ {| self := s; calls := cs |}) in Hrun
        by (run_M; rewrite Hq; simpl; rewrite Hf; reflexivity).
      injection Hrun as <- <-. split; [reflexivity |]. split; [exact Hw |].
      exists []. simpl. rewrite app_nil_r, Hq, Hf.
      split; [reflexivity |]. split; [apply in_blocks_nil |].
      split; [reflexivity | reflexivity].
    + set (s1 := set_data_feed (set_feed_stream l (_data_feed s)) s).
      set (w1 := {| self := s1; calls := cs ++ [(s, Call_stream_next)] |}).
      assert (Hw1: wired s1) by (apply (wired_preserved s); done).
      destruct (dispatch_block e w1 Hw1)
        as (w2 & d & added & Hd & Hcd & Hblk & Hhd & Hw2 & Hh2 & Hs2 & Hfeed
            & Hqueue & Hadd & Hd0).
      rewrite (run_loop_step _ e _ w1 w2) in Hrun;
        [| run_M; rewrite Hq; simpl; rewrite Hf; reflexivity | exact Hd].
      destruct (IH w2 w' out Hw2 Hrun) as (-> & Hw' & during & Hc & Hb & Hn & Hm).
      split; [reflexivity |]. split; [exact Hw' |].
      exists ([(s, Call_stream_next)] ++ d ++ during).
      split; [rewrite Hc, Hcd; simpl; by rewrite <- !app_assoc |].
      split; [| split].
      * rewrite !methods_app. apply in_blocks_app; [apply in_blocks_block; by left |].
        apply in_blocks_app; [| exact Hb].
        destruct Hblk as [-> | Hblk]; [apply in_blocks_nil | by apply in_blocks_block].
      * rewrite !times_called_app, Hn, Hfeed, Hd0. simpl. by rewrite Hf.
      * intros [Hall Hst]. subst w1 s1. simpl in *.
        rewrite Hq in Hqueue. simpl in Hqueue.
        rewrite Hq, Hf, !handled_app, !List.filter_app, Hhd, (Hall (event_type e)).
        rewrite Hm; [| split; [intros k; rewrite Hh2; apply Hall | by apply Hs2]].
        rewrite Hqueue, Hfeed, List.filter_app, Hadd. simpl.
        destruct (is_market e); reflexivity.
  - set (s1 := set_events_engine (set_queue q (_events_engine s)) s).
    set (w1 := {| self := s1; calls := cs |}).
    assert (Hw1: wired s1) by (apply (wired_preserved s); done).
    destruct (dispatch_block e w1 Hw1)
      as (w2 & d & added & Hd & Hcd & Hblk & Hhd & Hw2 & Hh2 & Hs2 & Hfeed
          & Hqueue & Hadd & Hd0).
    rewrite (run_loop_step _ e _ w1 w2) in Hrun;
      [| run_M; rewrite Hq; reflexivity | exact Hd].
    destruct (IH w2 w' out Hw2 Hrun) as (-> & Hw' & during & Hc & Hb & Hn & Hm).
    split; [reflexivity |]. split; [exact Hw' |].
    exists (d ++ during).
    split; [rewrite Hc, Hcd; simpl; by rewrite <- !app_assoc |].
    split; [| split].
    + rewrite !methods_app. apply in_blocks_app; [| exact Hb].
      destruct Hblk as [-> | Hblk]; [apply in_blocks_nil | by apply in_blocks_block].
    + rewrite !times_called_app, Hn, Hfeed, Hd0. reflexivity.
    + intros [Hall Hst]. subst w1 s1. simpl in *.
      rewrite Hq, !handled_app, !List.filter_app, Hhd, (Hall (event_type e)).
      rewrite Hm; [| split; [intros k; rewrite Hh2; apply Hall | by apply Hs2]].
      rewrite Hqueue, Hfeed, !List.filter_app, Hadd. simpl.
      destruct (is_market e); simpl; by rewrite ?app_nil_r.
Qed.

(** X9: the calls of a run that returns, on a wired engine, are whole
    blocks: pulls from the feed and the bodies of handlers, one after the
    other and never interleaved, followed by the final snapshot, the saving
    of the results and the tear sheet, in this order and once each. *)
Theorem run_calls_are_whole_blocks (fuel : nat) (w w' : World) :
  wired (self w) ->
  run fuel w = Some (w', Return tt) ->
  exists body s1 s2 s3,
    calls w' = calls w ++ body ++
      [(s1, Call_update_final_performance (_current_time s1)
              (_portfolio_manager s1) (_data_board s1));
       (s2, Call_save_results (_output_dir s1));
       (s3, Call_create_tearsheet)] /\
    in_blocks (methods body).
Proof.
  intros Hw Hrun.
  destruct (BacktestEventEngine_run fuel w) as [[w1 out1]|] eqn:Hloop;
    [| unfold run, mbind, M_bind in Hrun; by rewrite Hloop in Hrun].
  destruct (event_loop_log fuel w w1 out1 Hw Hloop)
    as (-> & _ & body & Hc1 & Hblocks & _).
  destruct (run_after_loop fuel w w1 Hloop) as (w2 & s2 & s3 & Hrun2 & Hc2 & _).
  rewrite Hrun2 in Hrun. injection Hrun as <-.
  exists body, (self w1), s2, s3. split; [| exact Hblocks].
  by rewrite Hc2, Hc1, <- app_assoc.
Qed.

(** X10: no event is dropped.  In a run on a fully wired engine every
    event of the feed is pulled, once, and the Tick and Bar events handed
    to the handlers are exactly those waiting on the queue followed by those
    of the feed, in their order. *)
Theorem run_handles_every_market_event_in_order
    (fuel : nat) (w w' : World) (out : Outcome unit) :
  fully_wired (self w) ->
  run fuel w = Some (w', out) ->
  let during := drop (length (calls w)) (calls w') in
  times_called m_stream_next during = length (feed_stream (_data_feed (self w))) /\
  List.filter is_market (handled during) =
    List.filter is_market
      (_queue (_events_engine (self w)) ++ feed_stream (_data_feed (self w))).
Proof.
  intros Hfull Hrun during.
  assert (Hw: wired (self w)).
  { destruct Hfull as [Hall Hst]. intros k h Hk. rewrite Hall in Hk.
    injection Hk as <-. by split. }
  destruct (BacktestEventEngine_run fuel w) as [[w1 out1]|] eqn:Hloop;
    [| unfold run, mbind, M_bind in Hrun; by rewrite Hloop in Hrun].
  destruct (event_loop_log fuel w w1 out1 Hw Hloop)
    as (-> & _ & body & Hc1 & _ & Hpulled & Hmarket).
  destruct (run_after_loop fuel w w1 Hloop) as (w2 & s2 & s3 & Hrun2 & Hc2 & _).
  rewrite Hrun2 in Hrun. injection Hrun as <- <-.
  assert (Hd: during = body ++
            [(self w1, Call_update_final_performance (_current_time (self w1))
                         (_portfolio_manager (self w1)) (_data_board (self w1)));
             (s2, Call_save_results (_output_dir (self w1)));
             (s3, Call_create_tearsheet)]).
  { unfold during. by rewrite Hc2, Hc1, <- app_assoc, drop_app_length. }
  rewrite Hd, times_called_app, handled_app, List.filter_app, Hpulled, (Hmarket Hfull).
  simpl. unfold times_called. simpl. rewrite app_nil_r. split; [lia | reflexivity].
Qed.

End EngineFacts.

(** * The engine on the concrete components *)

#[local] Existing Instance Demo.events.
#[local] Existing Instance Demo.components.

(** The sentinel, spelled out. *)
Example sentinel_is_1900 : Timestamp_of_date 1900 1 1 = -2208988800000000000.
Proof. reflexivity. Qed.

(** [upper] follows Unicode: the long s becomes S, the sharp s becomes SS;
    and the long s matches s without regard to case. *)
Example upper_beyond_ascii :
  upper "tuſhare" = "TUSHARE" /\ upper "straße" = "STRASSE" /\
  eq_nocase "tuſhare" "TUSHARE" = true /\ eq_nocase "tushar" "TUSHARE" = false.
Proof. vm_compute. done. Qed.

(** The code points of a string, and back. *)
Example code_points_round_trip :
  code_points "aſé€" = [97; 383; 233; 8364]%N /\
  str_of_code_points (code_points "aſé€") = "aſé€".
Proof. vm_compute. done. Qed.

(** With the data source spelled "tuſhare" the constructor builds the
    Tushare feed. *)
Example long_s_selects_tushare :
  match outcome (__init__ Demo.market_data Demo.strategy_list
                   Demo.config_long_s Demo.heap) with
  | Return s => Some (feed_class (_data_feed s))
  | Raise _ => None
  end = Some BacktestDataFeedTushare.
Proof. vm_compute. reflexivity. Qed.

Example upper_mixed_case : upper "Local" = "LOCAL" /\ upper "tuShare" = "TUSHARE".
Proof. split; reflexivity. Qed.

(** Scenario A of the specification: the first tick at 10 makes the
    strategy buy 100, filled at 10. *)
Example buy_is_filled_at_board_price :
  (fun r => (Demo.pf_cash (_portfolio_manager (self r.1)),
             Demo.pf_positions (_portfolio_manager (self r.1)) !! "X"))
    <$> run 5 Demo.world
  = Some (99000, Some 100).
Proof. vm_compute. reflexivity. Qed.

(** Scenario B: the row of the second tick is valued at the first tick's
    price; the price of the second tick shows in the final row. *)
Example rows_are_valued_at_previous_mark :
  (fun r => Demo.perf_rows (_performance_manager (self r.1))) <$> run 5 Demo.world
  = Some [(Demo.t0, 100000); (Demo.t1, 100000); (Demo.t1, 100200)].
Proof. vm_compute. reflexivity. Qed.

(** The calls of that run, by method. *)
Example calls_of_a_run :
  (fun r => methods (calls r.1)) <$> run 5 Demo.world
  = Some [m_stream_next; m_handler; m_update_performance; m_mark_to_market;
          m_board_on_tick; m_strategy_on_tick;
          m_handler; m_place_order;
          m_handler; m_portfolio_on_fill; m_performance_on_fill;
          m_stream_next; m_handler; m_update_performance; m_mark_to_market;
          m_board_on_tick; m_strategy_on_tick;
          m_update_final_performance; m_save_results; m_create_tearsheet].
Proof. vm_compute. reflexivity. Qed.

(** Four units of fuel are not enough for that run. *)
Example run_needs_its_fuel : (fun _ => tt) <$> run 4 Demo.world = None.
Proof. vm_compute. reflexivity. Qed.

(** A bar moves the clock to its end time and marks at the adjusted close. *)
Example bar_marks_at_adjusted_close :
  (fun r => (_current_time (self r.1),
             Demo.pf_marks (_portfolio_manager (self r.1)) !! "X"))
    <$> _bar_event_handler Demo.bar1 Demo.world
  = Some (Demo.t1, Some 12).
Proof. vm_compute. reflexivity. Qed.

(** A fill on its own: cash and trade count. *)
Example fill_moves_cash_and_counts :
  (fun r => (Demo.pf_cash (_portfolio_manager (self r.1)),
             Demo.perf_trades (_performance_manager (self r.1))))
    <$> _fill_event_handler Demo.fill0 Demo.world
  = Some (99000, 1%nat).
Proof. vm_compute. reflexivity. Qed.

(** The constructor on [Demo.config] returns [Demo.engine]. *)
Lemma demo_constructed :
  outcome (__init__ Demo.market_data Demo.strategy_list Demo.config Demo.heap)
  = Return Demo.engine.
Proof. reflexivity. Qed.

Lemma demo_wired : wired Demo.engine.
Proof. exact (init_wired _ _ _ _ _ demo_constructed). Qed.

Lemma board_updated_before_strategy_only_witness :
  is_Some (_strategy (self Demo.world)) /\
  exists w',
    _tick_event_handler Demo.tick0 Demo.world = Some (w', Return tt) /\
    board_updated_between (Call_board_on_tick Demo.tick0)
      (Call_strategy_on_tick Demo.tick0) (board_on_tick Demo.tick0) Demo.world w'.
Proof.
  assert (Hs: is_Some (_strategy (self Demo.world))) by (eexists; reflexivity).
  split; [exact Hs |].
  exact (proj1 (board_updated_before_strategy_only Demo.world Hs) Demo.tick0).
Defined.

(** C3 fails on the code: the order handler places the order and no call of
    the risk manager comes before it. *)
Lemma order_is_placed_unchecked :
  ~ risk_checked_before_placing Demo.order0 Demo.world.
Proof.
  intros Hchecked.
  destruct (Hchecked _ _ eq_refl 0%nat _ eq_refl) as (j & _ & _ & Hj & _).
  lia.
Qed.

(** C4 fails on the code: [Demo.config_unknown] names a strategy that is not
    registered, and the constructor returns all the same. *)
Lemma unknown_strategy_does_not_fail :
  Demo.strategy_list !! strategy Demo.config_unknown = None /\
  ~ construction_fails Demo.market_data Demo.strategy_list
      Demo.config_unknown Demo.heap.
Proof.
  split; [reflexivity |].
  intros [x Hx]. discriminate Hx.
Qed.

Lemma unknown_strategy_is_printed_not_raised_witness :
  Demo.heap !! tickers Demo.config_unknown = Some [PyStr "X"] /\
  Demo.strategy_list !! strategy Demo.config_unknown = None /\
  exists s,
    outcome (__init__ Demo.market_data Demo.strategy_list Demo.config_unknown Demo.heap)
      = Return s /\
    stdout (__init__ Demo.market_data Demo.strategy_list Demo.config_unknown Demo.heap)
      = ["can not find strategy：Momentum"] /\
    _strategy s = None /\
    _handlers (_events_engine s) = ∅.
Proof.
  assert (Hl: Demo.heap !! tickers Demo.config_unknown = Some [PyStr "X"])
    by reflexivity.
  assert (Hs: Demo.strategy_list !! strategy Demo.config_unknown = None)
    by reflexivity.
  split; [exact Hl |]. split; [exact Hs |].
  destruct (unknown_strategy_is_printed_not_raised Demo.market_data
              Demo.strategy_list Demo.config_unknown Demo.heap _ Hl Hs)
    as (s & Hout & Hprint & Hnone & Hempty & _).
  exists s. split_and!; assumption.
Defined.

Lemma run_drains_feed_then_final_snapshot_witness :
  wired (self Demo.world) /\
  exists w1 w' during,
    (exists fuel, run fuel Demo.world = Some (w', Return tt)) /\
    feed_stream (_data_feed (self w1)) = [] /\
    calls w1 = calls Demo.world ++ during /\
    times_called m_update_final_performance
      (drop (length (calls Demo.world)) (calls w')) = 1%nat.
Proof.
  split; [exact demo_wired |].
  destruct (run_drains_feed_then_final_snapshot Demo.world demo_wired)
    as (w1 & w' & during & s2 & s3 & (fuel & _ & Hrun) & _ & Hfeed & _ & Hcalls
        & _ & _ & Honce & _).
  exists w1, w', during. split_and!; try assumption. by exists fuel.
Defined.

Lemma other_datasource_selects_quandl_witness :
  Demo.heap !! tickers Demo.config = Some [PyStr "X"] /\
  eq_nocase (py_str (datasource Demo.config)) "LOCAL" = false /\
  eq_nocase (py_str (datasource Demo.config)) "TUSHARE" = false /\
  exists s,
    outcome (__init__ Demo.market_data Demo.strategy_list Demo.config Demo.heap)
      = Return s /\
    feed_class (_data_feed s) = BacktestDataFeedQuandl.
Proof.
  assert (Hl: Demo.heap !! tickers Demo.config = Some [PyStr "X"]) by reflexivity.
  split; [exact Hl |]. split; [reflexivity |]. split; [reflexivity |].
  destruct (other_datasource_selects_quandl Demo.market_data Demo.strategy_list
              Demo.config Demo.heap _ Hl eq_refl eq_refl)
    as (s & Hout & Hclass & _).
  exists s. split; assumption.
Defined.

Lemma benchmark_is_subscribed_but_not_traded_witness :
  Demo.heap !! tickers Demo.config = Some [PyStr "X"] /\
  benchmark Demo.config <> PyNone /\
  exists s,
    outcome (__init__ Demo.market_data Demo.strategy_list Demo.config Demo.heap)
      = Return s /\
    feed_symbols (_data_feed s) = ["X"; "SPX"] /\
    _symbols s = ["X"] /\
    heap_after (__init__ Demo.market_data Demo.strategy_list Demo.config Demo.heap)
      !! tickers Demo.config = Some [PyStr "X"].
Proof.
  assert (Hl: Demo.heap !! tickers Demo.config = Some [PyStr "X"]) by reflexivity.
  assert (Hb: benchmark Demo.config <> PyNone) by discriminate.
  split; [exact Hl |]. split; [exact Hb |].
  destruct (benchmark_is_subscribed_but_not_traded Demo.market_data
              Demo.strategy_list Demo.config Demo.heap _ Hl Hb)
    as (s & Hout & Hfeed & _ & Hsym & Hkept & _).
  exists s. split_and!; assumption.
Defined.

Lemma clock_is_time_of_last_market_event_witness :
  outcome (__init__ Demo.market_data Demo.strategy_list Demo.config Demo.heap)
    = Return Demo.engine /\
  _current_time Demo.engine = Timestamp_of_date 1900 1 1 /\
  exists w' out made,
    _tick_event_handler Demo.tick1 Demo.world = Some (w', out) /\
    calls w' = calls Demo.world ++ made /\
    Forall (fun c => _current_time c.1 = Demo.t1) made /\
    _current_time (self w') = Demo.t1.
Proof.
  split; [exact demo_constructed |].
  destruct (clock_is_time_of_last_market_event Demo.market_data Demo.strategy_list
              Demo.config Demo.heap Demo.engine demo_constructed)
    as ((Hclock & _) & Htick & _).
  split; [exact Hclock |].
  destruct (Htick Demo.tick1 Demo.world) as (w' & out & made & Hrun & Hcalls & _ & Hall & Hend).
  exists w', out, made. split_and!; assumption.
Defined.

(** ** The further properties on the concrete components *)

Lemma demo_fully_wired : fully_wired Demo.engine.
Proof. split; [intros []; reflexivity | eexists; reflexivity]. Qed.

(** A finished run of [Demo.world]. *)
Lemma demo_run : exists fuel w', run fuel Demo.world = Some (w', Return tt).
Proof.
  destruct (event_loop_finishes _ _ _ Demo.world eq_refl eq_refl eq_refl demo_wired)
    as (fuel & w1 & Hloop & _).
  destruct (run_after_loop fuel _ w1 Hloop) as (w' & _ & _ & Hrun & _).
  by exists fuel, w'.
Qed.

Lemma market_handler_only_enqueues_orders_witness :
  _strategy (self Demo.world)
    = Some {| strategy_class := Demo.BuyAndHold; strategy_state := 0%nat |} /\
  exists w',
    _tick_event_handler Demo.tick0 Demo.world = Some (w', Return tt) /\
    _backtest_brokerage (self w') = _backtest_brokerage (self Demo.world) /\
    methods (drop (length (calls Demo.world)) (calls w')) =
      [m_update_performance; m_mark_to_market; m_board_on_tick; m_strategy_on_tick].
Proof.
  assert (Hst: _strategy (self Demo.world)
               = Some {| strategy_class := Demo.BuyAndHold; strategy_state := 0%nat |})
    by reflexivity.
  split; [exact Hst |].
  destruct (proj1 (market_handler_only_enqueues_orders Demo.world _ Hst) Demo.tick0)
    as (w' & Hrun & Hbroker & _ & _ & _ & Hmethods & _).
  exists w'. split_and!; assumption.
Defined.

Lemma market_handler_without_strategy_raises_witness :
  _strategy (self Demo.world_unknown) = None /\
  exists w',
    _tick_event_handler Demo.tick0 Demo.world_unknown
      = Some (w', Raise (AttributeError "_strategy")) /\
    _current_time (self w') = Demo.t0 /\
    _events_engine (self w') = _events_engine (self Demo.world_unknown).
Proof.
  assert (Hst: _strategy (self Demo.world_unknown) = None) by reflexivity.
  split; [exact Hst |].
  destruct (proj1 (market_handler_without_strategy_raises Demo.world_unknown Hst) Demo.tick0)
    as (w' & Hrun & _ & Hclock & _ & _ & _ & Hengine).
  exists w'. split_and!; assumption.
Defined.

Lemma second_snapshot_sees_first_mark_witness :
  is_Some (_strategy (self Demo.world)) /\
  exists w1 w2,
    _tick_event_handler Demo.tick0 Demo.world = Some (w1, Return tt) /\
    _tick_event_handler Demo.tick1 w1 = Some (w2, Return tt) /\
    _data_board (self w2)
      = board_on_tick Demo.tick1 (board_on_tick Demo.tick0 (_data_board (self Demo.world))).
Proof.
  assert (Hs: is_Some (_strategy (self Demo.world))) by (eexists; reflexivity).
  split; [exact Hs |].
  destruct (second_snapshot_sees_first_mark Demo.world Demo.tick0 Demo.tick1 Hs)
    as (w1 & w2 & _ & _ & Hrun1 & Hrun2 & _ & _ & _ & Hboard).
  exists w1, w2. split_and!; assumption.
Defined.

Lemma datasource_decides_feed_witness :
  Demo.heap !! tickers Demo.config_local = Some [PyStr "X"] /\
  exists s,
    outcome (__init__ Demo.market_data Demo.strategy_list Demo.config_local Demo.heap)
      = Return s /\
    feed_class (_data_feed s) = BacktestDataFeedLocal.
Proof.
  assert (Hl: Demo.heap !! tickers Demo.config_local = Some [PyStr "X"]) by reflexivity.
  split; [exact Hl |].
  destruct (datasource_decides_feed Demo.market_data Demo.strategy_list
              Demo.config_local Demo.heap _ Hl) as (s & Hout & Hclass & _).
  exists s. split; assumption.
Defined.

Lemma no_benchmark_subscribes_tickers_only_witness :
  Demo.heap !! tickers Demo.config_local = Some [PyStr "X"] /\
  benchmark Demo.config_local = PyNone /\
  exists s,
    outcome (__init__ Demo.market_data Demo.strategy_list Demo.config_local Demo.heap)
      = Return s /\
    feed_symbols (_data_feed s) = _symbols s /\
    _symbols s = ["X"].
Proof.
  assert (Hl: Demo.heap !! tickers Demo.config_local = Some [PyStr "X"]) by reflexivity.
  split; [exact Hl |]. split; [reflexivity |].
  destruct (no_benchmark_subscribes_tickers_only Demo.market_data Demo.strategy_list
              Demo.config_local Demo.heap _ Hl eq_refl)
    as (s & Hout & Hfeed & _ & Hsym & _).
  exists s. split_and!; assumption.
Defined.

Lemma registered_strategy_is_started_and_wired_witness :
  Demo.heap !! tickers Demo.config = Some [PyStr "X"] /\
  Demo.strategy_list !! strategy Demo.config = Some Demo.BuyAndHold /\
  exists s,
    outcome (__init__ Demo.market_data Demo.strategy_list Demo.config Demo.heap)
      = Return s /\
    stdout (__init__ Demo.market_data Demo.strategy_list Demo.config Demo.heap) = [] /\
    fully_wired s.
Proof.
  assert (Hl: Demo.heap !! tickers Demo.config = Some [PyStr "X"]) by reflexivity.
  assert (Hs: Demo.strategy_list !! strategy Demo.config = Some Demo.BuyAndHold)
    by reflexivity.
  split; [exact Hl |]. split; [exact Hs |].
  destruct (registered_strategy_is_started_and_wired Demo.market_data
              Demo.strategy_list Demo.config Demo.heap _ _ Hl Hs)
    as (s & Hout & Hprint & _ & _ & Hwired & _).
  exists s. split_and!; assumption.
Defined.

Lemma run_calls_are_whole_blocks_witness :
  wired (self Demo.world) /\
  exists fuel w',
    run fuel Demo.world = Some (w', Return tt) /\
    exists body closing,
      calls w' = calls Demo.world ++ body ++ closing /\
      in_blocks (methods body) /\ length closing = 3%nat.
Proof.
  split; [exact demo_wired |].
  destruct demo_run as (fuel & w' & Hrun).
  exists fuel, w'. split; [exact Hrun |].
  destruct (run_calls_are_whole_blocks fuel Demo.world w' demo_wired Hrun)
    as (body & s1 & s2 & s3 & Hcalls & Hblocks).
  eexists body, _. split; [exact Hcalls |]. split; [exact Hblocks | reflexivity].
Defined.

Lemma run_handles_every_market_event_in_order_witness :
  fully_wired (self Demo.world) /\
  exists fuel w',
    run fuel Demo.world = Some (w', Return tt) /\
    List.filter is_market (handled (drop (length (calls Demo.world)) (calls w')))
      = [TickE Demo.tick0; TickE Demo.tick1].
Proof.
  split; [exact demo_fully_wired |].
  destruct demo_run as (fuel & w' & Hrun).
  exists fuel, w'. split; [exact Hrun |].
  exact (proj2 (run_handles_every_market_event_in_order fuel Demo.world w' _
                  demo_fully_wired Hrun)).
Defined.
